(** * Web execution layer: escalation, drift detection and alert throttling

    A shallow embedding of the decision logic of the workshop code base:

    - [EnvironmentAnalyzer], [CostTracker], [HttpExecutor] and
      [EscalationHandler] of [src/part1-http-execution/index.js];
    - [EnvironmentMonitor] and [AlertingSystem] of the resilience module
      (part 4), with its default alert rules.

    Conventions of the embedding.

    - JavaScript strings are [string]s of 8-bit characters; case folding,
      whitespace and lengths are those of the ASCII range.
    - JavaScript numbers that hold counts or milliseconds are [Z] or [nat];
      the confidence score and the costs, which are decimal fractions that
      are only added, compared and clamped, are exact rationals ([Q]).
      The confidence score is also computed as the code computes it, in
      IEEE 754 double precision ([Binary64]): what is said about its
      value is said about the double.
    - [async] methods are run to completion: a call is a state transformer
      and the suspension points inside it are not interleaved with other
      calls.  [Date.now()] and [new Date()] read a clock that is passed in.
      The dispatcher of the alerting system, whose calls [pipe] starts
      without awaiting them, is also given one resumption at a time
      ([Stepwise]), with every [await] a suspension point and every
      reading of the clock a reading of its own; run in one piece with a
      clock that stands still it is the state transformer.
    - A thrown exception is a value of a sum type carrying the message.
    - What the code draws from outside is an argument of the model: the
      answers of the network, the number of matches of a selector on the
      simulated page, the outcome of the regional checks.
    - Objects used as maps are [gmap]s over their string keys (for the
      executors of the escalation handler, the keys under which a lookup
      finds a member, own or inherited); the response headers, which the
      code serialises, are an association list. *)

From Stdlib Require Import Floats.
From Stdlib Require Import ZArith QArith Qabs String Ascii List Lia Sorted.
From stdpp Require Import base option list gmap strings pretty fin_maps.

Local Open Scope string_scope.
Local Open Scope list_scope.
Local Open Scope Z_scope.

(** Decimal literals of the code stand for the nearest double. *)
Set Warnings "-inexact-float".
Set Warnings "-register-all".

(** ** JavaScript primitives used by the code *)

Module JS.

(** [String.prototype.includes]. *)
Fixpoint includes (s pat : string) : bool :=
  String.prefix pat s
  || match s with
     | EmptyString => false
     | String _ s' => includes s' pat
     end.

(** Truthiness of a string value. *)
Definition truthy (s : string) : bool :=
  negb (String.eqb s EmptyString).

(** [a || b] on an optional string ([undefined] and [''] are falsy). *)
Definition or_else (a : option string) (b : string) : string :=
  match a with
  | Some s => if truthy s then s else b
  | None => b
  end.

(** [a || b] on an optional number ([undefined] and [0] are falsy). *)
Definition num_or_else (a : option Z) (b : Z) : Z :=
  match a with
  | Some n => if Z.eqb n 0 then b else n
  | None => b
  end.

Definition lower_ascii (c : ascii) : ascii :=
  let n := nat_of_ascii c in
  if (Nat.leb 65 n && Nat.leb n 90)%bool then ascii_of_nat (n + 32) else c.

(** [String.prototype.toLowerCase]. *)
Fixpoint toLowerCase (s : string) : string :=
  match s with
  | EmptyString => EmptyString
  | String c s' => String (lower_ascii c) (toLowerCase s')
  end.

Definition is_gt (c : ascii) : bool := Ascii.eqb c ">".
Definition is_lt (c : ascii) : bool := Ascii.eqb c "<".

Fixpoint has_gt (s : string) : bool :=
  match s with
  | EmptyString => false
  | String c s' => is_gt c || has_gt s'
  end.

(** [s.replace(/<[^>]*>/g, '')]: a ['<'] opens a match exactly when a
    ['>'] follows somewhere; the match then runs to the first ['>'].
    [in_tag] is set while the scanner is inside a match. *)
Fixpoint strip_tags_from (in_tag : bool) (s : string) : string :=
  match s with
  | EmptyString => EmptyString
  | String c s' =>
      if in_tag then
        if is_gt c then strip_tags_from false s' else strip_tags_from true s'
      else if (is_lt c && has_gt s')%bool then strip_tags_from true s'
      else String c (strip_tags_from false s')
  end.

Definition strip_tags (s : string) : string := strip_tags_from false s.

(** White space of the ASCII range: TAB, LF, VT, FF, CR and SPACE. *)
Definition is_space (c : ascii) : bool :=
  let n := nat_of_ascii c in
  ((Nat.leb 9 n && Nat.leb n 13) || Nat.eqb n 32)%bool.

Fixpoint trimStart (s : string) : string :=
  match s with
  | EmptyString => EmptyString
  | String c s' => if is_space c then trimStart s' else s
  end.

Fixpoint trimEnd (s : string) : string :=
  match s with
  | EmptyString => EmptyString
  | String c s' =>
      let t := trimEnd s' in
      if (is_space c && String.eqb t EmptyString)%bool then EmptyString else String c t
  end.

(** [String.prototype.trim]. *)
Definition trim (s : string) : string := trimEnd (trimStart s).

(** [Array.prototype.indexOf] on an array of strings: [-1] when absent. *)
Fixpoint indexOf (l : list string) (x : string) : Z :=
  match l with
  | [] => -1
  | y :: l' =>
      if String.eqb y x then 0
      else let i := indexOf l' x in
           if i <? 0 then -1 else i + 1
  end.

(** [patterns.some(p => s.includes(p))], the effect of the
    [for ... if (includes) { ...; break }] loops. *)
Definition includes_any (s : string) (patterns : list string) : bool :=
  existsb (includes s) patterns.

End JS.

(** Options bag passed to executors and to the escalation handler. *)
Record options := {
  startLevel : option string;
  geo : option string;
  method : option string
}.

Definition no_options : options :=
  {| startLevel := None; geo := None; method := None |}.

(** An awaited call either returns a value or throws an [Error] with a
    message. *)
Inductive outcome (R : Type) : Type :=
| Returns (result : R)
| Throws (message : string).
Arguments Returns {R} result.
Arguments Throws {R} message.

(** An HTTP response as axios hands it over.  [data] is either a string
    or a parsed value, of which the code only uses [JSON.stringify(data)]
    and [data.length || 0]. *)
Inductive body_data : Type :=
| DString (text : string)
| DParsed (json : string) (len : Z).

Record response := {
  status : Z;
  headers : list (string * string);
  data : body_data
}.

(** What the network gives for one request: an answer or a transport
    error. *)
Inductive wire : Type :=
| Answer (r : response)
| Failure (message : string).

(** [headers[name]]. *)
Fixpoint header (hs : list (string * string)) (name : string) : option string :=
  match hs with
  | [] => None
  | (k, v) :: hs' => if String.eqb k name then Some v else header hs' name
  end.

(** ** [JSON.stringify] of an object whose values are strings *)

Module JSON.

Definition dquote : ascii := ascii_of_nat 34.
Definition backslash : ascii := ascii_of_nat 92.

Definition hex_digit (n : nat) : ascii :=
  if Nat.ltb n 10 then ascii_of_nat (48 + n) else ascii_of_nat (87 + n).

Definition escape (c : ascii) : string :=
  let n := nat_of_ascii c in
  if Nat.eqb n 34 then String backslash (String dquote EmptyString)
  else if Nat.eqb n 92 then String backslash (String backslash EmptyString)
  else if Nat.eqb n 8 then "\b"
  else if Nat.eqb n 9 then "\t"
  else if Nat.eqb n 10 then "\n"
  else if Nat.eqb n 12 then "\f"
  else if Nat.eqb n 13 then "\r"
  else if Nat.ltb n 32 then
    "\u00" +:+ String (hex_digit (n / 16)) (String (hex_digit (n mod 16)) EmptyString)
  else String c EmptyString.

Fixpoint escape_all (s : string) : string :=
  match s with
  | EmptyString => EmptyString
  | String c s' => escape c +:+ escape_all s'
  end.

Definition quote (s : string) : string :=
  String dquote (escape_all s) +:+ String dquote EmptyString.

Fixpoint members (kvs : list (string * string)) : string :=
  match kvs with
  | [] => EmptyString
  | [(k, v)] => quote k +:+ ":" +:+ quote v
  | (k, v) :: rest => quote k +:+ ":" +:+ quote v +:+ "," +:+ members rest
  end.

Definition stringify (kvs : list (string * string)) : string :=
  "{" +:+ members kvs +:+ "}".

End JSON.

(** ** Section 1 of part 1: the environment analyzer *)

Module EnvironmentAnalyzer.

Definition jsFrameworkPatterns : list string :=
  ["react"; "vue"; "angular"; "svelte"; "next.js"; "nuxt";
   "__NEXT_DATA__"; "__NUXT__"; "ng-app"; "data-reactroot"].

Definition antiBotPatterns : list string :=
  ["cloudflare"; "incapsula"; "perimeterx"; "datadome";
   "kasada"; "akamai"; "cf-browser-verification";
   "challenge-platform"; "_cf_chl"].

Definition dynamicContentPatterns : list string :=
  ["infinite-scroll"; "load-more"; "lazy-load";
   "data-src"; "data-lazy"; "intersection-observer"].

Record signals := {
  requiresJavaScript : bool;
  hasAntiBot : bool;
  hasDynamicContent : bool;
  confidence : Q
}.

Definition no_signals : signals :=
  {| requiresJavaScript := false; hasAntiBot := false;
     hasDynamicContent := false; confidence := 0 |}.

(** The three assignments of the code, each with its
    [signals.confidence += w]. *)
Definition set_requiresJavaScript (w : Q) (s : signals) : signals :=
  {| requiresJavaScript := true; hasAntiBot := hasAntiBot s;
     hasDynamicContent := hasDynamicContent s;
     confidence := (confidence s + w)%Q |}.

Definition set_hasAntiBot (w : Q) (s : signals) : signals :=
  {| requiresJavaScript := requiresJavaScript s; hasAntiBot := true;
     hasDynamicContent := hasDynamicContent s;
     confidence := (confidence s + w)%Q |}.

Definition set_hasDynamicContent (w : Q) (s : signals) : signals :=
  {| requiresJavaScript := requiresJavaScript s; hasAntiBot := hasAntiBot s;
     hasDynamicContent := true;
     confidence := (confidence s + w)%Q |}.

Definition truthy_header (hs : list (string * string)) (name : string) : bool :=
  match header hs name with
  | Some v => JS.truthy v
  | None => false
  end.

(** [headers['cf-ray'] || headers['cf-cache-status']]. *)
Definition cloudflare_headers (hs : list (string * string)) : bool :=
  truthy_header hs "cf-ray" || truthy_header hs "cf-cache-status".

(** The test on [JSON.stringify(headers).toLowerCase()]. *)
Definition protection_headers (hs : list (string * string)) : bool :=
  let headerString := JS.toLowerCase (JSON.stringify hs) in
  JS.includes headerString "incapsula"
  || JS.includes headerString "perimeterx"
  || JS.includes headerString "datadome".

Definition analyzeHeaders (hs : list (string * string)) (s : signals) : signals :=
  let s := if cloudflare_headers hs then set_hasAntiBot (2 # 10) s else s in
  if protection_headers hs then set_hasAntiBot (3 # 10) s else s.

(** One [for (const pattern of patterns)] loop with its [break]. *)
Definition matches (lowerHtml : string) (patterns : list string) : bool :=
  JS.includes_any lowerHtml (map JS.toLowerCase patterns).

(** [html.length < 5000] and the stripped, trimmed text shorter than
    500 characters. *)
Definition minimal_content (html : string) : bool :=
  (Z.of_nat (String.length html) <? 5000)
  && (Z.of_nat (String.length (JS.trim (JS.strip_tags html))) <? 500).

Definition analyzeContent (html : string) (s : signals) : signals :=
  let lowerHtml := JS.toLowerCase html in
  let s := if matches lowerHtml jsFrameworkPatterns
           then set_requiresJavaScript (15 # 100) s else s in
  let s := if matches lowerHtml antiBotPatterns
           then set_hasAntiBot (2 # 10) s else s in
  let s := if matches lowerHtml dynamicContentPatterns
           then set_hasDynamicContent (1 # 10) s else s in
  if minimal_content html then set_requiresJavaScript (3 # 10) s else s.

Inductive complexity : Type := Low | Medium | High.

Definition calculateComplexity (s : signals) : complexity :=
  if hasAntiBot s then High
  else if requiresJavaScript s || hasDynamicContent s then Medium
  else Low.

Definition getRecommendedExecution (c : complexity) (s : signals) : string :=
  match c with
  | High => "browser-advanced"
  | Medium => if hasAntiBot s then "browser-advanced" else "browser-light"
  | Low => "http"
  end.

Definition generateDetails (s : signals) : list string :=
  let details :=
    ((if requiresJavaScript s then ["JavaScript rendering required"] else [])
     ++ (if hasAntiBot s then ["Anti-bot protection detected"] else [])
     ++ (if hasDynamicContent s then ["Dynamic content loading detected"] else []))%list in
  match details with
  | [] => ["Simple static page detected"]
  | _ => details
  end.

(** [Math.min(x, 1)]. *)
Definition min_one (x : Q) : Q := if Qle_bool x 1 then x else 1%Q.

Record analysis := {
  url : string;
  analysis_signals : signals;
  analysis_complexity : complexity;
  recommendedExecution : string;
  analysis_confidence : Q;
  error : option string;
  details : list string
}.

(** [analyze]: [fetched] is how [axios.get] settled ([validateStatus]
    accepts every status, so an answer is never turned into an error). *)
Definition analyze (target : string) (fetched : wire) : analysis :=
  match fetched with
  | Answer resp =>
      let s := analyzeHeaders (headers resp) no_signals in
      let s := match data resp with
               | DString html => analyzeContent html s
               | DParsed _ _ => s
               end in
      let c := calculateComplexity s in
      {| url := target;
         analysis_signals := s;
         analysis_complexity := c;
         recommendedExecution := getRecommendedExecution c s;
         analysis_confidence := min_one (confidence s);
         error := None;
         details := generateDetails s |}
  | Failure message =>
      {| url := target;
         analysis_signals := no_signals;
         analysis_complexity := High;
         recommendedExecution := "browser-advanced";
         analysis_confidence := 3 # 10;
         error := Some message;
         details := ["Analysis failed - recommending browser execution for safety"] |}
  end.

End EnvironmentAnalyzer.

(** ** The analyzer with its confidence in double precision *)

Module Binary64.

(** [signals.confidence] is a JavaScript number: a double that starts at
    [0] and to which [+=] adds the double nearest to a decimal literal,
    rounding to nearest after each addition. *)
Record signals := {
  requiresJavaScript : bool;
  hasAntiBot : bool;
  hasDynamicContent : bool;
  confidence : float
}.

Definition no_signals : signals :=
  {| requiresJavaScript := false; hasAntiBot := false;
     hasDynamicContent := false; confidence := 0%float |}.

Definition set_requiresJavaScript (w : float) (s : signals) : signals :=
  {| requiresJavaScript := true; hasAntiBot := hasAntiBot s;
     hasDynamicContent := hasDynamicContent s;
     confidence := (confidence s + w)%float |}.

Definition set_hasAntiBot (w : float) (s : signals) : signals :=
  {| requiresJavaScript := requiresJavaScript s; hasAntiBot := true;
     hasDynamicContent := hasDynamicContent s;
     confidence := (confidence s + w)%float |}.

Definition set_hasDynamicContent (w : float) (s : signals) : signals :=
  {| requiresJavaScript := requiresJavaScript s; hasAntiBot := hasAntiBot s;
     hasDynamicContent := true;
     confidence := (confidence s + w)%float |}.

Definition analyzeHeaders (hs : list (string * string)) (s : signals) : signals :=
  let s := if EnvironmentAnalyzer.cloudflare_headers hs
           then set_hasAntiBot 0.2%float s else s in
  if EnvironmentAnalyzer.protection_headers hs
  then set_hasAntiBot 0.3%float s else s.

Definition analyzeContent (html : string) (s : signals) : signals :=
  let lowerHtml := JS.toLowerCase html in
  let s := if EnvironmentAnalyzer.matches lowerHtml
                EnvironmentAnalyzer.jsFrameworkPatterns
           then set_requiresJavaScript 0.15%float s else s in
  let s := if EnvironmentAnalyzer.matches lowerHtml
                EnvironmentAnalyzer.antiBotPatterns
           then set_hasAntiBot 0.2%float s else s in
  let s := if EnvironmentAnalyzer.matches lowerHtml
                EnvironmentAnalyzer.dynamicContentPatterns
           then set_hasDynamicContent 0.1%float s else s in
  if EnvironmentAnalyzer.minimal_content html
  then set_requiresJavaScript 0.3%float s else s.

Definition calculateComplexity (s : signals) : EnvironmentAnalyzer.complexity :=
  if hasAntiBot s then EnvironmentAnalyzer.High
  else if requiresJavaScript s || hasDynamicContent s
       then EnvironmentAnalyzer.Medium
  else EnvironmentAnalyzer.Low.

Definition getRecommendedExecution (c : EnvironmentAnalyzer.complexity)
    (s : signals) : string :=
  match c with
  | EnvironmentAnalyzer.High => "browser-advanced"
  | EnvironmentAnalyzer.Medium =>
      if hasAntiBot s then "browser-advanced" else "browser-light"
  | EnvironmentAnalyzer.Low => "http"
  end.

Definition generateDetails (s : signals) : list string :=
  let details :=
    ((if requiresJavaScript s then ["JavaScript rendering required"] else [])
     ++ (if hasAntiBot s then ["Anti-bot protection detected"] else [])
     ++ (if hasDynamicContent s then ["Dynamic content loading detected"] else []))%list in
  match details with
  | [] => ["Simple static page detected"]
  | _ => details
  end.

(** [Math.min(x, y)]: [NaN] if either argument is, and [-0] below [+0]. *)
Definition Math_min (x y : float) : float :=
  if (PrimFloat.is_nan x || PrimFloat.is_nan y)%bool then PrimFloat.nan
  else if (x <? y)%float then x
  else if (y <? x)%float then y
  else if PrimFloat.get_sign x then x else y.

Record analysis := {
  url : string;
  analysis_signals : signals;
  analysis_complexity : EnvironmentAnalyzer.complexity;
  recommendedExecution : string;
  analysis_confidence : float;
  error : option string;
  details : list string
}.

Definition analyze (target : string) (fetched : wire) : analysis :=
  match fetched with
  | Answer resp =>
      let s := analyzeHeaders (headers resp) no_signals in
      let s := match data resp with
               | DString html => analyzeContent html s
               | DParsed _ _ => s
               end in
      let c := calculateComplexity s in
      {| url := target;
         analysis_signals := s;
         analysis_complexity := c;
         recommendedExecution := getRecommendedExecution c s;
         analysis_confidence := Math_min (confidence s) 1%float;
         error := None;
         details := generateDetails s |}
  | Failure message =>
      {| url := target;
         analysis_signals := no_signals;
         analysis_complexity := EnvironmentAnalyzer.High;
         recommendedExecution := "browser-advanced";
         analysis_confidence := 0.3%float;
         error := Some message;
         details := ["Analysis failed - recommending browser execution for safety"] |}
  end.

(** The real number a double stands for, when it is finite. *)
Definition value (x : float) : option Q :=
  match Prim2SF x with
  | S754_zero _ => Some 0%Q
  | S754_finite negative m e =>
      Some ((if negative then -1 else 1) * inject_Z (Z.pos m) * Qpower 2 e)%Q
  | S754_infinity _ | S754_nan => None
  end.

(** The test [analysis.confidence > 0.7] of [fetchWithAnalysis]. *)
Definition too_complex (a : analysis) : bool :=
  negb (String.eqb (recommendedExecution a) "http")
  && (0.7 <? analysis_confidence a)%float.

End Binary64.

(** ** Section 2 of part 1: the cost tracker *)

Module CostTracker.

Record rate := { base : Q; perKB : Q }.

Definition rates : gmap string rate :=
  <["http" := {| base := 1 # 1000; perKB := 1 # 100000 |}]>
  (<["browser-light" := {| base := 1 # 100; perKB := 5 # 100000 |}]>
  (<["browser-advanced" := {| base := 25 # 1000; perKB := 1 # 10000 |}]> ∅)).

Definition http_rate : rate := {| base := 1 # 1000; perKB := 1 # 100000 |}.

Definition default_premium : Q := 5 # 1000.

Definition geoPremiums : gmap string Q :=
  <["us" := 0%Q]>
  (<["uk" := 2 # 1000]>
  (<["de" := 2 # 1000]>
  (<["jp" := 5 # 1000]>
  (<["default" := default_premium]> ∅)))).

Record details := {
  details_url : string;
  bytesTransferred : Z;
  details_geo : option string
}.

Record cost := {
  baseCost : Q;
  dataCost : Q;
  geoPremium : Q;
  totalCost : Q
}.

Record record_entry := {
  level : string;
  entry_cost : cost;
  entry_timestamp : Z;
  entry_details : details
}.

Definition calculateCost (lvl : string) (d : details) : cost :=
  let r := default http_rate (rates !! lvl) in
  let bytes := bytesTransferred d in
  let dataCost := ((inject_Z bytes / 1024) * perKB r)%Q in
  let g := JS.toLowerCase (JS.or_else (details_geo d) "us") in
  let premium := default default_premium (geoPremiums !! g) in
  {| baseCost := base r;
     dataCost := dataCost;
     geoPremium := premium;
     totalCost := (base r + dataCost + premium)%Q |}.

(** [record]: pushes onto [this.records] and returns the cost. *)
Definition record (now : Z) (lvl : string) (d : details)
    (records : list record_entry) : list record_entry * cost :=
  let c := calculateCost lvl d in
  (records ++ [{| level := lvl; entry_cost := c;
                  entry_timestamp := now; entry_details := d |}], c).

(** The value [getSummary] returns. *)
Record summary := {
  total : Q;
  byLevel : gmap string Q;
  recordCount : nat;
  averageCost : Q
}.

(** One iteration of the loop of [getSummary]:
    [byLevel[level] = (byLevel[level] || 0) + levelCost; total += levelCost]. *)
Definition add_record (acc : gmap string Q * Q) (r : record_entry)
    : gmap string Q * Q :=
  let '(levels, sum) := acc in
  let levelCost := totalCost (entry_cost r) in
  (<[level r := (default 0%Q (levels !! level r) + levelCost)%Q]> levels,
   (sum + levelCost)%Q).

Definition getSummary (records : list record_entry) : summary :=
  let '(levels, sum) := fold_left add_record records (∅, 0%Q) in
  {| total := sum;
     byLevel := levels;
     recordCount := length records;
     averageCost := if Nat.ltb 0 (length records)
                    then (sum / inject_Z (Z.of_nat (length records)))%Q
                    else 0%Q |}.

(** [reset]: [this.records = []]. *)
Definition reset (records : list record_entry) : list record_entry := [].

End CostTracker.

(** ** Section 3 of part 1: the HTTP executor *)

Module HttpExecutor.

Record config := {
  customerId : string;
  password : string;
  timeout : Z;
  retries : Z;
  retryDelay : Z
}.

(** The constructor's argument; the environment variables are the
    fallbacks of the two credentials. *)
Record user_config := {
  user_customerId : option string;
  user_password : option string;
  user_timeout : option Z;
  user_retries : option Z;
  user_retryDelay : option Z
}.

Definition constructor (env_customerId env_password : option string)
    (c : user_config) : config :=
  {| customerId := JS.or_else (user_customerId c) (JS.or_else env_customerId EmptyString);
     password := JS.or_else (user_password c) (JS.or_else env_password EmptyString);
     timeout := JS.num_or_else (user_timeout c) 30000;
     retries := JS.num_or_else (user_retries c) 3;
     retryDelay := JS.num_or_else (user_retryDelay c) 1000 |}.

Record result := {
  success : bool;
  url : string;
  statusCode : Z;
  result_headers : option (list (string * string));
  body : string;
  contentLength : option Z;
  executionTime : Z;
  retryCount : Z;
  proxyUsed : option bool;
  cost : option CostTracker.cost;
  escalationNeeded : bool;
  escalationReason : option string;
  error : option string
}.

(** The executor's mutable surroundings: the records of its cost
    tracker and the waits it has made. *)
Record state := {
  records : list CostTracker.record_entry;
  delays : list Z
}.

Definition initial : state := {| records := []; delays := [] |}.

Definition isProxyConfigured (cfg : config) : bool :=
  JS.truthy (customerId cfg) && JS.truthy (password cfg).

(** [validateStatus: (status) => status < 500] of [buildAxiosConfig]:
    axios rejects any other answer with this message. *)
Definition axios (w : wire) : outcome response :=
  match w with
  | Answer r =>
      if status r <? 500 then Returns r
      else Throws ("Request failed with status code " +:+ pretty (status r))
  | Failure message => Throws message
  end.

Definition checkForEscalationSignals (resp : response) : bool * option string :=
  let body := match data resp with
              | DString s => s
              | DParsed _ _ => EmptyString
              end in
  if JS.includes body "Please enable JavaScript"
     || JS.includes body "JavaScript is required"
  then (true, Some "JavaScript required")
  else if ((status resp =? 403) || (status resp =? 503))
          && (JS.includes body "challenge" || JS.includes body "captcha")
  then (true, Some "Challenge not resolved")
  else if (Z.of_nat (String.length body) <? 1000)
          && (Z.of_nat (String.length (JS.trim (JS.strip_tags body))) <? 100)
  then (true, Some "Minimal content - likely SPA")
  else (false, None).

Definition shouldEscalate (message : string) : bool :=
  let message := JS.toLowerCase message in
  JS.includes message "403"
  || JS.includes message "forbidden"
  || JS.includes message "blocked"
  || JS.includes message "challenge".

Definition buildEscalationResult (target : string) (elapsed retryCount : Z)
    (message : string) : result :=
  {| success := false; url := target; statusCode := 0;
     result_headers := None; body := EmptyString; contentLength := None;
     executionTime := elapsed; retryCount := retryCount;
     proxyUsed := None; cost := None;
     escalationNeeded := true;
     escalationReason := Some ("Web Unlocker could not handle - " +:+ message);
     error := Some message |}.

Definition buildFailureResult (target : string) (elapsed retryCount : Z)
    (message : string) : result :=
  {| success := false; url := target; statusCode := 0;
     result_headers := None; body := EmptyString; contentLength := None;
     executionTime := elapsed; retryCount := retryCount;
     proxyUsed := None; cost := None;
     escalationNeeded := false;
     escalationReason := None;
     error := Some message |}.

(** [response.data?.length || 0]. *)
Definition data_length (d : body_data) : Z :=
  match d with
  | DString s => Z.of_nat (String.length s)
  | DParsed _ len => len
  end.

Section Fetch.
Variable cfg : config.
(** [request k]: what the network gives for the [k]-th attempt. *)
Variable request : nat -> wire.
(** [startTime], and the clock read once attempt [k] has settled. *)
Variable startTime : Z.
Variable Date_now : nat -> Z.
Variable target : string.
Variable opts : options.

(** [executeRequest] once axios has answered with [resp]. *)
Definition executeRequest (attempt : nat) (resp : response)
    (retryCount : Z) (st : state) : state * result :=
  let executionTime := Date_now attempt - startTime in
  let escalationCheck := checkForEscalationSignals resp in
  let '(records', c) :=
    CostTracker.record (Date_now attempt) "http"
      {| CostTracker.details_url := target;
         CostTracker.bytesTransferred := data_length (data resp);
         CostTracker.details_geo := geo opts |}
      (records st) in
  ({| records := records'; delays := delays st |},
   {| success := true; url := target; statusCode := status resp;
      result_headers := Some (headers resp);
      body := match data resp with
              | DString s => s
              | DParsed json _ => json
              end;
      contentLength := Some (data_length (data resp));
      executionTime := executionTime; retryCount := retryCount;
      proxyUsed := Some (isProxyConfigured cfg);
      cost := Some c;
      escalationNeeded := fst escalationCheck;
      escalationReason := snd escalationCheck;
      error := None |}).

Definition delay (ms : Z) (st : state) : state :=
  {| records := records st; delays := delays st ++ [ms] |}.

(** The [for (attempt = 0; attempt <= retries; attempt++)] loop, by
    recursion on the number of iterations that are left.
    [buildFailureResult] reads [lastError.message], which throws a
    [TypeError] when no attempt was made. *)
Fixpoint attempts_from (left : nat) (attempt : nat) (lastError : option string)
    (retryCount : Z) (st : state) : state * outcome result :=
  match left with
  | O =>
      match lastError with
      | Some message =>
          (st, Returns (buildFailureResult target
                          (Date_now attempt - startTime) retryCount message))
      | None =>
          (st, Throws "Cannot read properties of null (reading 'message')")
      end
  | S left' =>
      match axios (request attempt) with
      | Returns resp =>
          let '(st', r) := executeRequest attempt resp retryCount st in
          (st', Returns r)
      | Throws message =>
          let retryCount := retryCount + 1 in
          if Z.of_nat attempt <? retries cfg then
            if shouldEscalate message then
              (st, Returns (buildEscalationResult target
                              (Date_now attempt - startTime) retryCount message))
            else
              let st := delay (retryDelay cfg * (Z.of_nat attempt + 1)) st in
              attempts_from left' (S attempt) (Some message) retryCount st
          else
            attempts_from left' (S attempt) (Some message) retryCount st
      end
  end.

Definition fetch (st : state) : state * outcome result :=
  attempts_from (Z.to_nat (retries cfg + 1)) 0 None 0 st.

(** The value [fetchWithAnalysis] returns; [analysed_result] is [null]
    when the fetch was skipped. *)
Record analysed := {
  analysis : EnvironmentAnalyzer.analysis;
  analysed_result : option result;
  skipped : bool;
  skipReason : option string
}.

(** [analysis.recommendedExecution !== 'http' && analysis.confidence > 0.7]. *)
Definition too_complex (a : EnvironmentAnalyzer.analysis) : bool :=
  negb (String.eqb (EnvironmentAnalyzer.recommendedExecution a) "http")
  && negb (Qle_bool (EnvironmentAnalyzer.analysis_confidence a) (7 # 10)).

(** [fetchWithAnalysis]: [probe] is how the analyzer's own [axios.get]
    settled. *)
Definition fetchWithAnalysis (probe : wire) (st : state)
    : state * outcome analysed :=
  let a := EnvironmentAnalyzer.analyze target probe in
  if too_complex a then
    (st, Returns {| analysis := a;
                    analysed_result := None;
                    skipped := true;
                    skipReason :=
                      Some ("Environment too complex for HTTP. Recommended: "
                            +:+ EnvironmentAnalyzer.recommendedExecution a) |})
  else
    match fetch st with
    | (st', Returns r) =>
        (st', Returns {| analysis := a; analysed_result := Some r;
                         skipped := false; skipReason := None |})
    | (st', Throws message) => (st', Throws message)
    end.

End Fetch.

Definition getCostSummary (st : state) : CostTracker.summary :=
  CostTracker.getSummary (records st).

End HttpExecutor.

(** ** Section 4 of part 1: the escalation handler *)

Module EscalationHandler.

(** What the handler reads from a result: [result.escalationNeeded] (its
    truthiness) and [result.escalationReason] (possibly [undefined]). *)
Class ExecutionResult (R : Type) := {
  needs_escalation : R -> bool;
  reason_of : R -> option string
}.

(** The behaviour of a callable: the natural number is the value of
    [escalationCount] when the call is made, which numbers the calls of
    one run, so a stateful executor is covered.  A call whose result is
    [undefined] or [null], on which [result.escalationNeeded] cannot be
    read, makes the handler's [try] block throw: it is a [Throws]. *)
Definition callable (R : Type) : Type := string -> options -> nat -> outcome R.

(** The truthy values found under [executors[level]], by the branch of
    [executeAtLevel] they take. *)
Inductive executor (R : Type) : Type :=
| ExecFunction (f : callable R)
| ExecFetch (fetch : callable R)
| ExecExecute (execute : callable R)
| ExecInvalid.
Arguments ExecFunction {R} f.
Arguments ExecFetch {R} fetch.
Arguments ExecExecute {R} execute.
Arguments ExecInvalid {R}.

Record config := {
  levels : list string;
  autoEscalate : bool;
  escalationDelay : Z
}.

(** The [config] argument of the constructor. [user_autoEscalate] is
    [Some false] exactly when the caller passed [autoEscalate: false]. *)
Record user_config := {
  user_autoEscalate : option bool;
  user_escalationDelay : option Z
}.

Definition default_levels : list string :=
  ["http"; "browser-light"; "browser-advanced"].

Definition constructor (c : user_config) : config :=
  {| levels := default_levels;
     autoEscalate := match user_autoEscalate c with
                     | Some false => false
                     | _ => true
                     end;
     escalationDelay := JS.num_or_else (user_escalationDelay c) 1000 |}.

Record history_entry := {
  entry_url : string;
  fromLevel : string;
  reason : option string;
  timestamp : Z
}.

(** Observable effects of a run, in program order. *)
Inductive effect : Type :=
| EmitExecutionStart (url level : string)
| Invoke (level : string) (count : nat)
| EmitEscalation (url from to : string) (why : option string)
| Delay (ms : Z).

Record state := {
  escalationHistory : list history_entry;
  effects : list effect
}.

Definition perform (e : effect) (st : state) : state :=
  {| escalationHistory := escalationHistory st;
     effects := effects st ++ [e] |}.

Definition push_history (h : history_entry) (st : state) : state :=
  {| escalationHistory := escalationHistory st ++ [h];
     effects := effects st |}.

(** [extend st es hs]: [st] after the effects [es] and the history
    entries [hs]. *)
Definition extend (st : state) (es : list effect) (hs : list history_entry)
    : state :=
  {| escalationHistory := escalationHistory st ++ hs;
     effects := effects st ++ es |}.

(** The value [{ ...result, executionLevel, escalationCount }]. *)
Record final (R : Type) := {
  result : R;
  executionLevel : string;
  escalationCount : nat
}.
Arguments result {R} _.
Arguments executionLevel {R} _.
Arguments escalationCount {R} _.

(** How the promise of [executeWithEscalation] settles. [OutOfFuel] is
    an artefact of the recursion scheme of [loop]. *)
Inductive completion (R : Type) : Type :=
| Resolved (v : final R)
| ResolvedUndefined
| Rejected (message : string)
| OutOfFuel.
Arguments Resolved {R} v.
Arguments ResolvedUndefined {R}.
Arguments Rejected {R} message.
Arguments OutOfFuel {R}.

Definition getNextLevel (cfg : config) (current : string) : option string :=
  let idx := JS.indexOf (levels cfg) current in
  if idx <? Z.of_nat (length (levels cfg)) - 1
  then levels cfg !! Z.to_nat (idx + 1)
  else None.

(** [if (nextLevel)]: [null], [undefined] and [''] are falsy. *)
Definition truthy_level (next : option string) : option string :=
  match next with
  | Some l => if JS.truthy l then Some l else None
  | None => None
  end.

Section Run.
Context {R : Type} `{ExecutionResult R}.
Variable cfg : config.
(** [Date_now k]: the clock read while [escalationCount] is [k]. *)
Variable Date_now : nat -> Z.
Variable url : string.
(** [executors !! level] is what [executors[level]] finds when it is
    truthy: a member the object has or one it inherits. *)
Variable executors : gmap string (executor R).
Variable opts : options.

Definition executeAtLevel (e : executor R) (count : nat) : outcome R :=
  match e with
  | ExecFunction f => f url opts count
  | ExecFetch f => f url opts count
  | ExecExecute f => f url opts count
  | ExecInvalid => Throws "Invalid executor"
  end.

(** The [while (escalationCount < levels.length)] loop.  Every
    iteration that does not leave the loop increments
    [escalationCount], so [fuel] iterations suffice when
    [length levels <= escalationCount + fuel]. *)
Fixpoint loop (fuel : nat) (currentLevel : string) (count : nat)
    (st : state) : state * completion R :=
  if Nat.ltb count (length (levels cfg)) then
    match fuel with
    | O => (st, OutOfFuel)
    | S fuel' =>
        match executors !! currentLevel with
        | None => (st, ResolvedUndefined)
        | Some executor =>
            let st := perform (EmitExecutionStart url currentLevel) st in
            let st := perform (Invoke currentLevel count) st in
            match executeAtLevel executor count with
            | Returns r =>
                let finish :=
                  (st, Resolved {| result := r;
                                   executionLevel := currentLevel;
                                   escalationCount := count |}) in
                if (needs_escalation r && autoEscalate cfg)%bool then
                  match truthy_level (getNextLevel cfg currentLevel) with
                  | Some nextLevel =>
                      let st := perform (EmitEscalation url currentLevel
                                           nextLevel (reason_of r)) st in
                      let st := push_history
                                  {| entry_url := url;
                                     fromLevel := currentLevel;
                                     reason := reason_of r;
                                     timestamp := Date_now count |} st in
                      let st := perform (Delay (escalationDelay cfg)) st in
                      loop fuel' nextLevel (S count) st
                  | None => finish
                  end
                else finish
            | Throws error =>
                match truthy_level (getNextLevel cfg currentLevel) with
                | Some nextLevel =>
                    if autoEscalate cfg
                    then loop fuel' nextLevel (S count) st
                    else (st, Rejected error)
                | None => (st, Rejected error)
                end
            end
        end
    end
  else (st, ResolvedUndefined).

Definition executeWithEscalation (st : state) : state * completion R :=
  let currentLevel := JS.or_else (startLevel opts) "http" in
  loop (length (levels cfg)) currentLevel 0 st.

(** The loop as a big-step relation.  [run cur count es hs c]: entered
    with [currentLevel = cur] and [escalationCount = count], the loop
    performs [es], records [hs] and settles as [c]. *)
Inductive run : string -> nat -> list effect -> list history_entry ->
                completion R -> Prop :=
| run_bound cur count :
    (length (levels cfg) <= count)%nat ->
    run cur count [] [] ResolvedUndefined
| run_no_executor cur count :
    (count < length (levels cfg))%nat ->
    executors !! cur = None ->
    run cur count [] [] ResolvedUndefined
| run_return cur count e r :
    (count < length (levels cfg))%nat ->
    executors !! cur = Some e ->
    executeAtLevel e count = Returns r ->
    (needs_escalation r && autoEscalate cfg)%bool = false
    \/ truthy_level (getNextLevel cfg cur) = None ->
    run cur count [EmitExecutionStart url cur; Invoke cur count] []
        (Resolved {| result := r; executionLevel := cur;
                     escalationCount := count |})
| run_escalate cur count e r next es hs c :
    (count < length (levels cfg))%nat ->
    executors !! cur = Some e ->
    executeAtLevel e count = Returns r ->
    needs_escalation r = true ->
    autoEscalate cfg = true ->
    truthy_level (getNextLevel cfg cur) = Some next ->
    run next (S count) es hs c ->
    run cur count
        (EmitExecutionStart url cur :: Invoke cur count
           :: EmitEscalation url cur next (reason_of r)
           :: Delay (escalationDelay cfg) :: es)
        ({| entry_url := url; fromLevel := cur; reason := reason_of r;
            timestamp := Date_now count |} :: hs)
        c
| run_caught cur count e msg next es hs c :
    (count < length (levels cfg))%nat ->
    executors !! cur = Some e ->
    executeAtLevel e count = Throws msg ->
    truthy_level (getNextLevel cfg cur) = Some next ->
    autoEscalate cfg = true ->
    run next (S count) es hs c ->
    run cur count (EmitExecutionStart url cur :: Invoke cur count :: es) hs c
| run_rethrow cur count e msg :
    (count < length (levels cfg))%nat ->
    executors !! cur = Some e ->
    executeAtLevel e count = Throws msg ->
    truthy_level (getNextLevel cfg cur) = None \/ autoEscalate cfg = false ->
    run cur count [EmitExecutionStart url cur; Invoke cur count] []
        (Rejected msg).

End Run.

(** Projections of the effect trace. *)
Definition invoked_level (e : effect) : option string :=
  match e with
  | Invoke l _ => Some l
  | _ => None
  end.

(** The tiers at which an executor was invoked, in order. *)
Definition attempts (es : list effect) : list string :=
  omap invoked_level es.

Definition escalation_event (e : effect)
    : option (string * string * string * option string) :=
  match e with
  | EmitEscalation u from to why => Some (u, from, to, why)
  | _ => None
  end.

(** The payloads of the ['escalation'] events, in order. *)
Definition escalations (es : list effect)
    : list (string * string * string * option string) :=
  omap escalation_event es.

Definition initial : state :=
  {| escalationHistory := []; effects := [] |}.

End EscalationHandler.

(** ** Part 4, section 1: the environment monitor's drift detection *)

Inductive severity : Type := Info | Warning | Critical.

Module EnvironmentMonitor.

Record issue := {
  issue_type : string;
  issue_severity : severity;
  issue_message : string
}.

(** The result of [checkTarget], as far as drift detection and the
    alert messages read it.  [selectorMatches] is the object filled by
    [selectorMatches[selector] = matches]: its keys are unique, and the
    model lists its entries in the order of [map_to_list] where
    [Object.entries] lists them in insertion order. *)
Record check := {
  check_url : string;
  check_timestamp : Z;
  check_status : string;
  responseTime : Z;
  executionLevel : string;
  selectorMatches : gmap string nat;
  geoResults : option (list (string * string));
  issues : list issue
}.

Inductive change_type : Type := Structure | Performance.

Record change := {
  change_url : string;
  change_timestamp : Z;
  changeType : change_type;
  change_severity : severity;
  description : string;
  before : Z;
  after : Z
}.

Definition missing_description (selector : string) : string :=
  "Selector " +:+ String JSON.dquote selector
    +:+ String JSON.dquote " no longer found".

(** The body of the loop over [Object.entries(current.selectorMatches)]. *)
Definition structural_change (now : Z) (target : string) (baseline : check)
    (entry : string * nat) : option change :=
  let '(selector, count) := entry in
  let baselineCount := default 0%nat (selectorMatches baseline !! selector) in
  if (Nat.eqb count 0 && Nat.ltb 0 baselineCount)%bool then
    Some {| change_url := target;
            change_timestamp := now;
            changeType := Structure;
            change_severity := Warning;
            description := missing_description selector;
            before := Z.of_nat baselineCount;
            after := Z.of_nat count |}
  else None.

Definition performance_change (now : Z) (target : string)
    (baseline current : check) : list change :=
  if responseTime baseline * 2 <? responseTime current then
    [{| change_url := target;
        change_timestamp := now;
        changeType := Performance;
        change_severity := Warning;
        description := "Response time doubled";
        before := responseTime baseline;
        after := responseTime current |}]
  else [].

(** [detectChanges(url, current)] on the map of baselines. *)
Definition detectChanges (now : Z) (target : string) (current : check)
    (baselines : gmap string check) : gmap string check * list change :=
  match baselines !! target with
  | None => (<[target := current]> baselines, [])
  | Some baseline =>
      (baselines,
       omap (structural_change now target baseline)
            (map_to_list (selectorMatches current))
       ++ performance_change now target baseline current)
  end.

Definition is_structure (c : change) : bool :=
  match changeType c with
  | Structure => true
  | Performance => false
  end.

Definition is_performance (c : change) : bool :=
  match changeType c with
  | Structure => false
  | Performance => true
  end.

(** A monitored target of [config.targets]. *)
Record target := {
  target_url : string;
  selectors : option (list string);
  maxResponseTime : option Z
}.

Record config := {
  targets : list target;
  checkInterval : Z;
  geos : list string;
  retentionDays : Z
}.

(** The constructor's argument ([[]] is a truthy array). *)
Record user_config := {
  user_targets : option (list target);
  user_checkInterval : option Z;
  user_geos : option (list string);
  user_retentionDays : option Z
}.

Definition constructor (c : user_config) : config :=
  {| targets := default [] (user_targets c);
     checkInterval := JS.num_or_else (user_checkInterval c) 3600000;
     geos := default ["us"] (user_geos c);
     retentionDays := JS.num_or_else (user_retentionDays c) 7 |}.

(** The events the monitor emits. *)
Inductive event : Type :=
| EmitEnvironmentChange (c : change)
| EmitHealthCheck (c : check)
| EmitBaselineSet (url : string) (c : check).

(** The mutable fields of a monitor and what it has emitted. *)
Record monitor := {
  checkHistory : gmap string (list check);
  baselines : gmap string check;
  emitted : list event
}.

Definition initial : monitor :=
  {| checkHistory := ∅; baselines := ∅; emitted := [] |}.

Definition critical_severity (s : severity) : bool :=
  match s with
  | Critical => true
  | _ => false
  end.

Definition warning_severity (s : severity) : bool :=
  match s with
  | Warning => true
  | _ => false
  end.

Definition determineStatus (found : list issue) : string :=
  if existsb (fun i => critical_severity (issue_severity i)) found then "critical"
  else if existsb (fun i => warning_severity (issue_severity i)) found then "warning"
  else "healthy".

(** What one check observes of the outside: the clock, the count of the
    regular expression built from a selector on the simulated page
    ([new RegExp] throws on a selector that is no valid pattern), and the
    entries of the object [checkGeoConsistency] returns. *)
Record observation := {
  elapsed : Z;
  matches_of : string -> outcome nat;
  geo_statuses : list (string * string);
  stamp : Z;
  elapsed_at_failure : Z
}.

(** [simulateExecution]'s [executionLevel]. *)
Definition simulated_level (url : string) : string :=
  if JS.includes url "squarespace" || JS.includes url "wix"
  then "browser-advanced" else "http".

Definition slow_response (responseTime maxTime : Z) : issue :=
  {| issue_type := "slow_response";
     issue_severity := if maxTime * 2 <? responseTime then Critical else Warning;
     issue_message := "Response time " +:+ pretty responseTime
                        +:+ "ms exceeds threshold " +:+ pretty maxTime +:+ "ms" |}.

Definition missing_selector (selector : string) : issue :=
  {| issue_type := "missing_selector";
     issue_severity := Warning;
     issue_message := "Selector " +:+ String JSON.dquote selector
                        +:+ String JSON.dquote " not found" |}.

(** The loop over [target.selectors]; it ends early, with the message of
    the error, when counting throws. *)
Fixpoint check_selectors (obs : observation) (sels : list string)
    (matches : gmap string nat) (found : list issue)
    : gmap string nat * list issue * option string :=
  match sels with
  | [] => (matches, found, None)
  | selector :: rest =>
      match matches_of obs selector with
      | Throws message => (matches, found, Some message)
      | Returns n =>
          check_selectors obs rest (<[selector := n]> matches)
            (if Nat.eqb n 0 then found ++ [missing_selector selector] else found)
      end
  end.

Definition mismatches (results : list (string * string)) : list string :=
  map fst (List.filter (fun gr => String.eqb (snd gr) "mismatch") results).

Fixpoint join (sep : string) (xs : list string) : string :=
  match xs with
  | [] => EmptyString
  | [x] => x
  | x :: rest => x +:+ sep +:+ join sep rest
  end.

Definition checkTarget (cfg : config) (t : target) (obs : observation) : check :=
  let responseTime := elapsed obs in
  let maxTime := JS.num_or_else (maxResponseTime t) 5000 in
  let found := if maxTime <? responseTime
               then [slow_response responseTime maxTime] else [] in
  let '(matches, found, failure) :=
    check_selectors obs (default [] (selectors t)) ∅ found in
  match failure with
  | Some message =>
      {| check_url := target_url t;
         check_timestamp := stamp obs;
         check_status := "critical";
         responseTime := elapsed_at_failure obs;
         executionLevel := "http";
         selectorMatches := matches;
         geoResults := None;
         issues := found ++ [{| issue_type := "error";
                                issue_severity := Critical;
                                issue_message := message |}] |}
  | None =>
      let several := Nat.ltb 1 (length (geos cfg)) in
      let found :=
        if several then
          match mismatches (geo_statuses obs) with
          | [] => found
          | ms => found ++ [{| issue_type := "geo_mismatch";
                               issue_severity := Warning;
                               issue_message := "Geographic mismatch in: "
                                                  +:+ join ", " ms |}]
          end
        else found in
      {| check_url := target_url t;
         check_timestamp := stamp obs;
         check_status := determineStatus found;
         responseTime := responseTime;
         executionLevel := simulated_level (target_url t);
         selectorMatches := matches;
         geoResults := if several then Some (geo_statuses obs) else None;
         issues := found |}
  end.

(** [addToHistory]: push, then keep the entries newer than the cutoff. *)
Definition addToHistory (cfg : config) (now : Z) (url : string) (c : check)
    (m : monitor) : monitor :=
  let history := default [] (checkHistory m !! url) ++ [c] in
  let cutoff := now - retentionDays cfg * 24 * 60 * 60 * 1000 in
  {| checkHistory :=
       <[url := List.filter (fun h => cutoff <? check_timestamp h) history]>
         (checkHistory m);
     baselines := baselines m;
     emitted := emitted m |}.

(** [getStatus]: [history?.[history.length - 1]]. *)
Definition getStatus (url : string) (m : monitor) : option check :=
  match checkHistory m !! url with
  | Some history => last history
  | None => None
  end.

Record stats := {
  totalChecks : nat;
  successRate : Q;
  averageResponseTime : Q;
  lastCheck : Z
}.

Definition getStats (url : string) (m : monitor) : option stats :=
  match checkHistory m !! url with
  | Some history =>
      match last history with
      | None => None
      | Some newest =>
          let n := inject_Z (Z.of_nat (length history)) in
          let successful :=
            length (List.filter
                      (fun h => negb (String.eqb (check_status h) "critical"))
                      history) in
          let totalResponseTime :=
            fold_left (fun sum h => sum + responseTime h) history 0 in
          Some {| totalChecks := length history;
                  successRate := (inject_Z (Z.of_nat successful) / n)%Q;
                  averageResponseTime := (inject_Z totalResponseTime / n)%Q;
                  lastCheck := check_timestamp newest |}
      end
  | None => None
  end.

Definition setBaseline (url : string) (m : monitor) : monitor :=
  match getStatus url m with
  | Some currentCheck =>
      {| checkHistory := checkHistory m;
         baselines := <[url := currentCheck]> (baselines m);
         emitted := emitted m ++ [EmitBaselineSet url currentCheck] |}
  | None => m
  end.

Section RunChecks.
Variable cfg : config.
(** What the [i]-th target of a cycle observes, the clock [addToHistory]
    reads for it and the one [detectChanges] reads. *)
Variable observe : nat -> observation.
Variable history_clock : nat -> Z.
Variable drift_clock : nat -> Z.

(** One iteration of the loop of [runChecks]. *)
Definition run_target (i : nat) (t : target) (m : monitor) : monitor * check :=
  let c := checkTarget cfg t (observe i) in
  let m := addToHistory cfg (history_clock i) (target_url t) c m in
  let '(baselines', changes) :=
    detectChanges (drift_clock i) (target_url t) c (baselines m) in
  ({| checkHistory := checkHistory m;
      baselines := baselines';
      emitted := emitted m ++ map EmitEnvironmentChange changes
                   ++ [EmitHealthCheck c] |}, c).

Fixpoint run_targets (ts : list target) (i : nat) (results : list check)
    (m : monitor) : monitor * list check :=
  match ts with
  | [] => (m, results)
  | t :: rest =>
      let '(m, c) := run_target i t m in
      run_targets rest (S i) (results ++ [c]) m
  end.

Definition runChecks (m : monitor) : monitor * list check :=
  run_targets (targets cfg) 0 [] m.

End RunChecks.

End EnvironmentMonitor.

(** ** Part 4, section 2: the alerting system *)

Module AlertingSystem.

Inductive event_data : Type :=
| HealthCheck (c : EnvironmentMonitor.check)
| EnvironmentChange (c : EnvironmentMonitor.change)
| Other (type : string).

Record event := {
  data : event_data;
  source : string;
  event_timestamp : Z
}.

(** [event.type]. *)
Definition type (e : event) : string :=
  match data e with
  | HealthCheck _ => "health-check"
  | EnvironmentChange _ => "environment-change"
  | Other t => t
  end.

Record rule := {
  name : string;
  condition : event -> bool;
  rule_severity : severity;
  channels : list string;
  message : option (event -> string);
  throttle : option Z
}.

(** [config.channels]: what the simulated senders look at. *)
Record channel_config := {
  slack_webhook : option string;
  email_to : list string;
  webhook_url : option string
}.

Record config := {
  config_channels : channel_config;
  rules : list rule;
  throttleMinutes : Z
}.

Definition constructor (cs : channel_config) (rs : list rule)
    (user_throttleMinutes : option Z) : config :=
  {| config_channels := cs;
     rules := rs;
     throttleMinutes := JS.num_or_else user_throttleMinutes 5 |}.

Record alert := {
  id : string;
  alert_rule : string;
  alert_severity : severity;
  alert_timestamp : Z;
  alert_message : string;
  alert_channels : list string;
  alert_event : event;
  delivered : bool;
  deliveryResults : gmap string bool
}.

(** What a call hands to the outside: a delivery on a channel
    ([announced] tells whether the simulated sender printed its line)
    and the ['alert'] event. *)
Inductive effect : Type :=
| Deliver (channel : string) (alert_id : string) (announced : bool)
| EmitAlert (alert_id : string).

Record state := {
  alertHistory : list alert;
  lastAlerts : gmap string Z;
  alertCounter : nat;
  effects : list effect
}.

Definition initial : state :=
  {| alertHistory := []; lastAlerts := ∅; alertCounter := 0; effects := [] |}.

Section Dispatch.
Variable cfg : config.
(** The clock during the call. *)
Variable now : Z.

(** The window of a rule in milliseconds:
    [(rule.throttle || this.config.throttleMinutes) * 60 * 1000]. *)
Definition throttleMs (r : rule) : Z :=
  JS.num_or_else (throttle r) (throttleMinutes cfg) * 60 * 1000.

Definition isThrottled (st : state) (r : rule) : bool :=
  match lastAlerts st !! name r with
  | None => false
  | Some lastAlert => now - lastAlert <? throttleMs r
  end.

Definition generateDefaultMessage (r : rule) (e : event) : string :=
  match data e with
  | HealthCheck c =>
      "Health check " +:+ EnvironmentMonitor.check_status c
        +:+ " for " +:+ EnvironmentMonitor.check_url c
        +:+ ". Response time: " +:+ pretty (EnvironmentMonitor.responseTime c)
        +:+ "ms. Issues: "
        +:+ pretty (length (EnvironmentMonitor.issues c))
  | EnvironmentChange c =>
      (match EnvironmentMonitor.changeType c with
       | EnvironmentMonitor.Structure => "structure"
       | EnvironmentMonitor.Performance => "performance"
       end)
        +:+ " change detected on " +:+ EnvironmentMonitor.change_url c
        +:+ ": " +:+ EnvironmentMonitor.description c
  | Other _ => "Alert triggered: " +:+ name r
  end.

(** The [switch] of [deliverAlert]: the four channels it knows, each
  with whether its simulated sender prints a line; any other name
  falls through. *)
Definition sender (channel : string) : option bool :=
let cs := config_channels cfg in
if String.eqb channel "console" then Some true
else if String.eqb channel "slack" then
  Some (match slack_webhook cs with
        | Some w => JS.truthy w
        | None => false
        end)
else if String.eqb channel "email" then
  Some (match email_to cs with
        | [] => false
        | _ => true
        end)
else if String.eqb channel "webhook" then
  Some (match webhook_url cs with
        | Some w => JS.truthy w
        | None => false
        end)
else None.

(** One iteration of the loop of [deliverAlert].  None of the senders
  can throw, so every known channel is recorded as [true]. *)
Definition deliver_on (alert_id : string) (channel : string)
  (acc : gmap string bool * list effect) : gmap string bool * list effect :=
let '(results, es) := acc in
match sender channel with
| Some announced =>
    (<[channel := true]> results, es ++ [Deliver channel alert_id announced])
| None => acc
end.

(** [deliverAlert]: the delivery results and whether some value of
    them is true. *)
Definition deliverAlert (alert_id : string) (chans : list string)
    (es : list effect) : gmap string bool * bool * list effect :=
  let '(results, es) :=
    fold_left (fun acc channel => deliver_on alert_id channel acc)
              chans (∅, es) in
  (results, existsb (fun kv => snd kv) (map_to_list results), es).

Definition createAndSendAlert (r : rule) (e : event) (st : state)
    : state * alert :=
  let text := match message r with
              | Some format => format e
              | None => generateDefaultMessage r e
              end in
  let counter := S (alertCounter st) in
  let alert_id := "alert_" +:+ pretty counter +:+ "_" +:+ pretty now in
  let '(results, some_delivered, es) :=
    deliverAlert alert_id (channels r) (effects st) in
  let a := {| id := alert_id;
              alert_rule := name r;
              alert_severity := rule_severity r;
              alert_timestamp := now;
              alert_message := text;
              alert_channels := channels r;
              alert_event := e;
              delivered := some_delivered;
              deliveryResults := results |} in
  ({| alertHistory := alertHistory st ++ [a];
      lastAlerts := lastAlerts st;
      alertCounter := counter;
      effects := es ++ [EmitAlert alert_id] |}, a).

Definition set_lastAlert (rule_name : string) (st : state) : state :=
  {| alertHistory := alertHistory st;
     lastAlerts := <[rule_name := now]> (lastAlerts st);
     alertCounter := alertCounter st;
     effects := effects st |}.

(** The loop [for (const rule of this.config.rules)] of
    [processEvent], from the rules that are left. *)
Fixpoint process_rules (rs : list rule) (e : event) (alerts : list alert)
    (st : state) : state * list alert :=
  match rs with
  | [] => (st, alerts)
  | r :: rest =>
      if negb (condition r e) then process_rules rest e alerts st
      else if isThrottled st r then process_rules rest e alerts st
      else
        let '(st, a) := createAndSendAlert r e st in
        let st := set_lastAlert (name r) st in
        process_rules rest e (alerts ++ [a]) st
  end.

Definition processEvent (e : event) (st : state) : state * list alert :=
  process_rules (rules cfg) e [] st.

(** [sendAlert(message, severity = 'info', channels = ['console'])]. *)
Definition sendAlert (text : string) (sev : option severity)
    (chans : option (list string)) (st : state) : state * alert :=
  let sev := default Info sev in
  let chans := default ["console"] chans in
  let counter := S (alertCounter st) in
  let alert_id := "alert_" +:+ pretty counter +:+ "_" +:+ pretty now in
  let '(results, some_delivered, es) := deliverAlert alert_id chans (effects st) in
  let a := {| id := alert_id;
              alert_rule := "custom";
              alert_severity := sev;
              alert_timestamp := now;
              alert_message := text;
              alert_channels := chans;
              alert_event := {| data := Other "custom";
                                source := "manual";
                                event_timestamp := now |};
              delivered := some_delivered;
              deliveryResults := results |} in
  ({| alertHistory := alertHistory st ++ [a];
      lastAlerts := lastAlerts st;
      alertCounter := counter;
      effects := es ++ [EmitAlert alert_id] |}, a).

End Dispatch.

(** [xs.join(sep)]. *)
Fixpoint join (sep : string) (xs : list string) : string :=
  match xs with
  | [] => EmptyString
  | [x] => x
  | x :: rest => x +:+ sep +:+ join sep rest
  end.

Definition mismatched (c : EnvironmentMonitor.check) : list string :=
  match EnvironmentMonitor.geoResults c with
  | Some results =>
      map fst (List.filter (fun gr => String.eqb (snd gr) "mismatch") results)
  | None => []
  end.

(** Section 3: [defaultAlertRules].  A [message] is only called on an
    event that passed the rule's [condition]; on the other shapes of
    event, where the JavaScript reads fields that are not there, the
    formatters below return the empty string. *)
Definition critical_health : rule :=
  {| name := "Critical Health";
     condition := fun e =>
       match data e with
       | HealthCheck c => String.eqb (EnvironmentMonitor.check_status c) "critical"
       | _ => false
       end;
     rule_severity := Critical;
     channels := ["console"; "slack"];
     message := Some (fun e =>
       match data e with
       | HealthCheck c =>
           "Critical health status for " +:+ EnvironmentMonitor.check_url c
             +:+ ". Issues: "
             +:+ join "; " (map EnvironmentMonitor.issue_message
                              (EnvironmentMonitor.issues c))
       | _ => EmptyString
       end);
     throttle := None |}.

Definition structure_change : rule :=
  {| name := "Structure Change";
     condition := fun e =>
       match data e with
       | EnvironmentChange c => EnvironmentMonitor.is_structure c
       | _ => false
       end;
     rule_severity := Warning;
     channels := ["console"; "slack"];
     message := Some (fun e =>
       match data e with
       | EnvironmentChange c =>
           "Structure change on " +:+ EnvironmentMonitor.change_url c
             +:+ ": " +:+ EnvironmentMonitor.description c
       | _ => EmptyString
       end);
     throttle := None |}.

Definition performance_degradation : rule :=
  {| name := "Performance Degradation";
     condition := fun e =>
       match data e with
       | HealthCheck c => 10000 <? EnvironmentMonitor.responseTime c
       | _ => false
       end;
     rule_severity := Warning;
     channels := ["console"];
     message := Some (fun e =>
       match data e with
       | HealthCheck c =>
           "Slow response from " +:+ EnvironmentMonitor.check_url c
             +:+ ": " +:+ pretty (EnvironmentMonitor.responseTime c) +:+ "ms"
       | _ => EmptyString
       end);
     throttle := Some 30 |}.

Definition geo_mismatch : rule :=
  {| name := "Geo Mismatch";
     condition := fun e =>
       match data e with
       | HealthCheck c =>
           match mismatched c with
           | [] => false
           | _ => true
           end
       | _ => false
       end;
     rule_severity := Warning;
     channels := ["console"];
     message := Some (fun e =>
       match data e with
       | HealthCheck c =>
           "Geographic mismatch on " +:+ EnvironmentMonitor.check_url c
             +:+ " for regions: " +:+ join ", " (mismatched c)
       | _ => EmptyString
       end);
     throttle := None |}.

Definition defaultAlertRules : list rule :=
  [critical_health; structure_change; performance_degradation; geo_mismatch].


(** The deliveries of a trace that carry the alert [i]. *)
Definition deliveries_of (i : string) (es : list effect) : list effect :=
  List.filter (fun e => match e with
                        | Deliver _ j _ => String.eqb i j
                        | EmitAlert _ => false
                        end) es.

(** [array.slice(0, end)]: a negative [end] counts from the end. *)
Definition slice_to {A : Type} (end_ : Z) (l : list A) : list A :=
  if end_ <? 0
  then take (Z.to_nat (Z.of_nat (length l) + end_)) l
  else take (Z.to_nat end_) l.

(** [getHistory(limit)]: newest first; an absent or zero [limit] gives
    the whole history. *)
Definition getHistory (limit : option Z) (st : state) : list alert :=
  let history := rev (alertHistory st) in
  match limit with
  | Some n => if n =? 0 then history else slice_to n history
  | None => history
  end.

End AlertingSystem.

(** The shape of result the HTTP executor returns is one the handler can
    read. *)
#[export] Instance http_result : EscalationHandler.ExecutionResult HttpExecutor.result := {|
  EscalationHandler.needs_escalation := HttpExecutor.escalationNeeded;
  EscalationHandler.reason_of := HttpExecutor.escalationReason
|}.

(** * Vocabulary of the properties *)

(** ** Runs of the escalation handler *)

Section HandlerVocabulary.
Import EscalationHandler.
Context {R : Type} `{ExecutionResult R}.
Variable cfg : config.
Variable url : string.
Variable executors : gmap string (executor R).
Variable opts : options.

(** [ascending cfg lo l]: the positions of the levels of [l] increase
    strictly and start at [lo] or above. *)
Definition ascending (lo : Z) (l : list string) : Prop :=
  StronglySorted Z.lt (map (JS.indexOf (levels cfg)) l)
  /\ Forall (fun x => lo <= JS.indexOf (levels cfg) x) l.

(** The key of a history entry and of an ['escalation'] event: the url,
    the source tier and the reason. *)
Definition entry_key (h : history_entry) : string * string * option string :=
  (entry_url h, fromLevel h, reason h).

Definition event_key (e : string * string * string * option string)
    : string * string * option string :=
  let '(u, from, _, why) := e in (u, from, why).

(** Every configured level has an executor, and whenever one is called
    it returns a result that asks for escalation. *)
Definition always_escalating : Prop :=
  forall l, l ∈ levels cfg ->
    exists e, executors !! l = Some e
      /\ forall k, exists r, executeAtLevel url opts e k = Returns r
                             /\ needs_escalation r = true.

End HandlerVocabulary.

(** ** Retries of the HTTP executor *)

Section FetchVocabulary.
Import HttpExecutor.
Variable cfg : config.

(** The waits before the retries of attempts [from], ..., [from + n - 1]:
    [retryDelay * (attempt + 1)] each. *)
Definition waits (from n : nat) : list Z :=
  map (fun j => retryDelay cfg * (Z.of_nat j + 1)) (seq from n).

Definition waited (ds : list Z) (st : state) : state :=
  {| records := records st; delays := delays st ++ ds |}.

(** The first attempt among [from], ..., [from + n - 1] whose error
    message asks for escalation. *)
Fixpoint first_blocking (msgs : nat -> string) (from n : nat) : option nat :=
  match n with
  | O => None
  | S n' => if shouldEscalate (msgs from) then Some from
            else first_blocking msgs (S from) n'
  end.

End FetchVocabulary.

(** ** Heuristics of the environment analyzer *)

Section AnalyzerVocabulary.
Import EnvironmentAnalyzer.



Definition total (l : list Q) : Q := fold_right Qplus 0%Q l.


End AnalyzerVocabulary.

(** ** Drift records *)

Section MonitorVocabulary.
Import EnvironmentMonitor.

Definition is_warning (s : severity) : bool :=
  match s with
  | Warning => true
  | _ => false
  end.

(** The structural warning about the selector [selector]. *)
Definition structural_record_for (selector : string) (c : change) : bool :=
  is_structure c && is_warning (change_severity c)
  && String.eqb (description c) (missing_description selector).

(** The match count a check stored for a selector, [0] when it stored
    none: [selectorMatches[selector] || 0]. *)
Definition stored_count (c : check) (selector : string) : nat :=
  default 0%nat (selectorMatches c !! selector).

End MonitorVocabulary.

(** ** Alerts and their deliveries *)

Section AlertingVocabulary.
Import AlertingSystem.
Variable cfg : config.

(** What delivering an alert on its channels hands to the outside: one
    delivery per channel the [switch] knows, then the ['alert'] event. *)
Definition channel_effects (alert_id : string) (chans : list string) : list effect :=
  omap (fun ch => Deliver ch alert_id <$> sender cfg ch) chans.


(** A rule fires on an event when its condition holds and it is not
    throttled. *)
Definition fires (now : Z) (st : state) (r : rule) (e : event) : bool :=
  condition r e && negb (isThrottled cfg now st r).

(** What is known of the alert a rule raises. *)
Definition raised_by (now : Z) (r : rule) (e : event) (a : alert) : Prop :=
  alert_rule a = name r /\ alert_severity a = rule_severity r
  /\ alert_timestamp a = now /\ alert_channels a = channels r
  /\ alert_event a = e.

End AlertingVocabulary.

(** ** Concrete inputs *)

Module Examples.

Definition js_wall : response :=
  {| status := 200;
     headers := [("content-type", "text/html")];
     data := DString "<html><body>Please enable JavaScript to view this page.</body></html>" |}.

(** A result as a browser tier returns it: nothing more to escalate. *)
Definition rendered : HttpExecutor.result :=
  {| HttpExecutor.success := true;
     HttpExecutor.url := "https://shop.example/pricing";
     HttpExecutor.statusCode := 200;
     HttpExecutor.result_headers := None;
     HttpExecutor.body := "<html><body><h1>Pricing</h1></body></html>";
     HttpExecutor.contentLength := Some 42;
     HttpExecutor.executionTime := 1800;
     HttpExecutor.retryCount := 0;
     HttpExecutor.proxyUsed := None;
     HttpExecutor.cost := None;
     HttpExecutor.escalationNeeded := false;
     HttpExecutor.escalationReason := None;
     HttpExecutor.error := None |}.

(** A result that asks for the next tier. *)
Definition blocked : HttpExecutor.result :=
  HttpExecutor.buildEscalationResult "https://shop.example/pricing" 120 1
    "Access blocked".

Definition http_config : HttpExecutor.config :=
  HttpExecutor.constructor None None
    {| HttpExecutor.user_customerId := None;
       HttpExecutor.user_password := None;
       HttpExecutor.user_timeout := None;
       HttpExecutor.user_retries := None;
       HttpExecutor.user_retryDelay := None |}.

Definition handler_defaults : EscalationHandler.user_config :=
  {| EscalationHandler.user_autoEscalate := None;
     EscalationHandler.user_escalationDelay := None |}.

Definition handler_config : EscalationHandler.config :=
  EscalationHandler.constructor handler_defaults.

Definition clock (k : nat) : Z := 1000 * Z.of_nat k.

Definition target : string := "https://shop.example/pricing".

(** The network answers the first request with the JavaScript wall. *)
Definition wall_network (k : nat) : wire := Answer js_wall.


(** The second request is refused by the target. *)
Definition refusing_network (k : nat) : wire :=
  match k with
  | 1%nat => Failure "Access blocked by target"
  | _ => Failure "socket hang up"
  end.


(** The HTTP executor as the handler sees it: an object with [fetch]. *)
Definition http_executor (network : nat -> wire)
    : EscalationHandler.executor HttpExecutor.result :=
  EscalationHandler.ExecFetch
    (fun u o _ => snd (HttpExecutor.fetch http_config network 0 clock u o
                         HttpExecutor.initial)).

Definition always (r : HttpExecutor.result)
    : EscalationHandler.executor HttpExecutor.result :=
  EscalationHandler.ExecFunction (fun _ _ _ => Returns r).

(** HTTP behind the wall, a light browser that renders the page. *)
Definition wall_executors : gmap string (EscalationHandler.executor HttpExecutor.result) :=
  <["http" := http_executor wall_network]>
  (<["browser-light" := always rendered]> ∅).

(** Three tiers that all ask for more. *)
Definition hopeless_executors : gmap string (EscalationHandler.executor HttpExecutor.result) :=
  <["http" := always blocked]>
  (<["browser-light" := always blocked]>
  (<["browser-advanced" := always blocked]> ∅)).


(** Only the browser tiers are provided. *)
Definition browser_only : gmap string (EscalationHandler.executor HttpExecutor.result) :=
  <["browser-light" := always rendered]> ∅.

End Examples.

Module AnalyzerExamples.

(** Cloudflare and DataDome in the headers, a React shell in the body. *)
Definition guarded_shell : response :=
  {| status := 403;
     headers := [("cf-ray", "8a1b2c3d4e5f-FRA"); ("x-served-by", "DataDome")];
     data := DString "<div id='root'></div><script src='/static/react.js'></script><!-- cloudflare -->" |}.

End AnalyzerExamples.

Module MonitorExamples.

Definition check_at (ms : Z) (matches : gmap string nat) : EnvironmentMonitor.check :=
  {| EnvironmentMonitor.check_url := Examples.target;
     EnvironmentMonitor.check_timestamp := 0;
     EnvironmentMonitor.check_status := "healthy";
     EnvironmentMonitor.responseTime := ms;
     EnvironmentMonitor.executionLevel := "http";
     EnvironmentMonitor.selectorMatches := matches;
     EnvironmentMonitor.geoResults := None;
     EnvironmentMonitor.issues := [] |}.

(** Baseline: 100 ms, three price boxes and a title. *)
Definition baseline : EnvironmentMonitor.check :=
  check_at 100 (<[".price-box" := 3%nat]> (<[".title" := 1%nat]> ∅)).

(** Later check: 250 ms, the price boxes are gone, two titles. *)
Definition drifted : EnvironmentMonitor.check :=
  check_at 250 (<[".price-box" := 0%nat]> (<[".title" := 2%nat]> ∅)).

Definition baselines : gmap string EnvironmentMonitor.check :=
  <[Examples.target := baseline]> ∅.

End MonitorExamples.

Module AlertingExamples.

Definition channels : AlertingSystem.channel_config :=
  {| AlertingSystem.slack_webhook := None;
     AlertingSystem.email_to := [];
     AlertingSystem.webhook_url := None |}.

Definition config : AlertingSystem.config :=
  AlertingSystem.constructor channels AlertingSystem.defaultAlertRules None.



End AlertingExamples.

(** ** Further vocabulary: the escalation handler *)

Section HandlerVocabularyMore.
Import EscalationHandler.
Context {R : Type} `{ExecutionResult R}.
Variable cfg : config.
Variable url : string.
Variable executors : gmap string (executor R).
Variable opts : options.

(** Every configured level has an executor, and whenever one is called
    it throws. *)
Definition always_throwing : Prop :=
  forall l, l ∈ levels cfg ->
    exists e, executors !! l = Some e
      /\ forall k, exists m, executeAtLevel url opts e k = Throws m.

End HandlerVocabularyMore.

(** The element that follows the first occurrence of [x] in [l]. *)
Fixpoint after_first (l : list string) (x : string) : option string :=
  match l with
  | [] => None
  | y :: l' => if String.eqb y x then head l' else after_first l' x
  end.

Module HandlerExamples.

(** A handler built with [autoEscalate: false]. *)
Definition manual_config : EscalationHandler.config :=
  EscalationHandler.constructor
    {| EscalationHandler.user_autoEscalate := Some false;
       EscalationHandler.user_escalationDelay := None |}.

(** Three values that are neither functions nor objects with [fetch] or
    [execute]. *)
Definition invalid_executors
    : gmap string (EscalationHandler.executor HttpExecutor.result) :=
  <["http" := EscalationHandler.ExecInvalid]>
  (<["browser-light" := EscalationHandler.ExecInvalid]>
  (<["browser-advanced" := EscalationHandler.ExecInvalid]> ∅)).

(** A run started at a level of the caller's own. *)
Definition custom_start : options :=
  {| startLevel := Some "cache"; geo := None; method := None |}.

Definition custom_executors
    : gmap string (EscalationHandler.executor HttpExecutor.result) :=
  <["cache" := Examples.always Examples.blocked]> Examples.hopeless_executors.

End HandlerExamples.

(** ** Further vocabulary: the HTTP executor *)

(** A body on which [checkForEscalationSignals] sees fewer than 100
    characters: a short string, or a parsed value, which the check reads
    as the empty string. *)
Definition small (d : body_data) : Prop :=
  match d with
  | DString s => (String.length s < 100)%nat
  | DParsed _ _ => True
  end.

(** The message of the error thrown for [w], when it is one. *)
Definition error_message (w : wire) : string :=
  match HttpExecutor.axios w with
  | Throws m => m
  | Returns _ => EmptyString
  end.

(** The details [executeRequest] hands to the cost tracker. *)
Definition details_of (target : string) (opts : options) (resp : response)
    : CostTracker.details :=
  {| CostTracker.details_url := target;
     CostTracker.bytesTransferred := HttpExecutor.data_length (data resp);
     CostTracker.details_geo := geo opts |}.

Module FetchExamples.

(** A challenge page served with status 403. *)
Definition challenge_page : response :=
  {| status := 403;
     headers := [("content-type", "text/html")];
     data := DString "<html><body>Checking your browser: complete the captcha to continue.</body></html>" |}.

(** The same page served with status 503, on every request. *)
Definition overloaded_network (k : nat) : wire :=
  Answer {| status := 503;
            headers := [("retry-after", "30")];
            data := DString "<html><body>Checking your browser: complete the captcha to continue.</body></html>" |}.

(** An API that answers with a small JSON document. *)
Definition api_network (k : nat) : wire :=
  Answer {| status := 200;
            headers := [("content-type", "application/json")];
            data := DParsed "{'price':29.99}" 0 |}.

(** One time-out, then the JavaScript wall. *)
Definition flaky_network (k : nat) : wire :=
  match k with
  | O => Failure "timeout of 30000ms exceeded"
  | _ => Answer Examples.js_wall
  end.

End FetchExamples.

(** ** Further vocabulary: the cost tracker *)

(** The property names every object inherits from [Object.prototype].
    [this.rates[level]], [this.geoPremiums[geo]] and [byLevel[level]]
    find these although the object has no such key of its own; the maps
    of the model hold the own keys, so the properties below leave these
    names out. *)
Definition inherited : list string :=
  ["constructor"; "__proto__"; "hasOwnProperty"; "isPrototypeOf";
   "propertyIsEnumerable"; "toString"; "toLocaleString"; "valueOf";
   "__defineGetter__"; "__defineSetter__"; "__lookupGetter__";
   "__lookupSetter__"].

(** The region [calculateCost] looks up. *)
Definition region (d : CostTracker.details) : string :=
  JS.toLowerCase (JS.or_else (CostTracker.details_geo d) "us").

Module CostExamples.

(** Forty kilobytes fetched through a French exit. *)
Definition french_page : CostTracker.details :=
  {| CostTracker.details_url := Examples.target;
     CostTracker.bytesTransferred := 40960;
     CostTracker.details_geo := Some "FR" |}.

Definition one_record : list CostTracker.record_entry :=
  fst (CostTracker.record 0 "http" french_page []).

End CostExamples.

(** ** Further vocabulary: the monitor *)

Section MonitorVocabularyMore.
Import EnvironmentMonitor.

(** The selector is found on the page at least once. *)
Definition found_on (obs : observation) (selector : string) : Prop :=
  exists n, matches_of obs selector = Returns (S n).

(** Counting the selector throws. *)
Definition fails_on (obs : observation) (selector : string) : Prop :=
  exists message, matches_of obs selector = Throws message.

(** The cutoff of [addToHistory]. *)
Definition cutoff (cfg : config) (now : Z) : Z :=
  now - retentionDays cfg * 24 * 60 * 60 * 1000.

(** The checks of one cycle, target by target. *)
Definition cycle (cfg : config) (observe : nat -> observation)
    (from : nat) (ts : list target) : list check :=
  imap (fun k t => checkTarget cfg t (observe (from + k)%nat)) ts.

End MonitorVocabularyMore.

Module MonitorRuns.

Definition shop : EnvironmentMonitor.target :=
  {| EnvironmentMonitor.target_url := "https://shop.example/pricing";
     EnvironmentMonitor.selectors := Some [".price-box"; ".title"];
     EnvironmentMonitor.maxResponseTime := Some 3000 |}.

Definition blog : EnvironmentMonitor.target :=
  {| EnvironmentMonitor.target_url := "https://blog.example/";
     EnvironmentMonitor.selectors := None;
     EnvironmentMonitor.maxResponseTime := None |}.

Definition config : EnvironmentMonitor.config :=
  EnvironmentMonitor.constructor
    {| EnvironmentMonitor.user_targets := Some [shop; blog];
       EnvironmentMonitor.user_checkInterval := None;
       EnvironmentMonitor.user_geos := Some ["us"; "de"];
       EnvironmentMonitor.user_retentionDays := None |}.

(** Every selector is found once, both regions agree. *)
Definition steady (i : nat) : EnvironmentMonitor.observation :=
  {| EnvironmentMonitor.elapsed := 800;
     EnvironmentMonitor.matches_of := fun _ => Returns 1%nat;
     EnvironmentMonitor.geo_statuses := [("us", "ok"); ("de", "ok")];
     EnvironmentMonitor.stamp := 1000 + Z.of_nat i;
     EnvironmentMonitor.elapsed_at_failure := 800 |}.

Definition clock (i : nat) : Z := 2000 + Z.of_nat i.

(** A monitor that has checked the shop once. *)
Definition after_one_cycle : EnvironmentMonitor.monitor :=
  fst (EnvironmentMonitor.runChecks config steady clock clock
         EnvironmentMonitor.initial).

End MonitorRuns.

(** ** Further vocabulary: the alerting system *)

(** The channel names [deliverAlert] has a sender for. *)
Definition known_channels : list string :=
  ["console"; "slack"; "email"; "webhook"].

(** The events [pipe] builds from what a monitor emits. *)
Definition health_event (c : EnvironmentMonitor.check) : AlertingSystem.event :=
  {| AlertingSystem.data := AlertingSystem.HealthCheck c;
     AlertingSystem.source := EnvironmentMonitor.check_url c;
     AlertingSystem.event_timestamp := EnvironmentMonitor.check_timestamp c |}.

Definition change_event (c : EnvironmentMonitor.change) : AlertingSystem.event :=
  {| AlertingSystem.data := AlertingSystem.EnvironmentChange c;
     AlertingSystem.source := EnvironmentMonitor.change_url c;
     AlertingSystem.event_timestamp := EnvironmentMonitor.change_timestamp c |}.

(** The id of the [k]-th alert a call creates, counting from 0. *)
Definition id_of (st : AlertingSystem.state) (now : Z) (k : nat) : string :=
  "alert_" +:+ pretty (AlertingSystem.alertCounter st + S k)%nat
    +:+ "_" +:+ pretty now.

Module AlertingRuns.

(** A rule that names a channel the system has no sender for. *)
Definition pager_rule : AlertingSystem.rule :=
  {| AlertingSystem.name := "Page on call";
     AlertingSystem.condition := fun _ => true;
     AlertingSystem.rule_severity := Critical;
     AlertingSystem.channels := ["pager"; "slack"];
     AlertingSystem.message := None;
     AlertingSystem.throttle := None |}.

(** A drift record of the performance kind. *)
Definition slowdown : EnvironmentMonitor.change :=
  {| EnvironmentMonitor.change_url := Examples.target;
     EnvironmentMonitor.change_timestamp := 7000;
     EnvironmentMonitor.changeType := EnvironmentMonitor.Performance;
     EnvironmentMonitor.change_severity := Warning;
     EnvironmentMonitor.description := "Response time doubled";
     EnvironmentMonitor.before := 100;
     EnvironmentMonitor.after := 250 |}.

(** The state after one custom alert. *)
Definition after_custom : AlertingSystem.state :=
  fst (AlertingSystem.sendAlert AlertingExamples.config 1000
         "Deploy finished" None None AlertingSystem.initial).

End AlertingRuns.

(** ** The alerting system, one resumption at a time *)

Module Stepwise.
Import AlertingSystem.

(** An [async] call that has been started: it has finished with its
    value, or it is suspended at an [await] and [resume] is what it
    does, up to its next [await], when its continuation is run. *)
Inductive call (A : Type) : Type :=
| Finished (value : A)
| Suspended (resume : state -> state * call A).

Arguments Finished {A} value.
Arguments Suspended {A} resume.

(** A call whose caller awaits it while nothing else runs: it is
    resumed until it has finished. *)
Fixpoint complete {A : Type} (c : call A) (st : state) : state * A :=
  match c with
  | Finished value => (st, value)
  | Suspended resume => let '(st', c') := resume st in complete c' st'
  end.

(** The same of a call that has just been started. *)
Definition awaited {A : Type} (started : state * call A) : state * A :=
  complete (snd started) (fst started).

Definition perform (e : effect) (st : state) : state :=
  {| alertHistory := alertHistory st; lastAlerts := lastAlerts st;
     alertCounter := alertCounter st; effects := effects st ++ [e] |}.

(** [alert.deliveryResults[channel] = true]. *)
Definition record_delivery (channel : string) (a : alert) : alert :=
  {| id := id a; alert_rule := alert_rule a;
     alert_severity := alert_severity a;
     alert_timestamp := alert_timestamp a;
     alert_message := alert_message a;
     alert_channels := alert_channels a; alert_event := alert_event a;
     delivered := delivered a;
     deliveryResults := <[channel := true]> (deliveryResults a) |}.

(** [alert.delivered = Object.values(alert.deliveryResults).some(v => v)]. *)
Definition settle (a : alert) : alert :=
  {| id := id a; alert_rule := alert_rule a;
     alert_severity := alert_severity a;
     alert_timestamp := alert_timestamp a;
     alert_message := alert_message a;
     alert_channels := alert_channels a; alert_event := alert_event a;
     delivered := existsb (fun kv => snd kv) (map_to_list (deliveryResults a));
     deliveryResults := deliveryResults a |}.

(** [this.alertHistory.push(alert); this.emit('alert', alert)]. *)
Definition publish (a : alert) (st : state) : state :=
  {| alertHistory := alertHistory st ++ [a]; lastAlerts := lastAlerts st;
     alertCounter := alertCounter st;
     effects := effects st ++ [EmitAlert (id a)] |}.

Definition count_alert (st : state) : state :=
  {| alertHistory := alertHistory st; lastAlerts := lastAlerts st;
     alertCounter := S (alertCounter st); effects := effects st |}.

Section Calls.
Variable cfg : config.
(** [clock k] is what the [k]-th reading of the clock made during the
    call returns. *)
Variable clock : nat -> Z.

(** [deliverAlert], with what follows it as [next].  The sender of the
    console is an ordinary function; those of the other channels are
    [async] and awaited: the sender runs, the call is suspended, and the
    result is recorded when it is resumed. *)
Fixpoint deliverAlert {B : Type} (a : alert) (chans : list string)
    (next : alert -> state -> state * call B) (st : state)
    : state * call B :=
  match chans with
  | [] => next (settle a) st
  | channel :: rest =>
      match sender cfg channel with
      | Some announced =>
          let st := perform (Deliver channel (id a) announced) st in
          if String.eqb channel "console"
          then deliverAlert (record_delivery channel a) rest next st
          else (st, Suspended
                      (deliverAlert (record_delivery channel a) rest next))
      | None => deliverAlert a rest next st
      end
  end.

(** [createAndSendAlert], reading the clock for the id and then for
    the timestamp, from the reading [k] on. *)
Definition createAndSendAlert {B : Type} (k : nat) (r : rule) (e : event)
    (next : alert -> state -> state * call B) (st : state)
    : state * call B :=
  let text := match message r with
              | Some format => format e
              | None => generateDefaultMessage r e
              end in
  let st := count_alert st in
  let a := {| id := "alert_" +:+ pretty (alertCounter st) +:+ "_"
                     +:+ pretty (clock k);
              alert_rule := name r;
              alert_severity := rule_severity r;
              alert_timestamp := clock (S k);
              alert_message := text;
              alert_channels := channels r;
              alert_event := e;
              delivered := false;
              deliveryResults := ∅ |} in
  deliverAlert a (channels r)
    (fun a st => (st, Suspended (fun st => next a (publish a st)))) st.

(** The loop of [processEvent] from the rules that are left, [k]
    readings of the clock having been made.  [isThrottled] reads the
    clock only when the rule has a throttle timestamp. *)
Fixpoint process_rules (rs : list rule) (e : event) (k : nat)
    (alerts : list alert) (st : state) : state * call (list alert) :=
  match rs with
  | [] => (st, Finished alerts)
  | r :: rest =>
      let fire (k : nat) :=
        createAndSendAlert k r e
          (fun a st =>
             (st, Suspended
                    (fun st =>
                       process_rules rest e (3 + k) (alerts ++ [a])
                         (set_lastAlert (clock (2 + k)) (name r) st))))
          st in
      if negb (condition r e) then process_rules rest e k alerts st
      else match lastAlerts st !! name r with
           | Some lastAlert =>
               if clock k - lastAlert <? throttleMs cfg r
               then process_rules rest e (S k) alerts st
               else fire (S k)
           | None => fire k
           end
  end.

Definition processEvent (e : event) (st : state)
    : state * call (list alert) :=
  process_rules (rules cfg) e 0 [] st.

End Calls.







End Stepwise.

(** ** Further vocabulary: alerts of awaited calls *)

Section StepwiseVocabulary.
Import AlertingSystem.



End StepwiseVocabulary.

Module RaceExamples.









End RaceExamples.

Module SameNameExamples.

(** Two rules called "Latency": a pager with a window of one minute
    and a digest with a window of thirty. *)
Definition pager : AlertingSystem.rule :=
  {| AlertingSystem.name := "Latency";
     AlertingSystem.condition := fun _ => true;
     AlertingSystem.rule_severity := Critical;
     AlertingSystem.channels := ["slack"];
     AlertingSystem.message := None;
     AlertingSystem.throttle := Some 1 |}.

Definition digest : AlertingSystem.rule :=
  {| AlertingSystem.name := "Latency";
     AlertingSystem.condition := fun _ => true;
     AlertingSystem.rule_severity := Info;
     AlertingSystem.channels := ["email"];
     AlertingSystem.message := None;
     AlertingSystem.throttle := Some 30 |}.

Definition config : AlertingSystem.config :=
  AlertingSystem.constructor AlertingExamples.channels [pager; digest] None.



End SameNameExamples.

(** ** Arrivals of the escalation handler *)

Section HandlerArrivals.
Import EscalationHandler.
Context {R : Type} `{ExecutionResult R}.
Variable cfg : config.
Variable Date_now : nat -> Z.
Variable url : string.
Variable executors : gmap string (executor R).
Variable opts : options.

(** [arrives cur count es hs level n]: entered with [currentLevel = cur]
    and [escalationCount = count], the loop moves on from attempt to
    attempt, each of which returns a result that asks for escalation or
    throws, performing [es] and recording [hs], and comes to [level]
    with [escalationCount = n].  No attempt is made at [level] yet. *)
Inductive arrives : string -> nat -> list effect -> list history_entry ->
                    string -> nat -> Prop :=
| arrives_at cur count :
    arrives cur count [] [] cur count
| arrives_escalated cur count e r next es hs level n :
    (count < length (levels cfg))%nat ->
    executors !! cur = Some e ->
    executeAtLevel url opts e count = Returns r ->
    needs_escalation r = true ->
    autoEscalate cfg = true ->
    truthy_level (getNextLevel cfg cur) = Some next ->
    arrives next (S count) es hs level n ->
    arrives cur count
      (EmitExecutionStart url cur :: Invoke cur count
         :: EmitEscalation url cur next (reason_of r)
         :: Delay (escalationDelay cfg) :: es)
      ({| entry_url := url; fromLevel := cur; reason := reason_of r;
          timestamp := Date_now count |} :: hs)
      level n
| arrives_caught cur count e msg next es hs level n :
    (count < length (levels cfg))%nat ->
    executors !! cur = Some e ->
    executeAtLevel url opts e count = Throws msg ->
    truthy_level (getNextLevel cfg cur) = Some next ->
    autoEscalate cfg = true ->
    arrives next (S count) es hs level n ->
    arrives cur count (EmitExecutionStart url cur :: Invoke cur count :: es)
      hs level n.

End HandlerArrivals.

(** ** Inputs on which claims fail as stated *)

Module WallExamples.

Definition wall_body : string :=
  "<html><body>Please enable JavaScript to view this page.</body></html>".

(** The JavaScript wall served with status 503, on every request. *)
Definition unavailable_wall (k : nat) : wire :=
  Answer {| status := 503;
            headers := [("content-type", "text/html")];
            data := DString wall_body |}.

(** HTTP behind that wall, a light browser that renders the page. *)
Definition unavailable_executors
    : gmap string (EscalationHandler.executor HttpExecutor.result) :=
  <["http" := Examples.http_executor unavailable_wall]>
  (<["browser-light" := Examples.always Examples.rendered]> ∅).

(** The text of a JSON document that holds the phrase. *)
Definition wall_document : string :=
  "{" +:+ JSON.quote "message" +:+ ":"
    +:+ JSON.quote "Please enable JavaScript" +:+ "}".

(** The document as axios hands it over: parsed, an object without a
    [length]. *)
Definition json_wall (k : nat) : wire :=
  Answer {| status := 200;
            headers := [("content-type", "application/json")];
            data := DParsed wall_document 0 |}.

End WallExamples.

Module InheritedExamples.

(** What an executor can hand back: a result object, or a string. *)
Inductive handed_back : Type :=
| Shaped (r : HttpExecutor.result)
| Text (s : string).

(** On a string, [result.escalationNeeded] and [result.escalationReason]
    are [undefined]. *)
#[global] Instance handed_back_result
    : EscalationHandler.ExecutionResult handed_back := {|
  EscalationHandler.needs_escalation v :=
    match v with
    | Shaped r => HttpExecutor.escalationNeeded r
    | Text _ => false
    end;
  EscalationHandler.reason_of v :=
    match v with
    | Shaped r => HttpExecutor.escalationReason r
    | Text _ => None
    end
|}.

(** [Object.prototype.toString], which every object literal inherits:
    called as [executor(url, options)] its [this] is [undefined] and it
    returns the string below. *)
Definition inherited_toString : EscalationHandler.executor handed_back :=
  EscalationHandler.ExecFunction
    (fun _ _ _ => Returns (Text "[object Undefined]")).

(** What [executors[level]] finds in an object with the members [own]:
    its own members first, then the inherited ones.  Of the inherited
    names only "toString", the one looked up below, is listed. *)
Definition seen (own : gmap string (EscalationHandler.executor handed_back))
    : gmap string (EscalationHandler.executor handed_back) :=
  own ∪ <["toString" := inherited_toString]> ∅.

Definition from_toString : options :=
  {| startLevel := Some "toString"; geo := None; method := None |}.

(** An HTTP tier that asks for more, and no browser tier. *)
Definition http_alone
    : gmap string (EscalationHandler.executor HttpExecutor.result) :=
  <["http" := Examples.always Examples.blocked]> ∅.

End InheritedExamples.

Module RoundingExamples.



End RoundingExamples.

(** * Properties *)

(** ** Arrays of level names *)

Section IndexOf.
Implicit Types (l : list string) (x : string).

Lemma indexOf_bounds l x : -1 <= JS.indexOf l x < Z.of_nat (length l).
Proof.
  induction l as [|y l IH]; simpl; [lia|].
  destruct (String.eqb y x); [lia|].
  destruct (Z.ltb_spec (JS.indexOf l x) 0); lia.
Qed.

Lemma indexOf_absent l x : x ∉ l -> JS.indexOf l x = -1.
Proof.
  induction l as [|y l IH]; simpl; intros Hx; [reflexivity|].
  apply not_elem_of_cons in Hx as [Hne Hx].
  destruct (String.eqb_spec y x) as [->|_]; [congruence|].
  rewrite (IH Hx). reflexivity.
Qed.

(** In an array without repetition [indexOf] inverts indexing. *)
Lemma indexOf_lookup l (n : nat) x :
  NoDup l -> l !! n = Some x -> JS.indexOf l x = Z.of_nat n.
Proof.
  intros Hnd. revert n.
  induction Hnd as [|y l Hy Hnd IH]; intros n Hn; [discriminate|].
  destruct n as [|n]; simpl in *.
  - injection Hn as ->. rewrite String.eqb_refl. reflexivity.
  - destruct (String.eqb_spec y x) as [->|_].
    + exfalso. apply Hy. eapply list_elem_of_lookup_2. exact Hn.
    + rewrite (IH n Hn).
      destruct (Z.ltb_spec (Z.of_nat n) 0); lia.
Qed.

End IndexOf.

(** ** The escalation handler as a big-step relation *)

Section HandlerRuns.
Import EscalationHandler.
Context {R : Type} `{ExecutionResult R}.
Variable cfg : config.
Variable Date_now : nat -> Z.
Variable url : string.
Variable executors : gmap string (executor R).
Variable opts : options.

Abbreviation idx := (JS.indexOf (levels cfg)).

Lemma extend_nil st : extend st [] [] = st.
Proof. destruct st. unfold extend. simpl. rewrite !app_nil_r. reflexivity. Qed.

Lemma extend_extend st es hs es' hs' :
  extend (extend st es hs) es' hs' = extend st (es ++ es') (hs ++ hs').
Proof. unfold extend. simpl. rewrite !app_assoc. reflexivity. Qed.

Lemma perform_extend e st : perform e st = extend st [e] [].
Proof. unfold perform, extend. rewrite app_nil_r. reflexivity. Qed.

Lemma push_history_extend h st : push_history h st = extend st [] [h].
Proof. unfold push_history, extend. rewrite app_nil_r. reflexivity. Qed.

(** The loop function computes a run, and with enough fuel it never
    stops for lack of it. *)
Lemma loop_run fuel cur count st :
  (length (levels cfg) <= count + fuel)%nat ->
  exists es hs c,
    loop cfg Date_now url executors opts fuel cur count st
      = (extend st es hs, c)
    /\ run cfg Date_now url executors opts cur count es hs c.
Proof.
  revert cur count st.
  induction fuel as [|fuel IH]; intros cur count st Hfuel.
  - exists [], [], ResolvedUndefined. simpl.
    destruct (Nat.ltb_spec count (length (levels cfg))); [lia|].
    rewrite extend_nil. split; [reflexivity|]. constructor. lia.
  - simpl. destruct (Nat.ltb_spec count (length (levels cfg))) as [Hlt|Hge].
    2:{ exists [], [], ResolvedUndefined. rewrite extend_nil.
        split; [reflexivity|]. constructor. lia. }
    destruct (executors !! cur) as [e|] eqn:He.
    2:{ exists [], [], ResolvedUndefined. rewrite extend_nil.
        split; [reflexivity|]. by constructor. }
    rewrite ?perform_extend, ?push_history_extend, ?extend_extend. simpl.
    destruct (executeAtLevel url opts e count) as [r|msg] eqn:Hcall.
    + destruct (needs_escalation r && autoEscalate cfg)%bool eqn:Hesc.
      * apply andb_true_iff in Hesc as [Hneed Hauto].
        destruct (truthy_level (getNextLevel cfg cur)) as [next|] eqn:Hnext.
        -- rewrite ?perform_extend, ?push_history_extend, ?extend_extend.
           simpl.
           destruct (IH next (S count)
                       (extend st
                          [EmitExecutionStart url cur; Invoke cur count;
                           EmitEscalation url cur next (reason_of r);
                           Delay (escalationDelay cfg)]
                          [{| entry_url := url; fromLevel := cur;
                              reason := reason_of r;
                              timestamp := Date_now count |}]))
             as (es & hs & c & Heq & Hrun); [lia|].
           rewrite Heq, extend_extend.
           eexists _, _, c. split; [reflexivity|].
           simpl. eapply run_escalate; eauto.
        -- eexists _, _, _. split; [reflexivity|].
           eapply run_return; eauto.
      * eexists _, _, _. split; [reflexivity|].
        eapply run_return; eauto.
    + destruct (truthy_level (getNextLevel cfg cur)) as [next|] eqn:Hnext.
      * destruct (autoEscalate cfg) eqn:Hauto.
        -- destruct (IH next (S count)
                       (extend st [EmitExecutionStart url cur;
                                   Invoke cur count] []))
             as (es & hs & c & Heq & Hrun); [lia|].
           rewrite Heq, extend_extend.
           eexists _, _, c. split; [reflexivity|].
           simpl. eapply run_caught; eauto.
        -- eexists _, _, _. split; [reflexivity|].
           eapply run_rethrow; eauto.
      * eexists _, _, _. split; [reflexivity|].
        eapply run_rethrow; eauto.
Qed.

Lemma run_settles cur count es hs c :
  run cfg Date_now url executors opts cur count es hs c -> c <> OutOfFuel.
Proof. induction 1; auto; discriminate. Qed.

Lemma executeWithEscalation_run st :
  exists es hs c,
    executeWithEscalation cfg Date_now url executors opts st
      = (extend st es hs, c)
    /\ run cfg Date_now url executors opts
          (JS.or_else (startLevel opts) "http") 0 es hs c.
Proof. unfold executeWithEscalation. apply loop_run. lia. Qed.

End HandlerRuns.

(** ** What every run of the handler satisfies *)

Section HandlerProperties.
Import EscalationHandler.
Context {R : Type} `{ExecutionResult R}.
Variable cfg : config.
Variable Date_now : nat -> Z.
Variable url : string.
Variable executors : gmap string (executor R).
Variable opts : options.

Abbreviation idx := (JS.indexOf (levels cfg)).
Abbreviation run_of := (run cfg Date_now url executors opts).

Lemma truthy_level_Some o l : truthy_level o = Some l -> o = Some l /\ JS.truthy l = true.
Proof.
  destruct o as [l'|]; simpl; [|discriminate].
  destruct (JS.truthy l') eqn:Ht; [|discriminate].
  intros [= ->]. auto.
Qed.

(** On an array without repetition [getNextLevel] moves one position up. *)
Lemma getNextLevel_index cur next :
  NoDup (levels cfg) -> getNextLevel cfg cur = Some next -> idx next = idx cur + 1.
Proof.
  unfold getNextLevel. intros Hnd.
  pose proof (indexOf_bounds (levels cfg) cur) as Hb.
  destruct (Z.ltb_spec (idx cur) (Z.of_nat (length (levels cfg)) - 1)); [|discriminate].
  intros Hn. rewrite (indexOf_lookup _ _ _ Hnd Hn). lia.
Qed.

Lemma ascending_nil lo : ascending cfg lo [].
Proof. split; constructor. Qed.

Lemma ascending_cons x next l :
  idx next = idx x + 1 -> ascending cfg (idx next) l -> ascending cfg (idx x) (x :: l).
Proof.
  intros Hn [Hs Hf]. split; simpl.
  - constructor; [exact Hs|].
    apply Forall_map. eapply Forall_impl; [exact Hf|]. simpl. intros; lia.
  - constructor; [lia|]. eapply Forall_impl; [exact Hf|]. simpl. intros; lia.
Qed.

Lemma ascending_weaken x next l :
  idx next = idx x + 1 -> ascending cfg (idx next) l -> ascending cfg (idx x) l.
Proof.
  intros Hn [Hs Hf]. split; [exact Hs|].
  eapply Forall_impl; [exact Hf|]. simpl. intros; lia.
Qed.

(** The tiers attempted in a run, and the source tiers it records, go
    strictly upwards in the configured order. *)
Lemma run_ascending cur count es hs c :
  NoDup (levels cfg) ->
  run_of cur count es hs c ->
  ascending cfg (idx cur) (attempts es) /\ ascending cfg (idx cur) (map fromLevel hs).
Proof.
  intros Hnd Hrun.
  induction Hrun as
    [cur count _|cur count _ _|cur count e r _ _ _ _
    |cur count e r next es hs c _ _ _ _ _ Hnext _ IH
    |cur count e msg next es hs c _ _ _ Hnext _ _ IH
    |cur count e msg _ _ _ _];
    cbn [attempts omap invoked_level map fromLevel list_omap].
  - split; apply ascending_nil.
  - split; apply ascending_nil.
  - split; [|apply ascending_nil].
    split; simpl; repeat constructor. lia.
  - apply truthy_level_Some in Hnext as [Hnext _].
    apply (getNextLevel_index _ _ Hnd) in Hnext.
    destruct IH as [IHa IHh].
    split; eapply ascending_cons; eauto.
  - apply truthy_level_Some in Hnext as [Hnext _].
    apply (getNextLevel_index _ _ Hnd) in Hnext.
    destruct IH as [IHa IHh].
    split; [eapply ascending_cons|eapply ascending_weaken]; eauto.
  - split; [|apply ascending_nil].
    split; simpl; repeat constructor. lia.
Qed.

Lemma StronglySorted_lt_le (l : list Z) :
  StronglySorted Z.lt l -> StronglySorted Z.le l.
Proof.
  induction 1 as [|x l _ IH Hall]; constructor; [exact IH|].
  eapply Forall_impl; [exact Hall|]. simpl. intros; lia.
Qed.

Lemma attempts_cons e es :
  attempts (e :: es)
  = match invoked_level e with
    | Some l => l :: attempts es
    | None => attempts es
    end.
Proof. reflexivity. Qed.

Lemma escalations_cons e es :
  escalations (e :: es)
  = match escalation_event e with
    | Some x => x :: escalations es
    | None => escalations es
    end.
Proof. reflexivity. Qed.

(** The history entries of a run are those of its ['escalation'] events,
    in the same order; an attempt whose result is returned adds none. *)
Lemma run_history cur count es hs c :
  run_of cur count es hs c ->
  map entry_key hs = map event_key (escalations es)
  /\ (length hs <= length (attempts es))%nat
  /\ (forall v, c = Resolved v -> (length hs < length (attempts es))%nat).
Proof.
  induction 1 as
    [cur count _|cur count _ _|cur count e r _ _ _ _
    |cur count e r next es hs c _ _ _ _ _ _ _ IH
    |cur count e msg next es hs c _ _ _ _ _ _ IH
    |cur count e msg _ _ _ _];
    rewrite ?attempts_cons, ?escalations_cons; simpl.
  - split; [reflexivity|split; [lia|discriminate]].
  - split; [reflexivity|split; [lia|discriminate]].
  - split; [reflexivity|split; [lia|intros; lia]].
  - destruct IH as (IHk & IHl & IHv).
    split; [|split].
    + unfold entry_key at 1. simpl. f_equal. exact IHk.
    + simpl. lia.
    + intros v Hv. specialize (IHv v Hv). simpl. lia.
  - destruct IH as (IHk & IHl & IHv).
    split; [exact IHk|split].
    + simpl. lia.
    + intros v Hv. specialize (IHv v Hv). simpl. lia.
  - split; [reflexivity|split; [lia|discriminate]].
Qed.

End HandlerProperties.

(** ** Runs in which every executor asks for escalation *)

Section HandlerClaims.
Import EscalationHandler.
Context {R : Type} `{ExecutionResult R}.
Variable cfg : config.
Variable Date_now : nat -> Z.
Variable url : string.
Variable executors : gmap string (executor R).
Variable opts : options.

Abbreviation run_of := (run cfg Date_now url executors opts).

Lemma getNextLevel_middle pre cur next post :
  levels cfg = pre ++ cur :: next :: post ->
  NoDup (levels cfg) ->
  getNextLevel cfg cur = Some next.
Proof.
  intros Hl Hnd. unfold getNextLevel.
  assert (Hcur : levels cfg !! length pre = Some cur).
  { rewrite Hl. by apply list_lookup_middle. }
  rewrite (indexOf_lookup _ _ _ Hnd Hcur).
  assert (Hlen : length (levels cfg) = (length pre + S (S (length post)))%nat).
  { rewrite Hl, length_app. reflexivity. }
  destruct (Z.ltb_spec (Z.of_nat (length pre)) (Z.of_nat (length (levels cfg)) - 1));
    [|lia].
  replace (Z.to_nat (Z.of_nat (length pre) + 1)) with (length (pre ++ [cur])).
  - rewrite Hl. replace (pre ++ cur :: next :: post) with ((pre ++ [cur]) ++ next :: post).
    + by apply list_lookup_middle.
    + rewrite <- app_assoc. reflexivity.
  - rewrite length_app. simpl. lia.
Qed.

Lemma getNextLevel_top pre cur :
  levels cfg = pre ++ [cur] ->
  NoDup (levels cfg) ->
  getNextLevel cfg cur = None.
Proof.
  intros Hl Hnd. unfold getNextLevel.
  assert (Hcur : levels cfg !! length pre = Some cur).
  { rewrite Hl. by apply list_lookup_middle. }
  rewrite (indexOf_lookup _ _ _ Hnd Hcur).
  assert (Hlen : length (levels cfg) = (length pre + 1)%nat).
  { rewrite Hl, length_app. reflexivity. }
  destruct (Z.ltb_spec (Z.of_nat (length pre)) (Z.of_nat (length (levels cfg)) - 1));
    [lia|reflexivity].
Qed.

Lemma last_cons (next : string) post cur :
  List.last (next :: post) cur = List.last post next.
Proof.
  revert next cur. induction post as [|s post IH]; intros next cur; [reflexivity|].
  change (List.last (next :: s :: post) cur) with (List.last (s :: post) cur).
  rewrite (IH s cur), (IH s next). reflexivity.
Qed.

(** From any position of the level array the run climbs through all the
    levels that are left and returns the result of the last one. *)
Lemma run_always_escalating post : forall pre cur es hs c,
  levels cfg = pre ++ cur :: post ->
  NoDup (levels cfg) ->
  Forall (fun l => JS.truthy l = true) (levels cfg) ->
  autoEscalate cfg = true ->
  always_escalating cfg url executors opts ->
  run_of cur (length pre) es hs c ->
  attempts es = cur :: post
  /\ exists e r,
       executors !! List.last post cur = Some e
       /\ executeAtLevel url opts e (length pre + length post) = Returns r
       /\ c = Resolved {| result := r;
                          executionLevel := List.last post cur;
                          escalationCount := length pre + length post |}.
Proof.
  induction post as [|next post IH]; intros pre cur es hs c Hl Hnd Htruthy Hauto Hall Hrun.
  - (* the top level *)
    assert (Hin : cur ∈ levels cfg).
    { rewrite Hl. apply elem_of_app. right. constructor. }
    destruct (Hall cur Hin) as (e0 & He0 & Hcalls).
    destruct (Hcalls (length pre)) as (r0 & Hr0 & Hneed0).
    assert (Hlen : length (levels cfg) = (length pre + 1)%nat).
    { rewrite Hl, length_app. reflexivity. }
    pose proof (getNextLevel_top _ _ Hl Hnd) as Hnext.
    inversion Hrun; subst; try lia; try congruence.
    + split; [reflexivity|]. simpl.
      exists e0, r0. rewrite Nat.add_0_r.
      repeat split; auto; congruence.
    + match goal with
      | Hx : truthy_level _ = Some _ |- _ => rewrite Hnext in Hx; discriminate
      end.
  - assert (Hin : cur ∈ levels cfg).
    { rewrite Hl. apply elem_of_app. right. constructor. }
    destruct (Hall cur Hin) as (e0 & He0 & Hcalls).
    destruct (Hcalls (length pre)) as (r0 & Hr0 & Hneed0).
    assert (Hlen : length (levels cfg) = (length pre + S (S (length post)))%nat).
    { rewrite Hl, length_app. reflexivity. }
    pose proof (getNextLevel_middle _ _ _ _ Hl Hnd) as Hnext.
    assert (Hnt : JS.truthy next = true).
    { rewrite Forall_forall in Htruthy. apply Htruthy. rewrite Hl.
      apply elem_of_app. right. do 2 constructor. }
    assert (Htl : truthy_level (getNextLevel cfg cur) = Some next).
    { rewrite Hnext. simpl. rewrite Hnt. reflexivity. }
    inversion Hrun; subst; try lia; try congruence.
    + match goal with
      | Hx : _ \/ _ |- _ => destruct Hx as [Hesc|Hnone]
      end.
      * assert (r = r0) as -> by congruence.
        rewrite Hneed0, Hauto in Hesc. discriminate.
      * congruence.
    + assert (next0 = next) as -> by congruence.
      assert (Hl' : levels cfg = (pre ++ [cur]) ++ next :: post).
      { rewrite Hl, <- app_assoc. reflexivity. }
      match goal with
      | Hx : run_of _ (S (length pre)) _ _ _ |- _ =>
          replace (S (length pre)) with (length (pre ++ [cur])) in Hx
            by (rewrite length_app; simpl; lia);
          destruct (IH _ _ _ _ _ Hl' Hnd Htruthy Hauto Hall Hx)
            as (Hatt & e' & r' & He & Hr & Hc)
      end.
      split.
      * rewrite !attempts_cons. simpl. by rewrite Hatt.
      * exists e', r'. rewrite last_cons.
        rewrite length_app in Hr, Hc. simpl in Hr, Hc. simpl.
        replace (length pre + S (length post))%nat
          with (length pre + 1 + length post)%nat by lia.
        auto.
Qed.

End HandlerClaims.

(** ** The retry loop of the HTTP executor *)

Section FetchFacts.
Import HttpExecutor.
Variable cfg : config.
Variable request : nat -> wire.
Variable startTime : Z.
Variable Date_now : nat -> Z.
Variable target : string.
Variable opts : options.

Abbreviation attempts_of :=
  (attempts_from cfg request startTime Date_now target opts).

Lemma waited_nil st : waited [] st = st.
Proof. destruct st. unfold waited. simpl. by rewrite app_nil_r. Qed.

Lemma waited_delay ms ds st :
  waited ds (delay ms st) = waited (ms :: ds) st.
Proof. unfold waited, delay. simpl. by rewrite <- app_assoc. Qed.

(** One iteration of the loop. *)
Lemma attempts_from_S left attempt lastError retryCount st :
  attempts_of (S left) attempt lastError retryCount st
  = match axios (request attempt) with
    | Returns resp =>
        let '(st', r) :=
          executeRequest cfg startTime Date_now target opts attempt resp
            retryCount st in
        (st', Returns r)
    | Throws message =>
        if Z.of_nat attempt <? retries cfg then
          if shouldEscalate message then
            (st, Returns (buildEscalationResult target
                            (Date_now attempt - startTime) (retryCount + 1)
                            message))
          else
            attempts_of left (S attempt) (Some message) (retryCount + 1)
              (delay (retryDelay cfg * (Z.of_nat attempt + 1)) st)
        else
          attempts_of left (S attempt) (Some message) (retryCount + 1) st
    end.
Proof. reflexivity. Qed.

(** Attempts that throw errors outside the escalation policy are retried
    one by one, each after its wait, until one is answered. *)
Lemma attempts_from_answer (k : nat) : forall left attempt lastError retryCount st resp,
  (forall j, (j < k)%nat ->
     exists m, axios (request (attempt + j)) = Throws m /\ shouldEscalate m = false) ->
  axios (request (attempt + k)) = Returns resp ->
  (k < left)%nat ->
  Z.of_nat (attempt + k) <= retries cfg ->
  attempts_of left attempt lastError retryCount st
  = (let '(st', r) :=
       executeRequest cfg startTime Date_now target opts (attempt + k) resp
         (retryCount + Z.of_nat k) (waited (waits cfg attempt k) st) in
     (st', Returns r)).
Proof.
  induction k as [|k IH]; intros left attempt lastError retryCount st resp Hfail Hok Hleft Hret.
  - destruct left as [|left]; [lia|]. rewrite attempts_from_S.
    rewrite Nat.add_0_r in Hok. rewrite Hok.
    rewrite Nat.add_0_r, Z.add_0_r. unfold waits. cbn [seq map].
    rewrite waited_nil. reflexivity.
  - destruct left as [|left]; [lia|]. rewrite attempts_from_S.
    destruct (Hfail 0%nat) as (m & Hm & Hpol); [lia|].
    rewrite Nat.add_0_r in Hm. rewrite Hm, Hpol.
    destruct (Z.ltb_spec (Z.of_nat attempt) (retries cfg)); [|lia].
    rewrite (IH left (S attempt) (Some m) (retryCount + 1) _ resp).
    + replace (S attempt + k)%nat with (attempt + S k)%nat by lia.
      replace (retryCount + 1 + Z.of_nat k) with (retryCount + Z.of_nat (S k)) by lia.
      rewrite waited_delay. reflexivity.
    + intros j Hj. destruct (Hfail (S j)) as (m' & Hm' & Hpol'); [lia|].
      exists m'. replace (S attempt + j)%nat with (attempt + S j)%nat by lia. auto.
    + replace (S attempt + k)%nat with (attempt + S k)%nat by lia. exact Hok.
    + lia.
    + lia.
Qed.

(** When every attempt throws, the loop stops at the first error of the
    escalation policy that comes before the last attempt, and otherwise
    runs through all the attempts and reports the failure. *)
Lemma attempts_from_failing (msgs : nat -> string) (n : nat) :
  forall attempt lastError retryCount st,
  (forall j, Z.of_nat j <= retries cfg -> axios (request j) = Throws (msgs j)) ->
  Z.of_nat (attempt + n) = retries cfg ->
  attempts_of (S n) attempt lastError retryCount st
  = match first_blocking msgs attempt n with
    | Some k =>
        (waited (waits cfg attempt (k - attempt)) st,
         Returns (buildEscalationResult target (Date_now k - startTime)
                    (retryCount + Z.of_nat (k - attempt) + 1) (msgs k)))
    | None =>
        (waited (waits cfg attempt n) st,
         Returns (buildFailureResult target
                    (Date_now (attempt + n + 1)%nat - startTime)
                    (retryCount + Z.of_nat n + 1) (msgs (attempt + n)%nat)))
    end.
Proof.
  induction n as [|n IH]; intros attempt lastError retryCount st Hthrow Hret.
  - rewrite attempts_from_S. cbn [attempts_from first_blocking].
    rewrite Hthrow by lia.
    destruct (Z.ltb_spec (Z.of_nat attempt) (retries cfg)); [lia|].
    unfold waits. cbn [seq map]. rewrite waited_nil.
    replace (attempt + 0 + 1)%nat with (S attempt) by lia.
    rewrite Nat.add_0_r, Z.add_0_r. reflexivity.
  - rewrite attempts_from_S. cbn [first_blocking]. rewrite Hthrow by lia.
    destruct (Z.ltb_spec (Z.of_nat attempt) (retries cfg)); [|lia].
    destruct (shouldEscalate (msgs attempt)) eqn:Hpol.
    + rewrite Nat.sub_diag. unfold waits. cbn [seq map].
      rewrite waited_nil. cbn [Z.of_nat]. rewrite Z.add_0_r.
      reflexivity.
    + rewrite (IH (S attempt)); [|exact Hthrow|lia].
      destruct (first_blocking msgs (S attempt) n) as [k|] eqn:Hk.
      * assert (Hle : (S attempt <= k)%nat).
        { clear -Hk. revert Hk. generalize (S attempt) as a.
          induction n as [|n IHn]; intros a; simpl; [discriminate|].
          destruct (shouldEscalate (msgs a)); [intros [= <-]; lia|].
          intros Hk. apply IHn in Hk. lia. }
        rewrite waited_delay.
        replace (k - attempt)%nat with (S (k - S attempt)) by lia.
        unfold waits at 2. cbn [seq map]. fold (waits cfg (S attempt) (k - S attempt)).
        replace (retryCount + 1 + Z.of_nat (k - S attempt) + 1)
          with (retryCount + Z.of_nat (S (k - S attempt)) + 1) by lia.
        reflexivity.
      * rewrite waited_delay.
        unfold waits at 2. cbn [seq map]. fold (waits cfg (S attempt) n).
        replace (S attempt + n + 1)%nat with (attempt + S n + 1)%nat by lia.
        replace (S attempt + n)%nat with (attempt + S n)%nat by lia.
        replace (retryCount + 1 + Z.of_nat n + 1)
          with (retryCount + Z.of_nat (S n) + 1) by lia.
        reflexivity.
Qed.

End FetchFacts.

(** ** Claims about the HTTP executor and the escalation handler *)

Lemma constructor_autoEscalate (c : EscalationHandler.user_config) :
  EscalationHandler.user_autoEscalate c <> Some false ->
  EscalationHandler.autoEscalate (EscalationHandler.constructor c) = true.
Proof.
  destruct c as [[[]|] d]; simpl; intros Hc; congruence.
Qed.

(** An answer with a status below 500 is one axios resolves with. *)
Lemma axios_resolves (w : wire) (resp : response) :
  w = Answer resp -> status resp < 500 ->
  HttpExecutor.axios w = Returns resp.
Proof.
  intros -> Hstatus. cbn.
  by destruct (Z.ltb_spec (status resp) 500); [|lia].
Qed.

(** C1, as the code has it.  A response whose body contains
    "Please enable JavaScript" makes
    the HTTP executor return a result with [escalationNeeded = true] and a
    reason that contains "JavaScript", provided the response is one axios
    resolves with (its status is below 500), at the first attempt or
    after retried transport errors,
    and its body is the string [response.data].  With that executor under
    ["http"],
    automatic escalation enabled and a light browser whose result does not
    ask for escalation, the handler retries at ["browser-light"] and
    returns that result with [executionLevel = "browser-light"] and
    [escalationCount = 1]. *)
Theorem javascript_wall_escalates_once
    (hcfg : HttpExecutor.config) (request : nat -> wire) (startTime : Z)
    (http_clock : nat -> Z) (hst : HttpExecutor.state)
    (k : nat) (resp : response) (body : string)
    (ucfg : EscalationHandler.user_config) (Date_now : nat -> Z) (url : string)
    (executors : gmap string (EscalationHandler.executor HttpExecutor.result))
    (opts : options) (st : EscalationHandler.state)
    (light : EscalationHandler.executor HttpExecutor.result)
    (r2 : HttpExecutor.result) :
  Z.of_nat k <= HttpExecutor.retries hcfg ->
  (forall j, (j < k)%nat ->
     exists m, HttpExecutor.axios (request j) = Throws m
               /\ HttpExecutor.shouldEscalate m = false) ->
  request k = Answer resp ->
  status resp < 500 ->
  data resp = DString body ->
  JS.includes body "Please enable JavaScript" = true ->
  EscalationHandler.user_autoEscalate ucfg <> Some false ->
  JS.or_else (startLevel opts) "http" = "http" ->
  executors !! "http"
    = Some (EscalationHandler.ExecFetch
              (fun u o _ => snd (HttpExecutor.fetch hcfg request startTime
                                   http_clock u o hst))) ->
  executors !! "browser-light" = Some light ->
  EscalationHandler.executeAtLevel url opts light 1 = Returns r2 ->
  HttpExecutor.escalationNeeded r2 = false ->
  exists hst' r why es hs,
    HttpExecutor.fetch hcfg request startTime http_clock url opts hst
      = (hst', Returns r)
    /\ HttpExecutor.escalationNeeded r = true
    /\ HttpExecutor.escalationReason r = Some why
    /\ JS.includes why "JavaScript" = true
    /\ EscalationHandler.executeWithEscalation
         (EscalationHandler.constructor ucfg) Date_now url executors opts st
       = (EscalationHandler.extend st es hs,
          EscalationHandler.Resolved
            {| EscalationHandler.result := r2;
               EscalationHandler.executionLevel := "browser-light";
               EscalationHandler.escalationCount := 1 |})
    /\ EscalationHandler.attempts es = ["http"; "browser-light"].
Proof.
  intros Hk Hfail Hanswer Hstatus Hdata Hbody Hauto Hstart Hhttp Hlight
    Hcall2 Hclean.
  pose proof (axios_resolves _ _ Hanswer Hstatus) as Hok.
  apply constructor_autoEscalate in Hauto.
  assert (Hfetch :
    HttpExecutor.fetch hcfg request startTime http_clock url opts hst
    = (let '(st', r) :=
         HttpExecutor.executeRequest hcfg startTime http_clock url opts k resp
           (Z.of_nat k) (waited (waits hcfg 0 k) hst) in
       (st', Returns r))).
  { unfold HttpExecutor.fetch.
    rewrite (attempts_from_answer hcfg request startTime http_clock url opts
               k _ 0%nat None 0 hst resp); auto; lia. }
  destruct (HttpExecutor.executeRequest hcfg startTime http_clock url opts k
              resp (Z.of_nat k) (waited (waits hcfg 0 k) hst))
    as [hst' r] eqn:Hreq.
  assert (Hsignal : HttpExecutor.checkForEscalationSignals resp
                    = (true, Some "JavaScript required")).
  { unfold HttpExecutor.checkForEscalationSignals.
    rewrite Hdata, Hbody. reflexivity. }
  assert (Hneed : HttpExecutor.escalationNeeded r = true
                  /\ HttpExecutor.escalationReason r = Some "JavaScript required").
  { unfold HttpExecutor.executeRequest in Hreq.
    destruct (CostTracker.record _ _ _ _) in Hreq.
    injection Hreq as _ <-. simpl. rewrite Hsignal. auto. }
  destruct Hneed as [Hneed Hreason].
  eexists hst', r, "JavaScript required", _, _.
  split; [exact Hfetch|].
  split; [exact Hneed|].
  split; [exact Hreason|].
  split; [reflexivity|].
  unfold EscalationHandler.executeWithEscalation. rewrite Hstart.
  change (length (EscalationHandler.levels (EscalationHandler.constructor ucfg)))
    with 3%nat.
  cbn [EscalationHandler.loop]. 
  change (length (EscalationHandler.levels (EscalationHandler.constructor ucfg)))
    with 3%nat.
  cbn [Nat.ltb Nat.leb].
  rewrite Hhttp. cbn [EscalationHandler.executeAtLevel].
  rewrite Hfetch. cbn [snd].
  cbn [EscalationHandler.needs_escalation EscalationHandler.reason_of http_result].
  rewrite Hneed, Hreason, Hauto. cbn [andb].
  change (EscalationHandler.truthy_level
            (EscalationHandler.getNextLevel (EscalationHandler.constructor ucfg) "http"))
    with (Some "browser-light").
  cbv iota. rewrite Hlight, Hcall2, Hclean. cbn [andb].
  rewrite !perform_extend, !push_history_extend, !extend_extend.
  split; reflexivity.
Qed.

Lemma javascript_wall_escalates_once_witness :
  exists hst' r why es hs,
    HttpExecutor.fetch Examples.http_config Examples.wall_network 0
      Examples.clock Examples.target no_options HttpExecutor.initial
      = (hst', Returns r)
    /\ HttpExecutor.escalationNeeded r = true
    /\ HttpExecutor.escalationReason r = Some why
    /\ JS.includes why "JavaScript" = true
    /\ EscalationHandler.executeWithEscalation Examples.handler_config
         Examples.clock Examples.target Examples.wall_executors no_options
         EscalationHandler.initial
       = (EscalationHandler.extend EscalationHandler.initial es hs,
          EscalationHandler.Resolved
            {| EscalationHandler.result := Examples.rendered;
               EscalationHandler.executionLevel := "browser-light";
               EscalationHandler.escalationCount := 1 |})
    /\ EscalationHandler.attempts es = ["http"; "browser-light"].
Proof.
  apply (javascript_wall_escalates_once
           Examples.http_config Examples.wall_network 0 Examples.clock
           HttpExecutor.initial 0 Examples.js_wall
           "<html><body>Please enable JavaScript to view this page.</body></html>"
           Examples.handler_defaults Examples.clock Examples.target
           Examples.wall_executors no_options EscalationHandler.initial
           (Examples.always Examples.rendered) Examples.rendered).
  - vm_compute. discriminate.
  - intros j Hj. lia.
  - reflexivity.
  - vm_compute. reflexivity.
  - reflexivity.
  - reflexivity.
  - discriminate.
  - reflexivity.
  - reflexivity.
  - reflexivity.
  - reflexivity.
  - reflexivity.
Defined.

(** C1 as stated fails on a status and on a content type.  Served with
    status 503 the page never reaches the escalation check: axios
    rejects each of the four requests, the result is the failure result
    with [escalationNeeded = false], and the handler stays at ["http"]
    with [escalationCount = 0].  Handed over as a parsed JSON document,
    the body is not searched for the phrase: the result asks for
    escalation, but for the reason "Minimal content - likely SPA". *)
Lemma javascript_wall_is_missed :
  JS.includes WallExamples.wall_body "Please enable JavaScript" = true
  /\ (exists st' r,
        HttpExecutor.fetch Examples.http_config WallExamples.unavailable_wall
          0 Examples.clock Examples.target no_options HttpExecutor.initial
        = (st', Returns r)
        /\ HttpExecutor.retryCount r = 4
        /\ HttpExecutor.escalationNeeded r = false
        /\ HttpExecutor.escalationReason r = None
        /\ EscalationHandler.executeWithEscalation Examples.handler_config
             Examples.clock Examples.target WallExamples.unavailable_executors
             no_options EscalationHandler.initial
           = (EscalationHandler.extend EscalationHandler.initial
                [EscalationHandler.EmitExecutionStart Examples.target "http";
                 EscalationHandler.Invoke "http" 0] [],
              EscalationHandler.Resolved
                {| EscalationHandler.result := r;
                   EscalationHandler.executionLevel := "http";
                   EscalationHandler.escalationCount := 0 |}))
  /\ JS.includes WallExamples.wall_document "Please enable JavaScript" = true
  /\ (exists st' r,
        HttpExecutor.fetch Examples.http_config WallExamples.json_wall
          0 Examples.clock Examples.target no_options HttpExecutor.initial
        = (st', Returns r)
        /\ HttpExecutor.escalationReason r
           = Some "Minimal content - likely SPA"
        /\ JS.includes "Minimal content - likely SPA" "JavaScript" = false).
Proof.
  split; [reflexivity|]. split.
  { eexists _, _. split; [vm_compute; reflexivity|]. repeat split. }
  split; [reflexivity|].
  eexists _, _. split; [vm_compute; reflexivity|]. repeat split.
Qed.

(** C2. With an executor for every configured level, all of whose
    results ask for escalation, automatic escalation enabled and the run
    started at the lowest tier, the handler invokes an executor once per
    level, in the configured order, and then resolves with the result of
    the top tier: no wraparound, no further attempt, no thrown error. *)
Theorem escalation_stops_at_top_tier
    {R : Type} `{EscalationHandler.ExecutionResult R}
    (cfg : EscalationHandler.config) (Date_now : nat -> Z) (url : string)
    (executors : gmap string (EscalationHandler.executor R))
    (opts : options) (st : EscalationHandler.state)
    (lowest : string) (higher : list string) :
  EscalationHandler.levels cfg = lowest :: higher ->
  NoDup (EscalationHandler.levels cfg) ->
  Forall (fun l => JS.truthy l = true) (EscalationHandler.levels cfg) ->
  EscalationHandler.autoEscalate cfg = true ->
  JS.or_else (startLevel opts) "http" = lowest ->
  always_escalating cfg url executors opts ->
  exists es hs top r,
    EscalationHandler.executeWithEscalation cfg Date_now url executors opts st
      = (EscalationHandler.extend st es hs,
         EscalationHandler.Resolved
           {| EscalationHandler.result := r;
              EscalationHandler.executionLevel := List.last higher lowest;
              EscalationHandler.escalationCount := length higher |})
    /\ EscalationHandler.attempts es = EscalationHandler.levels cfg
    /\ length (EscalationHandler.attempts es)
       = length (EscalationHandler.levels cfg)
    /\ executors !! List.last higher lowest = Some top
    /\ EscalationHandler.executeAtLevel url opts top (length higher) = Returns r.
Proof.
  intros Hlevels Hnd Htruthy Hauto Hstart Hall.
  destruct (executeWithEscalation_run cfg Date_now url executors opts st)
    as (es & hs & c & Heq & Hrun).
  rewrite Hstart in Hrun.
  destruct (run_always_escalating cfg Date_now url executors opts higher
              [] lowest es hs c Hlevels Hnd Htruthy Hauto Hall Hrun)
    as (Hatt & top & r & Htop & Hr & ->).
  exists es, hs, top, r. simpl in *.
  repeat split; auto.
  - rewrite Hatt, Hlevels. reflexivity.
  - rewrite Hatt, Hlevels. reflexivity.
Qed.

Lemma escalation_stops_at_top_tier_witness :
  exists es hs top r,
    EscalationHandler.executeWithEscalation Examples.handler_config
      Examples.clock Examples.target Examples.hopeless_executors no_options
      EscalationHandler.initial
      = (EscalationHandler.extend EscalationHandler.initial es hs,
         EscalationHandler.Resolved
           {| EscalationHandler.result := r;
              EscalationHandler.executionLevel := "browser-advanced";
              EscalationHandler.escalationCount := 2 |})
    /\ EscalationHandler.attempts es
       = ["http"; "browser-light"; "browser-advanced"]
    /\ length (EscalationHandler.attempts es) = 3%nat
    /\ Examples.hopeless_executors !! "browser-advanced" = Some top
    /\ EscalationHandler.executeAtLevel Examples.target no_options top 2
       = Returns r.
Proof.
  apply (escalation_stops_at_top_tier Examples.handler_config Examples.clock
           Examples.target Examples.hopeless_executors no_options
           EscalationHandler.initial
           "http" ["browser-light"; "browser-advanced"]).
  - reflexivity.
  - apply (bool_decide_unpack _). vm_compute. exact I.
  - repeat constructor.
  - reflexivity.
  - reflexivity.
  - intros l Hl. exists (Examples.always Examples.blocked).
    split.
    + apply elem_of_cons in Hl as [->|Hl]; [reflexivity|].
      apply elem_of_cons in Hl as [->|Hl]; [reflexivity|].
      apply elem_of_cons in Hl as [->|Hl]; [reflexivity|].
      inversion Hl.
    + intros k. exists Examples.blocked. split; reflexivity.
Defined.

(** C3. In a single run the tiers at which execution is attempted, and
    hence the [fromLevel]s the run adds to [escalationHistory], never go
    down in the configured level order. *)
Theorem tiers_never_decrease
    {R : Type} `{EscalationHandler.ExecutionResult R}
    (cfg : EscalationHandler.config) (Date_now : nat -> Z) (url : string)
    (executors : gmap string (EscalationHandler.executor R))
    (opts : options) (st : EscalationHandler.state) :
  NoDup (EscalationHandler.levels cfg) ->
  exists es hs c,
    EscalationHandler.executeWithEscalation cfg Date_now url executors opts st
      = (EscalationHandler.extend st es hs, c)
    /\ StronglySorted Z.le
         (map (JS.indexOf (EscalationHandler.levels cfg))
              (EscalationHandler.attempts es))
    /\ StronglySorted Z.le
         (map (JS.indexOf (EscalationHandler.levels cfg))
              (map EscalationHandler.fromLevel hs)).
Proof.
  intros Hnd.
  destruct (executeWithEscalation_run cfg Date_now url executors opts st)
    as (es & hs & c & Heq & Hrun).
  destruct (run_ascending cfg Date_now url executors opts _ _ _ _ _ Hnd Hrun)
    as [[Ha _] [Hh _]].
  exists es, hs, c. split; [exact Heq|].
  split; apply StronglySorted_lt_le; assumption.
Qed.

Lemma tiers_never_decrease_witness :
  exists es hs c,
    EscalationHandler.executeWithEscalation Examples.handler_config
      Examples.clock Examples.target Examples.hopeless_executors no_options
      EscalationHandler.initial
      = (EscalationHandler.extend EscalationHandler.initial es hs, c)
    /\ StronglySorted Z.le
         (map (JS.indexOf EscalationHandler.default_levels)
              (EscalationHandler.attempts es))
    /\ StronglySorted Z.le
         (map (JS.indexOf EscalationHandler.default_levels)
              (map EscalationHandler.fromLevel hs)).
Proof.
  apply (tiers_never_decrease Examples.handler_config Examples.clock
           Examples.target Examples.hopeless_executors no_options
           EscalationHandler.initial).
  apply (bool_decide_unpack _). vm_compute. exact I.
Defined.




(** Whenever the loop reaches a level without an executor it is left at
    once and the call resolves with [undefined]. *)
Lemma loop_without_executor {R : Type} `{EscalationHandler.ExecutionResult R}
    cfg Date_now url (executors : gmap string (EscalationHandler.executor R))
    opts fuel cur count st :
  (length (EscalationHandler.levels cfg) <= count + fuel)%nat ->
  executors !! cur = None ->
  EscalationHandler.loop cfg Date_now url executors opts fuel cur count st
  = (st, EscalationHandler.ResolvedUndefined).
Proof.
  intros Hfuel Hnone.
  destruct fuel as [|fuel]; simpl;
    destruct (Nat.ltb_spec count (length (EscalationHandler.levels cfg)));
    try reflexivity; try lia.
  rewrite Hnone. reflexivity.
Qed.

(** C10, as the code has it.  When nothing is found under
    [executors[level]] for the level the run has come to, be it the
    start level or a level reached after attempts that asked for
    escalation or threw, [executeWithEscalation] resolves with
    [undefined]: no result object and no thrown error, no executor
    invoked at that level, and the events and history entries of the
    earlier attempts are all that is left.  The lookup is the one of the
    code: it finds a member the object has or inherits. *)
Theorem missing_executor_resolves_undefined
    {R : Type} `{EscalationHandler.ExecutionResult R}
    (cfg : EscalationHandler.config) (Date_now : nat -> Z) (url : string)
    (executors : gmap string (EscalationHandler.executor R))
    (opts : options) (st : EscalationHandler.state)
    (es : list EscalationHandler.effect)
    (hs : list EscalationHandler.history_entry) (level : string) (n : nat) :
  arrives cfg Date_now url executors opts
    (JS.or_else (startLevel opts) "http") 0 es hs level n ->
  executors !! level = None ->
  EscalationHandler.executeWithEscalation cfg Date_now url executors opts st
  = (EscalationHandler.extend st es hs, EscalationHandler.ResolvedUndefined).
Proof.
  intros Harrives Hnone. unfold EscalationHandler.executeWithEscalation.
  assert (Hgen : forall fuel st0,
            (length (EscalationHandler.levels cfg) <= 0 + fuel)%nat ->
            EscalationHandler.loop cfg Date_now url executors opts fuel
              (JS.or_else (startLevel opts) "http") 0 st0
            = (EscalationHandler.extend st0 es hs,
               EscalationHandler.ResolvedUndefined));
    [|apply Hgen; lia].
  induction Harrives
    as [cur count
       |cur count e r next es hs level n Hlt He Hcall Hneed Hauto Hnext _ IH
       |cur count e msg next es hs level n Hlt He Hcall Hnext Hauto _ IH];
    intros fuel st0 Hfuel.
  - rewrite extend_nil. by apply loop_without_executor.
  - destruct fuel as [|fuel]; [lia|]. cbn [EscalationHandler.loop].
    destruct (Nat.ltb_spec count (length (EscalationHandler.levels cfg)));
      [|lia].
    rewrite He, Hcall, Hneed, Hauto, Hnext. cbn [andb].
    rewrite ?perform_extend, ?push_history_extend, ?extend_extend.
    rewrite (IH Hnone) by lia. rewrite extend_extend. reflexivity.
  - destruct fuel as [|fuel]; [lia|]. cbn [EscalationHandler.loop].
    destruct (Nat.ltb_spec count (length (EscalationHandler.levels cfg)));
      [|lia].
    rewrite He, Hcall, Hnext, Hauto.
    rewrite ?perform_extend, ?push_history_extend, ?extend_extend.
    rewrite (IH Hnone) by lia. rewrite extend_extend. reflexivity.
Qed.

Lemma missing_executor_resolves_undefined_witness :
  EscalationHandler.executeWithEscalation Examples.handler_config
    Examples.clock Examples.target InheritedExamples.http_alone no_options
    EscalationHandler.initial
  = (EscalationHandler.extend EscalationHandler.initial
       [EscalationHandler.EmitExecutionStart Examples.target "http";
        EscalationHandler.Invoke "http" 0;
        EscalationHandler.EmitEscalation Examples.target "http"
          "browser-light" (Some "Web Unlocker could not handle - Access blocked");
        EscalationHandler.Delay 1000]
       [{| EscalationHandler.entry_url := Examples.target;
           EscalationHandler.fromLevel := "http";
           EscalationHandler.reason :=
             Some "Web Unlocker could not handle - Access blocked";
           EscalationHandler.timestamp := 0 |}],
     EscalationHandler.ResolvedUndefined).
Proof.
  apply (missing_executor_resolves_undefined Examples.handler_config
           Examples.clock Examples.target InheritedExamples.http_alone
           no_options EscalationHandler.initial _ _ "browser-light" 1).
  - refine (arrives_escalated Examples.handler_config Examples.clock
              Examples.target InheritedExamples.http_alone no_options "http" 0
              (Examples.always Examples.blocked) Examples.blocked
              "browser-light" [] [] "browser-light" 1 _ _ _ _ _ _ _).
    + vm_compute. lia.
    + reflexivity.
    + reflexivity.
    + reflexivity.
    + reflexivity.
    + reflexivity.
    + apply arrives_at.
  - reflexivity.
Defined.

(** C10 as stated fails for a level whose name is inherited.  The object
    literal [{}] has no executor of its own for "toString", yet
    [executors['toString']] finds [Object.prototype.toString]: started
    at that level the handler calls it and resolves with an object built
    from the string it returns, not with [undefined]. *)
Lemma inherited_member_is_called :
  (∅ : gmap string (EscalationHandler.executor InheritedExamples.handed_back))
    !! "toString" = None
  /\ EscalationHandler.executeWithEscalation Examples.handler_config
       Examples.clock Examples.target (InheritedExamples.seen ∅)
       InheritedExamples.from_toString EscalationHandler.initial
     = (EscalationHandler.extend EscalationHandler.initial
          [EscalationHandler.EmitExecutionStart Examples.target "toString";
           EscalationHandler.Invoke "toString" 0] [],
        EscalationHandler.Resolved
          {| EscalationHandler.result :=
               InheritedExamples.Text "[object Undefined]";
             EscalationHandler.executionLevel := "toString";
             EscalationHandler.escalationCount := 0 |}).
Proof. split; reflexivity. Qed.




(** ** Claims about the environment analyzer *)

Ltac q_decide :=
  vm_compute in *;
  solve [ reflexivity | discriminate | congruence
        | exfalso; auto | intros; discriminate ].

(** The double-precision analyzer and the rational one take the same
    decisions: same flags, complexity, recommendation, error and
    details, the same answer to [confidence > 0.7], and confidences that
    differ by at most [2^-52]. *)
Lemma binary64_decides_alike (target : string) (fetched : wire) :
  Binary64.requiresJavaScript
    (Binary64.analysis_signals (Binary64.analyze target fetched))
  = EnvironmentAnalyzer.requiresJavaScript
      (EnvironmentAnalyzer.analysis_signals
         (EnvironmentAnalyzer.analyze target fetched))
  /\ Binary64.hasAntiBot
       (Binary64.analysis_signals (Binary64.analyze target fetched))
     = EnvironmentAnalyzer.hasAntiBot
         (EnvironmentAnalyzer.analysis_signals
            (EnvironmentAnalyzer.analyze target fetched))
  /\ Binary64.hasDynamicContent
       (Binary64.analysis_signals (Binary64.analyze target fetched))
     = EnvironmentAnalyzer.hasDynamicContent
         (EnvironmentAnalyzer.analysis_signals
            (EnvironmentAnalyzer.analyze target fetched))
  /\ Binary64.analysis_complexity (Binary64.analyze target fetched)
     = EnvironmentAnalyzer.analysis_complexity
         (EnvironmentAnalyzer.analyze target fetched)
  /\ Binary64.recommendedExecution (Binary64.analyze target fetched)
     = EnvironmentAnalyzer.recommendedExecution
         (EnvironmentAnalyzer.analyze target fetched)
  /\ Binary64.error (Binary64.analyze target fetched)
     = EnvironmentAnalyzer.error (EnvironmentAnalyzer.analyze target fetched)
  /\ Binary64.details (Binary64.analyze target fetched)
     = EnvironmentAnalyzer.details (EnvironmentAnalyzer.analyze target fetched)
  /\ Binary64.too_complex (Binary64.analyze target fetched)
     = HttpExecutor.too_complex (EnvironmentAnalyzer.analyze target fetched)
  /\ exists q,
       Binary64.value
         (Binary64.analysis_confidence (Binary64.analyze target fetched))
       = Some q
       /\ (Qabs (q - EnvironmentAnalyzer.analysis_confidence
                       (EnvironmentAnalyzer.analyze target fetched))
           <= 1 # 4503599627370496)%Q.
Proof.
  destruct fetched as [resp|message];
    [|repeat (split; [reflexivity|]); eexists; split;
      [vm_compute; reflexivity|by vm_compute]].
  unfold Binary64.analyze, EnvironmentAnalyzer.analyze,
    Binary64.analyzeHeaders, EnvironmentAnalyzer.analyzeHeaders.
  destruct (EnvironmentAnalyzer.cloudflare_headers (headers resp)),
    (EnvironmentAnalyzer.protection_headers (headers resp)),
    (data resp) as [html|json len];
    try unfold Binary64.analyzeContent, EnvironmentAnalyzer.analyzeContent;
    try destruct
      (EnvironmentAnalyzer.matches (JS.toLowerCase html)
         EnvironmentAnalyzer.jsFrameworkPatterns),
      (EnvironmentAnalyzer.matches (JS.toLowerCase html)
         EnvironmentAnalyzer.antiBotPatterns),
      (EnvironmentAnalyzer.matches (JS.toLowerCase html)
         EnvironmentAnalyzer.dynamicContentPatterns),
      (EnvironmentAnalyzer.minimal_content html);
    repeat (split; [reflexivity|]); eexists;
    (split; [vm_compute; reflexivity|by vm_compute]).
Qed.




(** ** Claims about drift detection *)

Section StringFacts.

Lemma append_length (s t : string) :
  String.length (s +:+ t) = (String.length s + String.length t)%nat.
Proof. induction s as [|c s IH]; simpl; [reflexivity|]. by rewrite IH. Qed.

Lemma append_inv_tail (s1 s2 t : string) : s1 +:+ t = s2 +:+ t -> s1 = s2.
Proof.
  revert s2. induction s1 as [|a s1 IH]; intros [|c s2] Heq; simpl in Heq.
  - reflexivity.
  - apply (f_equal String.length) in Heq.
    rewrite !append_length in Heq. simpl in Heq. lia.
  - apply (f_equal String.length) in Heq.
    rewrite !append_length in Heq. simpl in Heq. lia.
  - injection Heq as -> Heq. f_equal. by apply IH.
Qed.

End StringFacts.

Section MonitorClaims.
Import EnvironmentMonitor.

Lemma missing_description_inj s1 s2 :
  missing_description s1 = missing_description s2 -> s1 = s2.
Proof.
  unfold missing_description. simpl. intros Heq.
  injection Heq as Heq. by apply append_inv_tail in Heq.
Qed.

Lemma structural_change_spec now target baseline s n :
  structural_change now target baseline (s, n)
  = if (Nat.eqb n 0 && Nat.ltb 0 (stored_count baseline s))%bool
    then Some {| change_url := target; change_timestamp := now;
                 changeType := Structure; change_severity := Warning;
                 description := missing_description s;
                 before := Z.of_nat (stored_count baseline s);
                 after := Z.of_nat n |}
    else None.
Proof. reflexivity. Qed.

Lemma structural_record_for_other now target baseline selector s n c :
  s <> selector ->
  structural_change now target baseline (s, n) = Some c ->
  structural_record_for selector c = false.
Proof.
  rewrite structural_change_spec. intros Hne.
  destruct (_ && _)%bool; [|discriminate]. intros [= <-].
  unfold structural_record_for.
  cbn [description is_structure changeType change_severity is_warning andb].
  destruct (String.eqb_spec (missing_description s) (missing_description selector))
    as [Heq|_]; [|reflexivity].
  apply missing_description_inj in Heq. contradiction.
Qed.

(** No entry of the current check for the selector: no record for it. *)
Lemma no_entry_no_record now target baseline selector (l : list (string * nat)) :
  selector ∉ l.*1 ->
  List.filter (structural_record_for selector)
    (omap (structural_change now target baseline) l) = [].
Proof.
  induction l as [|[s n] l IH]; intros Hnot; [reflexivity|].
  simpl in Hnot. apply not_elem_of_cons in Hnot as [Hne Hnot].
  cbn [omap list_omap].
  destruct (structural_change now target baseline (s, n)) as [c|] eqn:Hc.
  - cbn [List.filter].
    rewrite (structural_record_for_other _ _ _ _ _ _ _ (not_eq_sym Hne) Hc).
    by apply IH.
  - by apply IH.
Qed.

(** One entry for the selector: one record when the selector is lost,
    none otherwise. *)
Lemma one_entry_one_record now target baseline selector n (l : list (string * nat)) :
  NoDup l.*1 ->
  (selector, n) ∈ l ->
  length (List.filter (structural_record_for selector)
            (omap (structural_change now target baseline) l))
  = if (Nat.eqb n 0 && Nat.ltb 0 (stored_count baseline selector))%bool
    then 1%nat else 0%nat.
Proof.
  induction l as [|[s m] l IH]; intros Hnd Hin; [inversion Hin|].
  simpl in Hnd. apply NoDup_cons in Hnd as [Hfresh Hnd].
  apply elem_of_cons in Hin as [[= <- <-]|Hin].
  - cbn [omap list_omap]. rewrite structural_change_spec.
    destruct (_ && _)%bool.
    + cbn [List.filter]. unfold structural_record_for at 1.
      cbn [description is_structure changeType change_severity is_warning andb].
      rewrite String.eqb_refl. cbn [length].
      by rewrite (no_entry_no_record _ _ _ _ _ Hfresh).
    + by rewrite (no_entry_no_record _ _ _ _ _ Hfresh).
  - assert (Hne : s <> selector).
    { intros ->. apply Hfresh. apply list_elem_of_fmap.
      exists (selector, n). auto. }
    cbn [omap list_omap].
    destruct (structural_change now target baseline (s, m)) as [c|] eqn:Hc.
    + cbn [List.filter].
      rewrite (structural_record_for_other _ _ _ _ _ _ _ Hne Hc).
      by apply IH.
    + by apply IH.
Qed.

Lemma performance_change_not_structural now target baseline current selector :
  List.filter (structural_record_for selector)
    (performance_change now target baseline current) = [].
Proof.
  unfold performance_change. destruct (_ <? _); reflexivity.
Qed.

Lemma structural_changes_not_performance now target baseline (l : list (string * nat)) :
  List.filter is_performance (omap (structural_change now target baseline) l) = [].
Proof.
  induction l as [|[s n] l IH]; [reflexivity|].
  cbn [omap list_omap]. rewrite structural_change_spec.
  destruct (_ && _)%bool; [cbn [List.filter]; simpl|]; exact IH.
Qed.

End MonitorClaims.

(** Every structural record is the record of a lost selector. *)
Lemma structural_records_are_losses now target current baseline c :
  c ∈ omap (EnvironmentMonitor.structural_change now target baseline)
        (map_to_list (EnvironmentMonitor.selectorMatches current)) ->
  exists s, structural_record_for s c = true
            /\ EnvironmentMonitor.selectorMatches current !! s = Some 0%nat
            /\ (0 < stored_count baseline s)%nat.
Proof.
  intros Hc. apply list_elem_of_omap in Hc as ([s n] & Hin & Hsome).
  apply elem_of_map_to_list in Hin.
  rewrite structural_change_spec in Hsome.
  destruct (Nat.eqb_spec n 0) as [->|]; [|discriminate].
  destruct (Nat.ltb_spec 0 (stored_count baseline s)); [|discriminate].
  simpl in Hsome. injection Hsome as <-.
  exists s. split; [|auto].
  unfold structural_record_for. simpl. apply String.eqb_refl.
Qed.

(** C6. For a target with a stored baseline, [detectChanges] emits
    exactly one ['structure'] record of severity ['warning'] for a
    selector whose count was positive in the baseline and is zero in the
    current check, and none for any other selector, in particular none
    when the count is positive in both; and every ['structure'] record it
    emits is the record of such a selector. *)
Theorem structural_record_per_lost_selector
    (now : Z) (target : string) (current baseline : EnvironmentMonitor.check)
    (baselines : gmap string EnvironmentMonitor.check) (selector : string) :
  baselines !! target = Some baseline ->
  length (List.filter (structural_record_for selector)
            (snd (EnvironmentMonitor.detectChanges now target current baselines)))
  = match EnvironmentMonitor.selectorMatches current !! selector with
    | Some O => if Nat.ltb 0 (stored_count baseline selector) then 1%nat else 0%nat
    | Some (S _) => 0%nat
    | None => 0%nat
    end
  /\ Forall (fun c =>
       EnvironmentMonitor.is_structure c = true ->
       exists s, structural_record_for s c = true
                 /\ EnvironmentMonitor.selectorMatches current !! s = Some 0%nat
                 /\ (0 < stored_count baseline s)%nat)
       (snd (EnvironmentMonitor.detectChanges now target current baselines)).
Proof.
  intros Hbase. unfold EnvironmentMonitor.detectChanges. rewrite Hbase.
  cbn [snd]. split.
  - rewrite List.filter_app, performance_change_not_structural, app_nil_r.
    destruct (EnvironmentMonitor.selectorMatches current !! selector)
      as [n|] eqn:Hsel.
    + rewrite (one_entry_one_record now target baseline selector n).
      * destruct n; reflexivity.
      * apply NoDup_fst_map_to_list.
      * by apply elem_of_map_to_list.
    + rewrite no_entry_no_record; [reflexivity|].
      intros Hin. apply list_elem_of_fmap in Hin as ([s n] & -> & Hin).
      apply elem_of_map_to_list in Hin. simpl in Hsel. congruence.
  - apply Forall_app. split.
    + apply Forall_forall. intros c Hc _.
      by eapply structural_records_are_losses.
    + unfold EnvironmentMonitor.performance_change.
      destruct (_ <? _); repeat constructor. discriminate.
Qed.

Lemma structural_record_per_lost_selector_witness :
  length (List.filter (structural_record_for ".price-box")
            (snd (EnvironmentMonitor.detectChanges 0 Examples.target
                    MonitorExamples.drifted MonitorExamples.baselines)))
  = 1%nat
  /\ Forall (fun c =>
       EnvironmentMonitor.is_structure c = true ->
       exists s, structural_record_for s c = true
                 /\ EnvironmentMonitor.selectorMatches MonitorExamples.drifted !! s
                    = Some 0%nat
                 /\ (0 < stored_count MonitorExamples.baseline s)%nat)
       (snd (EnvironmentMonitor.detectChanges 0 Examples.target
               MonitorExamples.drifted MonitorExamples.baselines)).
Proof.
  apply (structural_record_per_lost_selector 0 Examples.target
           MonitorExamples.drifted MonitorExamples.baseline
           MonitorExamples.baselines ".price-box").
  reflexivity.
Defined.

(** C7, as the code has it.  For a target with a stored baseline,
    [detectChanges] emits one ['performance'] record exactly when the
    current response time is greater than twice the baseline's: 250 ms
    against 100 ms is reported, 200 ms against 100 ms is not. *)
Theorem performance_record_when_more_than_double
    (now : Z) (target : string) (current baseline : EnvironmentMonitor.check)
    (baselines : gmap string EnvironmentMonitor.check) :
  baselines !! target = Some baseline ->
  List.filter EnvironmentMonitor.is_performance
    (snd (EnvironmentMonitor.detectChanges now target current baselines))
  = if 2 * EnvironmentMonitor.responseTime baseline
         <? EnvironmentMonitor.responseTime current
    then [{| EnvironmentMonitor.change_url := target;
             EnvironmentMonitor.change_timestamp := now;
             EnvironmentMonitor.changeType := EnvironmentMonitor.Performance;
             EnvironmentMonitor.change_severity := Warning;
             EnvironmentMonitor.description := "Response time doubled";
             EnvironmentMonitor.before := EnvironmentMonitor.responseTime baseline;
             EnvironmentMonitor.after := EnvironmentMonitor.responseTime current |}]
    else [].
Proof.
  intros Hbase. unfold EnvironmentMonitor.detectChanges. rewrite Hbase.
  cbn [snd]. rewrite List.filter_app, structural_changes_not_performance.
  unfold EnvironmentMonitor.performance_change.
  rewrite (Z.mul_comm 2). destruct (_ <? _); reflexivity.
Qed.

Lemma performance_record_when_more_than_double_witness :
  List.filter EnvironmentMonitor.is_performance
    (snd (EnvironmentMonitor.detectChanges 7 Examples.target
            MonitorExamples.drifted MonitorExamples.baselines))
  = [{| EnvironmentMonitor.change_url := Examples.target;
        EnvironmentMonitor.change_timestamp := 7;
        EnvironmentMonitor.changeType := EnvironmentMonitor.Performance;
        EnvironmentMonitor.change_severity := Warning;
        EnvironmentMonitor.description := "Response time doubled";
        EnvironmentMonitor.before := 100;
        EnvironmentMonitor.after := 250 |}].
Proof.
  apply (performance_record_when_more_than_double 7 Examples.target
           MonitorExamples.drifted MonitorExamples.baseline
           MonitorExamples.baselines).
  reflexivity.
Defined.

(** C7 as stated fails: 250 ms against a baseline of 100 ms yields a
    performance record. *)
Lemma response_250_against_100_is_reported :
  EnvironmentMonitor.responseTime MonitorExamples.drifted = 250
  /\ EnvironmentMonitor.responseTime MonitorExamples.baseline = 100
  /\ MonitorExamples.baselines !! Examples.target = Some MonitorExamples.baseline
  /\ length (List.filter EnvironmentMonitor.is_performance
               (snd (EnvironmentMonitor.detectChanges 7 Examples.target
                       MonitorExamples.drifted MonitorExamples.baselines)))
     = 1%nat.
Proof. repeat split. Qed.

(** ** Claims about alert throttling *)

Section AlertingFacts.
Import AlertingSystem.
Variable cfg : config.

Lemma fold_deliver alert_id chans : forall results es,
  exists results',
    fold_left (fun acc channel => deliver_on cfg alert_id channel acc)
      chans (results, es)
    = (results', es ++ channel_effects cfg alert_id chans).
Proof.
  induction chans as [|ch chans IH]; intros results es; simpl.
  - exists results. by rewrite app_nil_r.
  - unfold channel_effects. cbn [omap list_omap].
    destruct (sender cfg ch) as [announced|]; simpl.
    + destruct (IH (<[ch:=true]> results) (es ++ [Deliver ch alert_id announced]))
        as [results' Hfold].
      exists results'. rewrite Hfold, <- app_assoc. reflexivity.
    + apply IH.
Qed.



Lemma sender_known (ch : string) :
  is_Some (sender cfg ch) <-> ch ∈ known_channels.
Proof.
  unfold sender, known_channels.
  destruct (String.eqb_spec ch "console") as [->|H1];
    [split; [intros _; by left|eauto]|].
  destruct (String.eqb_spec ch "slack") as [->|H2];
    [split; [intros _; right; by left|eauto]|].
  destruct (String.eqb_spec ch "email") as [->|H3];
    [split; [intros _; do 2 right; by left|eauto]|].
  destruct (String.eqb_spec ch "webhook") as [->|H4];
    [split; [intros _; do 3 right; by left|eauto]|].
  split; [intros [? [=]]|].
  intros Hin. repeat (apply elem_of_cons in Hin as [?|Hin]; [congruence|]).
  inversion Hin.
Qed.

(** What the loop of [deliverAlert] records for a channel name. *)
Lemma fold_deliver_results alert_id chans : forall results es ch,
  fst (fold_left (fun acc channel => deliver_on cfg alert_id channel acc)
         chans (results, es)) !! ch
  = if bool_decide (ch ∈ chans /\ ch ∈ known_channels)
    then Some true else results !! ch.
Proof.
  induction chans as [|c chans IH]; intros results es ch.
  - cbn. case_bool_decide as Hx; [destruct Hx as [Hx _]; inversion Hx|].
    reflexivity.
  - cbn [fold_left]. unfold deliver_on at 2.
    pose proof (sender_known c) as Hknown.
    destruct (sender cfg c) as [announced|].
    + rewrite IH. assert (Hc : c ∈ known_channels) by (apply Hknown; eauto).
      repeat case_bool_decide; try reflexivity.
      * exfalso. match goal with Hx : ~ _ |- _ => apply Hx end.
        match goal with Hx : _ /\ _ |- _ => destruct Hx as [Hx1 Hx2] end.
        split; [by right|exact Hx2].
      * destruct (decide (ch = c)) as [->|Hne];
          [by rewrite lookup_insert_eq|].
        exfalso. match goal with Hx : ~ (ch ∈ chans /\ _) |- _ => apply Hx end.
        match goal with Hx : _ /\ _ |- _ => destruct Hx as [Hx1 Hx2] end.
        apply elem_of_cons in Hx1 as [?|?]; [congruence|auto].
      * destruct (decide (ch = c)) as [->|Hne].
        -- exfalso. match goal with Hx : ~ (c ∈ c :: chans /\ _) |- _ =>
                      apply Hx end. split; [by left|exact Hc].
        -- by rewrite lookup_insert_ne.
    + rewrite IH.
      assert (Hc : c ∉ known_channels).
      { intros Hx. apply Hknown in Hx as [? [=]]. }
      repeat case_bool_decide; try reflexivity; exfalso.
      * match goal with Hx : ~ _ |- _ => apply Hx end.
        match goal with Hx : _ /\ _ |- _ => destruct Hx as [Hx1 Hx2] end.
        split; [by right|exact Hx2].
      * match goal with Hx : ~ (ch ∈ chans /\ _) |- _ => apply Hx end.
        match goal with Hx : _ /\ _ |- _ => destruct Hx as [Hx1 Hx2] end.
        apply elem_of_cons in Hx1 as [->|?]; [contradiction|auto].
Qed.

Lemma some_delivered (results : gmap string bool) :
  existsb (fun kv => snd kv) (map_to_list results) = true
  <-> exists ch, results !! ch = Some true.
Proof.
  rewrite existsb_exists. split.
  - intros ([ch v] & Hin & Hv). cbn in Hv. subst v. exists ch.
    by apply elem_of_map_to_list, list_elem_of_In.
  - intros [ch Hch]. exists (ch, true). split; [|reflexivity].
    by apply list_elem_of_In, elem_of_map_to_list.
Qed.

Lemma deliverAlert_eq alert_id chans es :
  deliverAlert cfg alert_id chans es
  = (fst (fold_left (fun acc channel => deliver_on cfg alert_id channel acc)
            chans (∅, es)),
     existsb (fun kv => snd kv)
       (map_to_list
          (fst (fold_left (fun acc channel => deliver_on cfg alert_id channel acc)
                  chans (∅, es)))),
     es ++ channel_effects cfg alert_id chans).
Proof.
  unfold deliverAlert.
  destruct (fold_deliver alert_id chans ∅ es) as [results Hfold].
  rewrite Hfold. reflexivity.
Qed.


Lemma awaited_suspended {A : Type} (f : state -> state * Stepwise.call A)
    (st : state) :
  Stepwise.awaited (st, Stepwise.Suspended f) = Stepwise.awaited (f st).
Proof. unfold Stepwise.awaited. cbn. by destruct (f st). Qed.

(** An awaited [deliverAlert] does what the loop over the channels does
    in one piece, and goes on with the alert it has filled in. *)
Lemma awaited_deliverAlert {B : Type}
    (next : alert -> state -> state * Stepwise.call B) (chans : list string) :
  forall (a : alert) (st : state),
    Stepwise.awaited (Stepwise.deliverAlert cfg a chans next st)
    = Stepwise.awaited
        (next
           {| id := id a; alert_rule := alert_rule a;
              alert_severity := alert_severity a;
              alert_timestamp := alert_timestamp a;
              alert_message := alert_message a;
              alert_channels := alert_channels a;
              alert_event := alert_event a;
              delivered :=
                existsb (fun kv => snd kv)
                  (map_to_list
                     (fst (fold_left
                             (fun acc channel => deliver_on cfg (id a) channel acc)
                             chans (deliveryResults a, effects st))));
              deliveryResults :=
                fst (fold_left
                       (fun acc channel => deliver_on cfg (id a) channel acc)
                       chans (deliveryResults a, effects st)) |}
        {| alertHistory := alertHistory st; lastAlerts := lastAlerts st;
           alertCounter := alertCounter st;
           effects := effects st ++ channel_effects cfg (id a) chans |}).
Proof.
  induction chans as [|ch chans IH]; intros a st.
  - unfold channel_effects. cbn. rewrite app_nil_r. by destruct st.
  - unfold channel_effects. cbn [omap list_omap Stepwise.deliverAlert fold_left].
    unfold deliver_on at 2 4.
    destruct (sender cfg ch) as [announced|]; cbn [fmap option_fmap option_map].
    + destruct (String.eqb ch "console").
      * rewrite IH. cbn. rewrite <- app_assoc. reflexivity.
      * rewrite awaited_suspended, IH. cbn. rewrite <- app_assoc. reflexivity.
    + apply IH.
Qed.












(** With a clock that stands still an awaited call is the call run in
    one piece. *)
Lemma awaited_is_atomic (now : Z) (rs : list rule) :
  forall (e : event) (k : nat) (acc : list alert) (st : state),
    Stepwise.awaited (Stepwise.process_rules cfg (fun _ => now) rs e k acc st)
    = process_rules cfg now rs e acc st.
Proof.
  induction rs as [|r rs IH]; intros e k acc st; [reflexivity|].
  assert (Hfire : forall k',
            Stepwise.awaited
              (Stepwise.createAndSendAlert cfg (fun _ => now) k' r e
                 (fun a st1 =>
                    (st1, Stepwise.Suspended
                            (fun st2 =>
                               Stepwise.process_rules cfg (fun _ => now) rs e
                                 (3 + k') (acc ++ [a])
                                 (set_lastAlert now (name r) st2))))
                 st)
            = (let '(st1, a) := createAndSendAlert cfg now r e st in
               process_rules cfg now rs e (acc ++ [a])
                 (set_lastAlert now (name r) st1))).
  { intros k'. unfold Stepwise.createAndSendAlert, createAndSendAlert.
    rewrite awaited_deliverAlert, awaited_suspended, awaited_suspended, IH.
    rewrite deliverAlert_eq. cbn. unfold Stepwise.publish. cbn.
    rewrite <- app_assoc. reflexivity. }
  cbn [Stepwise.process_rules process_rules]. unfold isThrottled.
  destruct (condition r e); cbn [negb]; [|apply IH].
  destruct (lastAlerts st !! name r) as [s|]; [|apply Hfire].
  destruct (now - s <? throttleMs cfg r); [apply IH|apply Hfire].
Qed.




End AlertingFacts.




(** * Further properties *)

(** ** The escalation handler on arbitrary executors *)

Section HandlerMore.
Import EscalationHandler.
Context {R : Type} `{ExecutionResult R}.
Variable cfg : config.
Variable Date_now : nat -> Z.
Variable url : string.
Variable executors : gmap string (executor R).
Variable opts : options.

Abbreviation run_of := (run cfg Date_now url executors opts).

(** A run never makes more attempts than the loop bound leaves. *)
Lemma run_attempts_bounded cur count es hs c :
  run_of cur count es hs c ->
  (count + length (attempts es) <= Nat.max count (length (levels cfg)))%nat.
Proof.
  induction 1; rewrite ?attempts_cons; simpl; lia.
Qed.

(** A run that resolves with a result has counted its attempts. *)
Lemma run_resolved cur count es hs c v :
  run_of cur count es hs c ->
  c = Resolved v ->
  (escalationCount v + 1 = count + length (attempts es))%nat
  /\ last (attempts es) = Some (executionLevel v)
  /\ (escalationCount v < length (levels cfg))%nat
  /\ (count + length hs <= escalationCount v)%nat.
Proof.
  intros Hrun. revert v.
  induction Hrun as
    [cur count _|cur count _ _|cur count e r Hlt _ _ _
    |cur count e r next es hs c _ _ _ _ _ _ _ IH
    |cur count e msg next es hs c _ _ _ _ _ _ IH
    |cur count e msg _ _ _ _];
    intros v Hv; try discriminate.
  - injection Hv as <-. simpl. repeat split; auto; lia.
  - destruct (IH v Hv) as (Hn & Hlast & Hb & Hh).
    rewrite !attempts_cons. simpl.
    assert (attempts es <> []) by (intros Hnil; rewrite Hnil in Hn; simpl in Hn; lia).
    repeat split; try lia.
    destruct (attempts es); [congruence|exact Hlast].
  - destruct (IH v Hv) as (Hn & Hlast & Hb & Hh).
    rewrite !attempts_cons. simpl.
    assert (attempts es <> []) by (intros Hnil; rewrite Hnil in Hn; simpl in Hn; lia).
    repeat split; try lia.
    destruct (attempts es); [congruence|exact Hlast].
Qed.

(** [getNextLevel] by position: the level after the first occurrence of
    the current one, and the first level for a name that is no level. *)
Lemma indexOf_after_first (l : list string) (x : string) :
  0 <= JS.indexOf l x ->
  l !! Z.to_nat (JS.indexOf l x + 1) = after_first l x.
Proof.
  induction l as [|y l IH]; simpl; [lia|].
  destruct (String.eqb y x).
  - intros _. simpl. by destruct l.
  - destruct (Z.ltb_spec (JS.indexOf l x) 0); [lia|]. intros _.
    replace (Z.to_nat (JS.indexOf l x + 1 + 1))
      with (S (Z.to_nat (JS.indexOf l x + 1))) by lia.
    simpl. apply IH. lia.
Qed.

Lemma indexOf_last_after_first (l : list string) (x : string) :
  JS.indexOf l x = Z.of_nat (length l) - 1 -> after_first l x = None.
Proof.
  induction l as [|y l IH]; simpl; [reflexivity|].
  destruct (String.eqb y x).
  - intros Hlen. destruct l; [reflexivity|]. simpl in Hlen. lia.
  - pose proof (indexOf_bounds l x).
    destruct (Z.ltb_spec (JS.indexOf l x) 0); [lia|].
    intros Hlen. apply IH. lia.
Qed.

Lemma indexOf_present (l : list string) (x : string) :
  x ∈ l -> 0 <= JS.indexOf l x.
Proof.
  induction l as [|y l IH]; intros Hin; [inversion Hin|]. simpl.
  destruct (String.eqb_spec y x) as [|Hne]; [lia|].
  apply elem_of_cons in Hin as [->|Hin]; [congruence|].
  specialize (IH Hin). destruct (Z.ltb_spec (JS.indexOf l x) 0); lia.
Qed.

End HandlerMore.

(** X1. The bookkeeping of a run.  Whatever the executors do, one call
    invokes them at most [levels.length] times, only appends to the
    history, and records at most one entry per attempt.  A result the
    handler resolves with reports the tier of the last attempt as
    [executionLevel] and one less than the number of attempts as
    [escalationCount], which stays below [levels.length]; the run has
    recorded at most [escalationCount] history entries. *)
Theorem run_counts_its_attempts
    {R : Type} `{EscalationHandler.ExecutionResult R}
    (cfg : EscalationHandler.config) (Date_now : nat -> Z) (url : string)
    (executors : gmap string (EscalationHandler.executor R))
    (opts : options) (st : EscalationHandler.state) :
  exists es hs c,
    EscalationHandler.executeWithEscalation cfg Date_now url executors opts st
      = (EscalationHandler.extend st es hs, c)
    /\ (length (EscalationHandler.attempts es)
        <= length (EscalationHandler.levels cfg))%nat
    /\ (length hs <= length (EscalationHandler.attempts es))%nat
    /\ match c with
       | EscalationHandler.Resolved v =>
           (EscalationHandler.escalationCount v + 1
            = length (EscalationHandler.attempts es))%nat
           /\ last (EscalationHandler.attempts es)
              = Some (EscalationHandler.executionLevel v)
           /\ (EscalationHandler.escalationCount v
               < length (EscalationHandler.levels cfg))%nat
           /\ (length hs <= EscalationHandler.escalationCount v)%nat
       | _ => True
       end.
Proof.
  destruct (executeWithEscalation_run cfg Date_now url executors opts st)
    as (es & hs & c & Heq & Hrun).
  exists es, hs, c. split; [exact Heq|]. split.
  { pose proof (run_attempts_bounded _ _ _ _ _ _ _ _ _ _ Hrun). lia. }
  split.
  { by destruct (run_history _ _ _ _ _ _ _ _ _ _ Hrun) as (_ & Hle & _). }
  destruct c as [v| | |]; try exact I.
  destruct (run_resolved _ _ _ _ _ _ _ _ _ _ v Hrun eq_refl) as (? & ? & ? & ?).
  repeat split; auto; lia.
Qed.

(** X2. With [autoEscalate] off the handler makes a single attempt at
    the start level: a returned result is handed back as it is, with
    [escalationCount = 0], even when it asks for escalation, a thrown
    error is rethrown, and nothing is recorded. *)
Theorem no_auto_escalation_single_attempt
    {R : Type} `{EscalationHandler.ExecutionResult R}
    (cfg : EscalationHandler.config) (Date_now : nat -> Z) (url : string)
    (executors : gmap string (EscalationHandler.executor R))
    (opts : options) (st : EscalationHandler.state)
    (e : EscalationHandler.executor R) :
  EscalationHandler.autoEscalate cfg = false ->
  EscalationHandler.levels cfg <> [] ->
  executors !! JS.or_else (startLevel opts) "http" = Some e ->
  EscalationHandler.executeWithEscalation cfg Date_now url executors opts st
  = (EscalationHandler.extend st
       [EscalationHandler.EmitExecutionStart url
          (JS.or_else (startLevel opts) "http");
        EscalationHandler.Invoke (JS.or_else (startLevel opts) "http") 0] [],
     match EscalationHandler.executeAtLevel url opts e 0 with
     | Returns r =>
         EscalationHandler.Resolved
           {| EscalationHandler.result := r;
              EscalationHandler.executionLevel :=
                JS.or_else (startLevel opts) "http";
              EscalationHandler.escalationCount := 0 |}
     | Throws message => EscalationHandler.Rejected message
     end).
Proof.
  intros Hauto Hlevels He.
  unfold EscalationHandler.executeWithEscalation.
  destruct (EscalationHandler.levels cfg) as [|l ls] eqn:Hl; [congruence|].
  cbn [length EscalationHandler.loop]. rewrite Hl. cbn [length Nat.ltb Nat.leb].
  rewrite He, Hauto.
  rewrite !perform_extend, !extend_extend. cbn [app].
  destruct (EscalationHandler.executeAtLevel url opts e 0) as [r|m].
  - by rewrite andb_false_r.
  - by destruct (EscalationHandler.truthy_level _).
Qed.

Lemma no_auto_escalation_single_attempt_witness :
  EscalationHandler.executeWithEscalation HandlerExamples.manual_config
    Examples.clock Examples.target Examples.hopeless_executors no_options
    EscalationHandler.initial
  = (EscalationHandler.extend EscalationHandler.initial
       [EscalationHandler.EmitExecutionStart Examples.target "http";
        EscalationHandler.Invoke "http" 0] [],
     EscalationHandler.Resolved
       {| EscalationHandler.result := Examples.blocked;
          EscalationHandler.executionLevel := "http";
          EscalationHandler.escalationCount := 0 |}).
Proof.
  apply (no_auto_escalation_single_attempt HandlerExamples.manual_config
           Examples.clock Examples.target Examples.hopeless_executors
           no_options EscalationHandler.initial
           (Examples.always Examples.blocked)).
  - reflexivity.
  - discriminate.
  - reflexivity.
Defined.

(** X3. [getNextLevel] returns the level that follows the first
    occurrence of the current one, [null] after the last level, and the
    first level for a name that is not a level at all. *)
Theorem getNextLevel_by_position
    (cfg : EscalationHandler.config) (current : string) :
  EscalationHandler.getNextLevel cfg current
  = if bool_decide (current ∈ EscalationHandler.levels cfg)
    then after_first (EscalationHandler.levels cfg) current
    else head (EscalationHandler.levels cfg).
Proof.
  unfold EscalationHandler.getNextLevel.
  pose proof (indexOf_bounds (EscalationHandler.levels cfg) current) as Hb.
  case_bool_decide as Hin.
  - pose proof (indexOf_present _ _ Hin) as Hpos.
    destruct (Z.ltb_spec (JS.indexOf (EscalationHandler.levels cfg) current)
                (Z.of_nat (length (EscalationHandler.levels cfg)) - 1)).
    + by apply indexOf_after_first.
    + symmetry. apply indexOf_last_after_first. lia.
  - rewrite (indexOf_absent _ _ Hin).
    destruct (EscalationHandler.levels cfg) as [|l ls]; [reflexivity|].
    destruct (Z.ltb_spec (-1) (Z.of_nat (length (l :: ls)) - 1)) as [_|Hlen];
      [reflexivity|simpl in Hlen; lia].
Qed.

Section HandlerClimbs.
Import EscalationHandler.
Context {R : Type} `{ExecutionResult R}.
Variable cfg : config.
Variable Date_now : nat -> Z.
Variable url : string.
Variable executors : gmap string (executor R).
Variable opts : options.

Abbreviation run_at := (run cfg Date_now url executors opts).

(** When every executor throws, the run climbs from any position of the
    level array through the levels that are left, records nothing and
    rejects with the error of the last one. *)
Lemma run_always_throwing post : forall pre cur es hs c,
  levels cfg = pre ++ cur :: post ->
  NoDup (levels cfg) ->
  Forall (fun l => JS.truthy l = true) (levels cfg) ->
  autoEscalate cfg = true ->
  always_throwing cfg url executors opts ->
  run_at cur (length pre) es hs c ->
  attempts es = cur :: post
  /\ escalations es = []
  /\ Forall (fun e => forall ms, e <> Delay ms) es
  /\ hs = []
  /\ exists e message,
       executors !! List.last post cur = Some e
       /\ executeAtLevel url opts e (length pre + length post) = Throws message
       /\ c = Rejected message.
Proof.
  induction post as [|next post IH]; intros pre cur es hs c Hl Hnd Htruthy Hauto Hall Hrun.
  - assert (Hin : cur ∈ levels cfg).
    { rewrite Hl. apply elem_of_app. right. constructor. }
    destruct (Hall cur Hin) as (e0 & He0 & Hcalls).
    destruct (Hcalls (length pre)) as (m0 & Hm0).
    assert (Hlen : length (levels cfg) = (length pre + 1)%nat).
    { rewrite Hl, length_app. reflexivity. }
    pose proof (getNextLevel_top _ _ _ Hl Hnd) as Hnext.
    inversion Hrun; subst; try lia; try congruence.
    + match goal with
      | Hx : truthy_level _ = Some _ |- _ => rewrite Hnext in Hx; discriminate
      end.
    + split; [reflexivity|]. split; [reflexivity|]. split.
      { repeat (constructor; [intros ms; discriminate|]). constructor. }
      split; [reflexivity|].
      exists e0, m0. simpl. rewrite Nat.add_0_r.
      repeat split; auto; congruence.
  - assert (Hin : cur ∈ levels cfg).
    { rewrite Hl. apply elem_of_app. right. constructor. }
    destruct (Hall cur Hin) as (e0 & He0 & Hcalls).
    destruct (Hcalls (length pre)) as (m0 & Hm0).
    assert (Hlen : length (levels cfg) = (length pre + S (S (length post)))%nat).
    { rewrite Hl, length_app. reflexivity. }
    pose proof (getNextLevel_middle _ _ _ _ _ Hl Hnd) as Hnext.
    assert (Hnt : JS.truthy next = true).
    { rewrite Forall_forall in Htruthy. apply Htruthy. rewrite Hl.
      apply elem_of_app. right. do 2 constructor. }
    assert (Htl : truthy_level (getNextLevel cfg cur) = Some next).
    { rewrite Hnext. simpl. rewrite Hnt. reflexivity. }
    inversion Hrun; subst; try lia; try congruence.
    + assert (next0 = next) as -> by congruence.
      assert (Hl' : levels cfg = (pre ++ [cur]) ++ next :: post).
      { rewrite Hl, <- app_assoc. reflexivity. }
      match goal with
      | Hx : run_at _ (S (length pre)) _ _ _ |- _ =>
          replace (S (length pre)) with (length (pre ++ [cur])) in Hx
            by (rewrite length_app; simpl; lia);
          destruct (IH _ _ _ _ _ Hl' Hnd Htruthy Hauto Hall Hx)
            as (Hatt & Hesc & Hdel & Hhs & e' & m' & He & Hm & Hc)
      end.
      split. { rewrite !attempts_cons. simpl. by rewrite Hatt. }
      split. { rewrite !escalations_cons. simpl. exact Hesc. }
      split. { do 2 (constructor; [intros ms; discriminate|]). exact Hdel. }
      split; [exact Hhs|].
      * exists e', m'. rewrite last_cons.
        rewrite length_app in Hm. simpl in Hm.
        replace (length pre + length (next :: post))%nat
          with (length pre + 1 + length post)%nat by (simpl; lia).
        auto.
    + match goal with
      | Hx : _ \/ _ |- _ => destruct Hx as [Hnone|Hoff]; congruence
      end.
Qed.

(** One position late: a run that reaches a level of the array with one
    attempt more than its position behind it climbs until the loop bound
    stops it, one level short of the top, and resolves with nothing. *)
Lemma run_one_behind post : forall pre cur es hs c,
  levels cfg = pre ++ cur :: post ->
  NoDup (levels cfg) ->
  Forall (fun l => JS.truthy l = true) (levels cfg) ->
  autoEscalate cfg = true ->
  always_escalating cfg url executors opts ->
  run_at cur (S (length pre)) es hs c ->
  attempts es = removelast (cur :: post)
  /\ length hs = length post
  /\ c = ResolvedUndefined.
Proof.
  induction post as [|next post IH]; intros pre cur es hs c Hl Hnd Htruthy Hauto Hall Hrun.
  - assert (Hlen : length (levels cfg) = (length pre + 1)%nat).
    { rewrite Hl, length_app. reflexivity. }
    inversion Hrun; subst; try lia. repeat split.
  - assert (Hin : cur ∈ levels cfg).
    { rewrite Hl. apply elem_of_app. right. constructor. }
    destruct (Hall cur Hin) as (e0 & He0 & Hcalls).
    destruct (Hcalls (S (length pre))) as (r0 & Hr0 & Hneed0).
    assert (Hlen : length (levels cfg) = (length pre + S (S (length post)))%nat).
    { rewrite Hl, length_app. reflexivity. }
    pose proof (getNextLevel_middle _ _ _ _ _ Hl Hnd) as Hnext.
    assert (Hnt : JS.truthy next = true).
    { rewrite Forall_forall in Htruthy. apply Htruthy. rewrite Hl.
      apply elem_of_app. right. do 2 constructor. }
    assert (Htl : truthy_level (getNextLevel cfg cur) = Some next).
    { rewrite Hnext. simpl. rewrite Hnt. reflexivity. }
    inversion Hrun; subst; try lia; try congruence.
    + match goal with
      | Hx : _ \/ _ |- _ => destruct Hx as [Hesc|Hnone]
      end.
      * assert (r = r0) as -> by congruence.
        rewrite Hneed0, Hauto in Hesc. discriminate.
      * congruence.
    + assert (next0 = next) as -> by congruence.
      assert (Hl' : levels cfg = (pre ++ [cur]) ++ next :: post).
      { rewrite Hl, <- app_assoc. reflexivity. }
      match goal with
      | Hx : run_at _ (S (S (length pre))) _ _ _ |- _ =>
          replace (S (S (length pre))) with (S (length (pre ++ [cur]))) in Hx
            by (rewrite length_app; simpl; lia);
          destruct (IH _ _ _ _ _ Hl' Hnd Htruthy Hauto Hall Hx)
            as (Hatt & Hhs & Hc)
      end.
      repeat split; auto.
      * rewrite !attempts_cons. cbn [invoked_level]. rewrite Hatt.
        reflexivity.
      * simpl. by rewrite Hhs.
Qed.

End HandlerClimbs.

(** X4. When every executor throws, the handler tries each level once,
    in the configured order, moves on without any delay, emits no
    'escalation' event, adds nothing to the history, and rejects with
    the error the top tier threw. *)
Theorem thrown_errors_climb_unrecorded
    {R : Type} `{EscalationHandler.ExecutionResult R}
    (cfg : EscalationHandler.config) (Date_now : nat -> Z) (url : string)
    (executors : gmap string (EscalationHandler.executor R))
    (opts : options) (st : EscalationHandler.state)
    (lowest : string) (higher : list string) :
  EscalationHandler.levels cfg = lowest :: higher ->
  NoDup (EscalationHandler.levels cfg) ->
  Forall (fun l => JS.truthy l = true) (EscalationHandler.levels cfg) ->
  EscalationHandler.autoEscalate cfg = true ->
  JS.or_else (startLevel opts) "http" = lowest ->
  always_throwing cfg url executors opts ->
  exists es top message,
    EscalationHandler.executeWithEscalation cfg Date_now url executors opts st
      = (EscalationHandler.extend st es [],
         EscalationHandler.Rejected message)
    /\ EscalationHandler.attempts es = EscalationHandler.levels cfg
    /\ EscalationHandler.escalations es = []
    /\ Forall (fun e => forall ms, e <> EscalationHandler.Delay ms) es
    /\ executors !! List.last higher lowest = Some top
    /\ EscalationHandler.executeAtLevel url opts top (length higher)
       = Throws message.
Proof.
  intros Hlevels Hnd Htruthy Hauto Hstart Hall.
  destruct (executeWithEscalation_run cfg Date_now url executors opts st)
    as (es & hs & c & Heq & Hrun).
  rewrite Hstart in Hrun.
  destruct (run_always_throwing cfg Date_now url executors opts higher
              [] lowest es hs c Hlevels Hnd Htruthy Hauto Hall Hrun)
    as (Hatt & Hesc & Hdel & -> & top & m & Htop & Hm & ->).
  exists es, top, m. simpl in *.
  repeat split; auto.
  rewrite Hatt, Hlevels. reflexivity.
Qed.

Lemma thrown_errors_climb_unrecorded_witness :
  exists es top message,
    EscalationHandler.executeWithEscalation Examples.handler_config
      Examples.clock Examples.target HandlerExamples.invalid_executors
      no_options EscalationHandler.initial
      = (EscalationHandler.extend EscalationHandler.initial es [],
         EscalationHandler.Rejected message)
    /\ EscalationHandler.attempts es
       = ["http"; "browser-light"; "browser-advanced"]
    /\ EscalationHandler.escalations es = []
    /\ Forall (fun e => forall ms, e <> EscalationHandler.Delay ms) es
    /\ HandlerExamples.invalid_executors !! "browser-advanced" = Some top
    /\ EscalationHandler.executeAtLevel Examples.target no_options top 2
       = Throws message.
Proof.
  apply (thrown_errors_climb_unrecorded Examples.handler_config Examples.clock
           Examples.target HandlerExamples.invalid_executors no_options
           EscalationHandler.initial
           "http" ["browser-light"; "browser-advanced"]).
  - reflexivity.
  - apply (bool_decide_unpack _). vm_compute. exact I.
  - repeat constructor.
  - reflexivity.
  - reflexivity.
  - intros l Hl. exists EscalationHandler.ExecInvalid.
    split.
    + apply elem_of_cons in Hl as [->|Hl]; [reflexivity|].
      apply elem_of_cons in Hl as [->|Hl]; [reflexivity|].
      apply elem_of_cons in Hl as [->|Hl]; [reflexivity|].
      inversion Hl.
    + intros k. eexists. reflexivity.
Defined.

(** X5. A run started at a level that is not in the level array, with
    every result asking for escalation, goes on to the first configured
    level and climbs from there, but the loop bound stops it before the
    top tier is tried: the handler resolves with [undefined] after
    [levels.length] attempts and as many history entries. *)
Theorem unknown_start_level_never_reaches_top
    {R : Type} `{EscalationHandler.ExecutionResult R}
    (cfg : EscalationHandler.config) (Date_now : nat -> Z) (url : string)
    (executors : gmap string (EscalationHandler.executor R))
    (opts : options) (st : EscalationHandler.state)
    (start lowest : string) (higher : list string)
    (e : EscalationHandler.executor R) (r : R) :
  EscalationHandler.levels cfg = lowest :: higher ->
  NoDup (EscalationHandler.levels cfg) ->
  Forall (fun l => JS.truthy l = true) (EscalationHandler.levels cfg) ->
  EscalationHandler.autoEscalate cfg = true ->
  JS.or_else (startLevel opts) "http" = start ->
  start ∉ EscalationHandler.levels cfg ->
  executors !! start = Some e ->
  EscalationHandler.executeAtLevel url opts e 0 = Returns r ->
  EscalationHandler.needs_escalation r = true ->
  always_escalating cfg url executors opts ->
  exists es hs,
    EscalationHandler.executeWithEscalation cfg Date_now url executors opts st
      = (EscalationHandler.extend st es hs,
         EscalationHandler.ResolvedUndefined)
    /\ EscalationHandler.attempts es
       = start :: removelast (EscalationHandler.levels cfg)
    /\ length hs = length (EscalationHandler.levels cfg).
Proof.
  intros Hlevels Hnd Htruthy Hauto Hstart Hnotin He Hr Hneed Hall.
  destruct (executeWithEscalation_run cfg Date_now url executors opts st)
    as (es & hs & c & Heq & Hrun).
  rewrite Hstart in Hrun.
  assert (Hnext : EscalationHandler.truthy_level
                    (EscalationHandler.getNextLevel cfg start) = Some lowest).
  { unfold EscalationHandler.getNextLevel.
    rewrite (indexOf_absent _ _ Hnotin), Hlevels.
    destruct (Z.ltb_spec (-1) (Z.of_nat (length (lowest :: higher)) - 1))
      as [_|Hlen]; [|simpl in Hlen; lia].
    simpl. pose proof Htruthy as Ht. rewrite Hlevels in Ht.
    apply Forall_inv in Ht. by rewrite Ht. }
  assert (Hlen : (0 < length (EscalationHandler.levels cfg))%nat).
  { rewrite Hlevels. simpl. lia. }
  inversion Hrun; subst; try lia; try congruence.
  - match goal with
    | Hx : _ \/ _ |- _ => destruct Hx as [Hesc|Hnone]
    end.
    + assert (r0 = r) as -> by congruence.
      rewrite Hneed, Hauto in Hesc. discriminate.
    + congruence.
  - assert (next = lowest) as -> by congruence.
    match goal with
    | Hx : EscalationHandler.run _ _ _ _ _ _ 1 _ _ _ |- _ =>
        destruct (run_one_behind cfg Date_now url executors opts higher
                    [] lowest _ _ _ Hlevels Hnd Htruthy Hauto Hall Hx)
          as (Hatt & Hhs & ->)
    end.
    eexists _, _. split; [exact Heq|]. split.
    + rewrite !attempts_cons. cbn [EscalationHandler.invoked_level].
      rewrite Hatt, Hlevels. reflexivity.
    + simpl. rewrite Hhs, Hlevels. reflexivity.
Qed.

Lemma unknown_start_level_never_reaches_top_witness :
  exists es hs,
    EscalationHandler.executeWithEscalation Examples.handler_config
      Examples.clock Examples.target HandlerExamples.custom_executors
      HandlerExamples.custom_start EscalationHandler.initial
      = (EscalationHandler.extend EscalationHandler.initial es hs,
         EscalationHandler.ResolvedUndefined)
    /\ EscalationHandler.attempts es = ["cache"; "http"; "browser-light"]
    /\ length hs = 3%nat.
Proof.
  apply (unknown_start_level_never_reaches_top Examples.handler_config
           Examples.clock Examples.target HandlerExamples.custom_executors
           HandlerExamples.custom_start EscalationHandler.initial
           "cache" "http" ["browser-light"; "browser-advanced"]
           (Examples.always Examples.blocked) Examples.blocked).
  - reflexivity.
  - apply (bool_decide_unpack _). vm_compute. exact I.
  - repeat constructor.
  - reflexivity.
  - reflexivity.
  - apply (bool_decide_unpack _). vm_compute. exact I.
  - reflexivity.
  - reflexivity.
  - reflexivity.
  - intros l Hl. exists (Examples.always Examples.blocked).
    split.
    + apply elem_of_cons in Hl as [->|Hl]; [reflexivity|].
      apply elem_of_cons in Hl as [->|Hl]; [reflexivity|].
      apply elem_of_cons in Hl as [->|Hl]; [reflexivity|].
      inversion Hl.
    + intros k. exists Examples.blocked. split; reflexivity.
Defined.

(** ** The HTTP executor on an arbitrary network *)

Lemma strip_tags_from_length (s : string) : forall in_tag,
  (String.length (JS.strip_tags_from in_tag s) <= String.length s)%nat.
Proof.
  induction s as [|c s IH]; intros in_tag; simpl; [lia|].
  destruct in_tag.
  - destruct (JS.is_gt c); [specialize (IH false)|specialize (IH true)]; lia.
  - destruct (JS.is_lt c && JS.has_gt s)%bool.
    + specialize (IH true). lia.
    + simpl. specialize (IH false). lia.
Qed.

Lemma trimStart_length (s : string) :
  (String.length (JS.trimStart s) <= String.length s)%nat.
Proof.
  induction s as [|c s IH]; simpl; [lia|].
  destruct (JS.is_space c); simpl; lia.
Qed.

Lemma trimEnd_length (s : string) :
  (String.length (JS.trimEnd s) <= String.length s)%nat.
Proof.
  induction s as [|c s IH]; simpl; [lia|].
  destruct (JS.is_space c && String.eqb (JS.trimEnd s) EmptyString)%bool;
    simpl; lia.
Qed.

(** The visible text of a page is no longer than the page. *)
Lemma visible_text_length (s : string) :
  (String.length (JS.trim (JS.strip_tags s)) <= String.length s)%nat.
Proof.
  unfold JS.trim, JS.strip_tags.
  pose proof (trimEnd_length (JS.trimStart (JS.strip_tags_from false s))).
  pose proof (trimStart_length (JS.strip_tags_from false s)).
  pose proof (strip_tags_from_length s false). lia.
Qed.

Lemma axios_returns (w : wire) (resp : response) :
  HttpExecutor.axios w = Returns resp -> w = Answer resp /\ status resp < 500.
Proof.
  destruct w as [r|m]; simpl; [|discriminate].
  destruct (Z.ltb_spec (status r) 500); [|discriminate].
  intros [= ->]. auto.
Qed.

(** The two fields of the escalation check agree. *)
Lemma checkForEscalationSignals_reason (resp : response) :
  fst (HttpExecutor.checkForEscalationSignals resp) = true
  <-> is_Some (snd (HttpExecutor.checkForEscalationSignals resp)).
Proof.
  unfold HttpExecutor.checkForEscalationSignals.
  repeat match goal with
         | |- context [if ?b then _ else _] => destruct b
         end; simpl; split; intros Hx; eauto; try discriminate;
    destruct Hx; discriminate.
Qed.

Section FetchMore.
Import HttpExecutor.
Variable cfg : config.
Variable request : nat -> wire.
Variable startTime : Z.
Variable Date_now : nat -> Z.
Variable target : string.
Variable opts : options.

Abbreviation attempts_in :=
  (attempts_from cfg request startTime Date_now target opts).
Abbreviation answered :=
  (executeRequest cfg startTime Date_now target opts).

Lemma executeRequest_eq attempt resp retryCount st :
  answered attempt resp retryCount st
  = ({| records :=
          records st
          ++ [{| CostTracker.level := "http";
                 CostTracker.entry_cost :=
                   CostTracker.calculateCost "http" (details_of target opts resp);
                 CostTracker.entry_timestamp := Date_now attempt;
                 CostTracker.entry_details := details_of target opts resp |}];
        delays := delays st |},
     {| success := true; url := target; statusCode := status resp;
        result_headers := Some (headers resp);
        body := match data resp with
                | DString s => s
                | DParsed json _ => json
                end;
        contentLength := Some (data_length (data resp));
        executionTime := Date_now attempt - startTime;
        retryCount := retryCount;
        proxyUsed := Some (isProxyConfigured cfg);
        cost := Some (CostTracker.calculateCost "http" (details_of target opts resp));
        escalationNeeded := fst (checkForEscalationSignals resp);
        escalationReason := snd (checkForEscalationSignals resp);
        error := None |}).
Proof. reflexivity. Qed.

Lemma waits_S from n :
  waits cfg from (S n)
  = retryDelay cfg * (Z.of_nat from + 1) :: waits cfg (S from) n.
Proof. reflexivity. Qed.

(** The three ways the loop of [fetch] ends, from any iteration: after
    [n] retried errors the next request is answered, or throws an error
    of the escalation policy before the last iteration, or throws in the
    last iteration. *)
Lemma attempts_from_cases (left : nat) : forall attempt lastError retryCount st,
  Z.of_nat attempt + Z.of_nat left = retries cfg ->
  exists n,
    (n <= left)%nat
    /\ (forall j, (j < n)%nat ->
          exists m, axios (request (attempt + j)%nat) = Throws m
                    /\ shouldEscalate m = false)
    /\ ((exists resp,
           axios (request (attempt + n)%nat) = Returns resp
           /\ attempts_in (S left) attempt lastError retryCount st
              = (let '(st', r) :=
                   answered (attempt + n)%nat resp (retryCount + Z.of_nat n)
                     (waited (waits cfg attempt n) st) in
                 (st', Returns r)))
        \/ (exists m,
              axios (request (attempt + n)%nat) = Throws m
              /\ shouldEscalate m = true
              /\ (n < left)%nat
              /\ attempts_in (S left) attempt lastError retryCount st
                 = (waited (waits cfg attempt n) st,
                    Returns (buildEscalationResult target
                               (Date_now (attempt + n)%nat - startTime)
                               (retryCount + Z.of_nat n + 1) m)))
        \/ (exists m,
              axios (request (attempt + n)%nat) = Throws m
              /\ n = left
              /\ attempts_in (S left) attempt lastError retryCount st
                 = (waited (waits cfg attempt n) st,
                    Returns (buildFailureResult target
                               (Date_now (S (attempt + n)) - startTime)
                               (retryCount + Z.of_nat n + 1) m)))).
Proof.
  induction left as [|left IH]; intros attempt lastError retryCount st Hret.
  - exists 0%nat. split; [lia|]. split; [intros j Hj; lia|].
    rewrite attempts_from_S, Nat.add_0_r.
    destruct (axios (request attempt)) as [resp|m] eqn:Hax.
    + left. exists resp. split; [reflexivity|].
      cbn [Z.of_nat]. rewrite Z.add_0_r. unfold waits. cbn [seq map].
      rewrite waited_nil. reflexivity.
    + right. right. exists m. split; [reflexivity|]. split; [reflexivity|].
      destruct (Z.ltb_spec (Z.of_nat attempt) (retries cfg)); [lia|].
      cbn [attempts_from Z.of_nat]. rewrite Z.add_0_r.
      unfold waits. cbn [seq map]. rewrite waited_nil. reflexivity.
  - rewrite attempts_from_S.
    destruct (axios (request attempt)) as [resp|m] eqn:Hax.
    + exists 0%nat. split; [lia|]. split; [intros j Hj; lia|].
      left. exists resp. rewrite Nat.add_0_r. split; [exact Hax|].
      cbn [Z.of_nat]. rewrite Z.add_0_r. unfold waits. cbn [seq map].
      rewrite waited_nil. reflexivity.
    + destruct (Z.ltb_spec (Z.of_nat attempt) (retries cfg)); [|lia].
      destruct (shouldEscalate m) eqn:Hpol.
      * exists 0%nat. split; [lia|]. split; [intros j Hj; lia|].
        right. left. exists m. rewrite Nat.add_0_r.
        split; [exact Hax|]. split; [exact Hpol|]. split; [lia|].
        cbn [Z.of_nat]. rewrite Z.add_0_r. unfold waits. cbn [seq map].
        rewrite waited_nil. reflexivity.
      * destruct (IH (S attempt) (Some m) (retryCount + 1)
                    (delay (retryDelay cfg * (Z.of_nat attempt + 1)) st))
          as (n & Hn & Hbefore & Hcases); [lia|].
        exists (S n). split; [lia|]. split.
        { intros [|j] Hj.
          - exists m. rewrite Nat.add_0_r. auto.
          - destruct (Hbefore j) as (m' & Hm' & Hpol'); [lia|].
            exists m'. replace (attempt + S j)%nat with (S attempt + j)%nat by lia.
            auto. }
        rewrite waited_delay, <- waits_S in Hcases.
        replace (S attempt + n)%nat with (attempt + S n)%nat in Hcases by lia.
        replace (retryCount + 1 + Z.of_nat n)
          with (retryCount + Z.of_nat (S n)) in Hcases by lia.
        destruct Hcases as [(resp & Hresp & Heq)|[(m' & Hm' & Hpol' & Hlt & Heq)
                                                 |(m' & Hm' & Hlast & Heq)]].
        -- left. exists resp. split; [exact Hresp|exact Heq].
        -- right. left. exists m'. repeat split; auto. lia.
        -- right. right. exists m'. repeat split; auto.
Qed.

End FetchMore.

(** X6. [fetch] ends in one of three ways.  After [n <= retries] errors
    outside the escalation policy, each followed by its wait, the next
    request is answered and its result returned with [retryCount = n];
    or it throws an error of the policy while retries are left, and the
    escalation result is returned at once; or it throws in the last
    iteration, and the failure result is returned whatever the error
    says. *)
Theorem fetch_three_outcomes
    (cfg : HttpExecutor.config) (request : nat -> wire) (startTime : Z)
    (Date_now : nat -> Z) (target : string) (opts : options)
    (st : HttpExecutor.state) :
  0 <= HttpExecutor.retries cfg ->
  exists n,
    Z.of_nat n <= HttpExecutor.retries cfg
    /\ (forall j, (j < n)%nat ->
          exists m, HttpExecutor.axios (request j) = Throws m
                    /\ HttpExecutor.shouldEscalate m = false)
    /\ ((exists resp,
           HttpExecutor.axios (request n) = Returns resp
           /\ HttpExecutor.fetch cfg request startTime Date_now target opts st
              = (let '(st', r) :=
                   HttpExecutor.executeRequest cfg startTime Date_now target
                     opts n resp (Z.of_nat n) (waited (waits cfg 0 n) st) in
                 (st', Returns r)))
        \/ (exists m,
              HttpExecutor.axios (request n) = Throws m
              /\ HttpExecutor.shouldEscalate m = true
              /\ Z.of_nat n < HttpExecutor.retries cfg
              /\ HttpExecutor.fetch cfg request startTime Date_now target opts st
                 = (waited (waits cfg 0 n) st,
                    Returns (HttpExecutor.buildEscalationResult target
                               (Date_now n - startTime) (Z.of_nat n + 1) m)))
        \/ (exists m,
              HttpExecutor.axios (request n) = Throws m
              /\ Z.of_nat n = HttpExecutor.retries cfg
              /\ HttpExecutor.fetch cfg request startTime Date_now target opts st
                 = (waited (waits cfg 0 n) st,
                    Returns (HttpExecutor.buildFailureResult target
                               (Date_now (S n) - startTime)
                               (HttpExecutor.retries cfg + 1) m)))).
Proof.
  intros Hretries. unfold HttpExecutor.fetch.
  replace (Z.to_nat (HttpExecutor.retries cfg + 1))
    with (S (Z.to_nat (HttpExecutor.retries cfg))) by lia.
  destruct (attempts_from_cases cfg request startTime Date_now target opts
              (Z.to_nat (HttpExecutor.retries cfg)) 0%nat None 0 st)
    as (n & Hn & Hbefore & Hcases); [lia|].
  exists n. split; [lia|]. split; [exact Hbefore|].
  cbn [Nat.add] in Hcases. rewrite !Z.add_0_l in Hcases.
  destruct Hcases as [(resp & Hresp & Heq)|[(m & Hm & Hpol & Hlt & Heq)
                                           |(m & Hm & Hlast & Heq)]].
  - left. exists resp. auto.
  - right. left. exists m. repeat split; auto. lia.
  - right. right. exists m. split; [exact Hm|]. split; [lia|].
    rewrite Heq. do 3 f_equal. lia.
Qed.

Lemma fetch_three_outcomes_witness :
  exists n,
    Z.of_nat n <= HttpExecutor.retries Examples.http_config
    /\ (forall j, (j < n)%nat ->
          exists m, HttpExecutor.axios (FetchExamples.flaky_network j) = Throws m
                    /\ HttpExecutor.shouldEscalate m = false)
    /\ ((exists resp,
           HttpExecutor.axios (FetchExamples.flaky_network n) = Returns resp
           /\ HttpExecutor.fetch Examples.http_config FetchExamples.flaky_network
                0 Examples.clock Examples.target no_options HttpExecutor.initial
              = (let '(st', r) :=
                   HttpExecutor.executeRequest Examples.http_config 0
                     Examples.clock Examples.target no_options n resp
                     (Z.of_nat n)
                     (waited (waits Examples.http_config 0 n)
                        HttpExecutor.initial) in
                 (st', Returns r)))
        \/ (exists m,
              HttpExecutor.axios (FetchExamples.flaky_network n) = Throws m
              /\ HttpExecutor.shouldEscalate m = true
              /\ Z.of_nat n < HttpExecutor.retries Examples.http_config
              /\ HttpExecutor.fetch Examples.http_config
                   FetchExamples.flaky_network 0 Examples.clock Examples.target
                   no_options HttpExecutor.initial
                 = (waited (waits Examples.http_config 0 n) HttpExecutor.initial,
                    Returns (HttpExecutor.buildEscalationResult Examples.target
                               (Examples.clock n - 0) (Z.of_nat n + 1) m)))
        \/ (exists m,
              HttpExecutor.axios (FetchExamples.flaky_network n) = Throws m
              /\ Z.of_nat n = HttpExecutor.retries Examples.http_config
              /\ HttpExecutor.fetch Examples.http_config
                   FetchExamples.flaky_network 0 Examples.clock Examples.target
                   no_options HttpExecutor.initial
                 = (waited (waits Examples.http_config 0 n) HttpExecutor.initial,
                    Returns (HttpExecutor.buildFailureResult Examples.target
                               (Examples.clock (S n) - 0)
                               (HttpExecutor.retries Examples.http_config + 1)
                               m)))).
Proof.
  apply (fetch_three_outcomes Examples.http_config FetchExamples.flaky_network
           0 Examples.clock Examples.target no_options HttpExecutor.initial).
  vm_compute. discriminate.
Defined.

(** X7. [fetch] throws only when [retries] is negative: no request is
    made then, and reading [lastError.message] fails.  With
    [retries >= 0] it always returns a result. *)
Theorem fetch_throws_only_without_attempts
    (cfg : HttpExecutor.config) (request : nat -> wire) (startTime : Z)
    (Date_now : nat -> Z) (target : string) (opts : options)
    (st : HttpExecutor.state) :
  (HttpExecutor.retries cfg < 0
   /\ HttpExecutor.fetch cfg request startTime Date_now target opts st
      = (st, Throws "Cannot read properties of null (reading 'message')"))
  \/ (0 <= HttpExecutor.retries cfg
      /\ exists st' r,
           HttpExecutor.fetch cfg request startTime Date_now target opts st
           = (st', Returns r)).
Proof.
  destruct (Z.lt_ge_cases (HttpExecutor.retries cfg) 0) as [Hneg|Hpos].
  - left. split; [exact Hneg|]. unfold HttpExecutor.fetch.
    replace (Z.to_nat (HttpExecutor.retries cfg + 1)) with 0%nat by lia.
    reflexivity.
  - right. split; [exact Hpos|]. unfold HttpExecutor.fetch.
    replace (Z.to_nat (HttpExecutor.retries cfg + 1))
      with (S (Z.to_nat (HttpExecutor.retries cfg))) by lia.
    destruct (attempts_from_cases cfg request startTime Date_now target opts
                (Z.to_nat (HttpExecutor.retries cfg)) 0%nat None 0 st)
      as (n & _ & _ & Hcases); [lia|].
    destruct Hcases as [(resp & _ & Heq)|[(m & _ & _ & _ & Heq)
                                         |(m & _ & _ & Heq)]];
      rewrite Heq; [rewrite executeRequest_eq|..]; eauto.
Qed.

(** X8. What a call of [fetch] leaves behind.  It has waited
    [retryDelay * 1], ..., [retryDelay * n] for some [n <= retries].  An
    answered request ([success = true]) has [retryCount = n] and adds
    exactly one record, at level "http", whose cost is the one in the
    result; a request that was not answered has [retryCount = n + 1],
    no cost, and leaves the records as they were. *)
Theorem fetch_accounts_for_waits_and_cost
    (cfg : HttpExecutor.config) (request : nat -> wire) (startTime : Z)
    (Date_now : nat -> Z) (target : string) (opts : options)
    (st : HttpExecutor.state) :
  0 <= HttpExecutor.retries cfg ->
  exists st' r n,
    HttpExecutor.fetch cfg request startTime Date_now target opts st
      = (st', Returns r)
    /\ Z.of_nat n <= HttpExecutor.retries cfg
    /\ HttpExecutor.delays st' = HttpExecutor.delays st ++ waits cfg 0 n
    /\ if HttpExecutor.success r then
         HttpExecutor.retryCount r = Z.of_nat n
         /\ exists c entry,
              HttpExecutor.cost r = Some c
              /\ HttpExecutor.records st' = HttpExecutor.records st ++ [entry]
              /\ CostTracker.level entry = "http"
              /\ CostTracker.entry_cost entry = c
              /\ Some (CostTracker.bytesTransferred
                         (CostTracker.entry_details entry))
                 = HttpExecutor.contentLength r
       else
         HttpExecutor.retryCount r = Z.of_nat n + 1
         /\ HttpExecutor.cost r = None
         /\ HttpExecutor.records st' = HttpExecutor.records st.
Proof.
  intros Hretries. unfold HttpExecutor.fetch.
  replace (Z.to_nat (HttpExecutor.retries cfg + 1))
    with (S (Z.to_nat (HttpExecutor.retries cfg))) by lia.
  destruct (attempts_from_cases cfg request startTime Date_now target opts
              (Z.to_nat (HttpExecutor.retries cfg)) 0%nat None 0 st)
    as (n & Hn & _ & Hcases); [lia|].
  cbn [Nat.add] in Hcases. rewrite !Z.add_0_l in Hcases.
  destruct Hcases as [(resp & _ & Heq)|[(m & _ & _ & _ & Heq)
                                       |(m & _ & _ & Heq)]];
    rewrite Heq; [rewrite executeRequest_eq|..];
    eexists _, _, n; (split; [reflexivity|]); (split; [lia|]);
    (split; [reflexivity|]); cbn.
  - split; [reflexivity|]. eexists _, _. repeat split; reflexivity.
  - repeat split; reflexivity.
  - repeat split; reflexivity.
Qed.

Lemma fetch_accounts_for_waits_and_cost_witness :
  exists st' r n,
    HttpExecutor.fetch Examples.http_config FetchExamples.flaky_network 0
      Examples.clock Examples.target no_options HttpExecutor.initial
      = (st', Returns r)
    /\ Z.of_nat n <= HttpExecutor.retries Examples.http_config
    /\ HttpExecutor.delays st'
       = HttpExecutor.delays HttpExecutor.initial
         ++ waits Examples.http_config 0 n
    /\ if HttpExecutor.success r then
         HttpExecutor.retryCount r = Z.of_nat n
         /\ exists c entry,
              HttpExecutor.cost r = Some c
              /\ HttpExecutor.records st'
                 = HttpExecutor.records HttpExecutor.initial ++ [entry]
              /\ CostTracker.level entry = "http"
              /\ CostTracker.entry_cost entry = c
              /\ Some (CostTracker.bytesTransferred
                         (CostTracker.entry_details entry))
                 = HttpExecutor.contentLength r
       else
         HttpExecutor.retryCount r = Z.of_nat n + 1
         /\ HttpExecutor.cost r = None
         /\ HttpExecutor.records st'
            = HttpExecutor.records HttpExecutor.initial.
Proof.
  apply (fetch_accounts_for_waits_and_cost Examples.http_config
           FetchExamples.flaky_network 0 Examples.clock Examples.target
           no_options HttpExecutor.initial).
  vm_compute. discriminate.
Defined.

(** X9. The fields of a result of [fetch] agree with each other.
    [escalationNeeded] is true exactly when there is an
    [escalationReason].  A result with [success = true] carries the
    status of an answer below 500 (a 4xx answer included), the headers
    and no error; any other result has status 0, an empty body, no
    headers and the message of the last error, and asks for escalation
    only when that message falls under the escalation policy. *)
Theorem fetch_result_is_consistent
    (cfg : HttpExecutor.config) (request : nat -> wire) (startTime : Z)
    (Date_now : nat -> Z) (target : string) (opts : options)
    (st : HttpExecutor.state) :
  0 <= HttpExecutor.retries cfg ->
  exists st' r,
    HttpExecutor.fetch cfg request startTime Date_now target opts st
      = (st', Returns r)
    /\ HttpExecutor.url r = target
    /\ (HttpExecutor.escalationNeeded r = true
        <-> is_Some (HttpExecutor.escalationReason r))
    /\ if HttpExecutor.success r then
         HttpExecutor.statusCode r < 500
         /\ is_Some (HttpExecutor.result_headers r)
         /\ HttpExecutor.proxyUsed r
            = Some (HttpExecutor.isProxyConfigured cfg)
         /\ HttpExecutor.error r = None
       else
         HttpExecutor.statusCode r = 0
         /\ HttpExecutor.body r = EmptyString
         /\ HttpExecutor.result_headers r = None
         /\ exists m,
              HttpExecutor.error r = Some m
              /\ HttpExecutor.escalationReason r
                 = (if HttpExecutor.escalationNeeded r
                    then Some ("Web Unlocker could not handle - " +:+ m)
                    else None)
              /\ (HttpExecutor.escalationNeeded r = true ->
                  HttpExecutor.shouldEscalate m = true).
Proof.
  intros Hretries. unfold HttpExecutor.fetch.
  replace (Z.to_nat (HttpExecutor.retries cfg + 1))
    with (S (Z.to_nat (HttpExecutor.retries cfg))) by lia.
  destruct (attempts_from_cases cfg request startTime Date_now target opts
              (Z.to_nat (HttpExecutor.retries cfg)) 0%nat None 0 st)
    as (n & Hn & _ & Hcases); [lia|].
  cbn [Nat.add] in Hcases. rewrite !Z.add_0_l in Hcases.
  destruct Hcases as [(resp & Hresp & Heq)|[(m & _ & Hpol & _ & Heq)
                                           |(m & _ & _ & Heq)]];
    rewrite Heq; [rewrite executeRequest_eq|..];
    eexists _, _; (split; [reflexivity|]); (split; [reflexivity|]); cbn.
  - split; [apply checkForEscalationSignals_reason|].
    apply axios_returns in Hresp as [_ Hstatus].
    repeat split; eauto.
  - split; [split; eauto|].
    repeat split; eauto.
  - split; [split; [discriminate|intros [? [=]]]|].
    repeat split; eauto. exists m. repeat split; auto. discriminate.
Qed.

Lemma fetch_result_is_consistent_witness :
  exists st' r,
    HttpExecutor.fetch Examples.http_config Examples.refusing_network 0
      Examples.clock Examples.target no_options HttpExecutor.initial
      = (st', Returns r)
    /\ HttpExecutor.url r = Examples.target
    /\ (HttpExecutor.escalationNeeded r = true
        <-> is_Some (HttpExecutor.escalationReason r))
    /\ if HttpExecutor.success r then
         HttpExecutor.statusCode r < 500
         /\ is_Some (HttpExecutor.result_headers r)
         /\ HttpExecutor.proxyUsed r
            = Some (HttpExecutor.isProxyConfigured Examples.http_config)
         /\ HttpExecutor.error r = None
       else
         HttpExecutor.statusCode r = 0
         /\ HttpExecutor.body r = EmptyString
         /\ HttpExecutor.result_headers r = None
         /\ exists m,
              HttpExecutor.error r = Some m
              /\ HttpExecutor.escalationReason r
                 = (if HttpExecutor.escalationNeeded r
                    then Some ("Web Unlocker could not handle - " +:+ m)
                    else None)
              /\ (HttpExecutor.escalationNeeded r = true ->
                  HttpExecutor.shouldEscalate m = true).
Proof.
  apply (fetch_result_is_consistent Examples.http_config
           Examples.refusing_network 0 Examples.clock Examples.target
           no_options HttpExecutor.initial).
  vm_compute. discriminate.
Defined.

(** The message axios gives a 5xx answer is outside the escalation
    policy. *)
Lemma server_error_is_retried (s : Z) :
  500 <= s <= 599 ->
  HttpExecutor.shouldEscalate ("Request failed with status code " +:+ pretty s)
  = false.
Proof.
  intros Hs.
  assert (Hall : forallb
            (fun k => negb (HttpExecutor.shouldEscalate
                              ("Request failed with status code "
                               +:+ pretty (500 + Z.of_nat k))))
            (seq 0 100) = true) by (vm_compute; reflexivity).
  rewrite forallb_forall in Hall.
  specialize (Hall (Z.to_nat (s - 500))).
  replace (500 + Z.of_nat (Z.to_nat (s - 500))) with s in Hall by lia.
  apply negb_true_iff, Hall, in_seq. lia.
Qed.

Lemma first_blocking_none (msgs : nat -> string) (n : nat) : forall from,
  (forall j, (from <= j < from + n)%nat ->
             HttpExecutor.shouldEscalate (msgs j) = false) ->
  first_blocking msgs from n = None.
Proof.
  induction n as [|n IH]; intros from Hall; [reflexivity|].
  simpl. rewrite Hall by lia. apply IH. intros j Hj. apply Hall. lia.
Qed.

(** X10. Answers with a 5xx status never reach the escalation check:
    axios rejects them, the message of the rejection is outside the
    escalation policy, and [fetch] retries until the budget is spent.
    The result is the failure result, with [escalationNeeded = false],
    also when the page served is a challenge. *)
Theorem server_errors_exhaust_retries
    (cfg : HttpExecutor.config) (request : nat -> wire) (startTime : Z)
    (Date_now : nat -> Z) (target : string) (opts : options)
    (st : HttpExecutor.state) :
  0 <= HttpExecutor.retries cfg ->
  (forall j, Z.of_nat j <= HttpExecutor.retries cfg ->
     exists resp, request j = Answer resp /\ 500 <= status resp <= 599) ->
  exists r,
    HttpExecutor.fetch cfg request startTime Date_now target opts st
      = (waited (waits cfg 0 (Z.to_nat (HttpExecutor.retries cfg))) st,
         Returns r)
    /\ HttpExecutor.success r = false
    /\ HttpExecutor.escalationNeeded r = false
    /\ HttpExecutor.escalationReason r = None
    /\ HttpExecutor.retryCount r = HttpExecutor.retries cfg + 1
    /\ HttpExecutor.error r
       = Some (error_message
                 (request (Z.to_nat (HttpExecutor.retries cfg)))).
Proof.
  intros Hretries Hall. unfold HttpExecutor.fetch.
  replace (Z.to_nat (HttpExecutor.retries cfg + 1))
    with (S (Z.to_nat (HttpExecutor.retries cfg))) by lia.
  assert (Hthrow : forall j, Z.of_nat j <= HttpExecutor.retries cfg ->
            HttpExecutor.axios (request j)
            = Throws (error_message (request j))).
  { intros j Hj. destruct (Hall j Hj) as (resp & Hresp & Hs).
    unfold error_message. rewrite Hresp. simpl.
    destruct (Z.ltb_spec (status resp) 500); [lia|reflexivity]. }
  rewrite (attempts_from_failing cfg request startTime Date_now target opts
             (fun j => error_message (request j)) _ 0%nat None 0 st Hthrow);
    [|simpl; lia].
  rewrite first_blocking_none.
  - eexists. split; [reflexivity|]. simpl. repeat split. lia.
  - intros j Hj. destruct (Hall j) as (resp & Hresp & Hs); [lia|].
    unfold error_message. rewrite Hresp. simpl.
    destruct (Z.ltb_spec (status resp) 500); [lia|].
    by apply server_error_is_retried.
Qed.

Lemma server_errors_exhaust_retries_witness :
  exists r,
    HttpExecutor.fetch Examples.http_config FetchExamples.overloaded_network 0
      Examples.clock Examples.target no_options HttpExecutor.initial
      = (waited (waits Examples.http_config 0 3) HttpExecutor.initial,
         Returns r)
    /\ HttpExecutor.success r = false
    /\ HttpExecutor.escalationNeeded r = false
    /\ HttpExecutor.escalationReason r = None
    /\ HttpExecutor.retryCount r = 4
    /\ HttpExecutor.error r = Some "Request failed with status code 503".
Proof.
  apply (server_errors_exhaust_retries Examples.http_config
           FetchExamples.overloaded_network 0 Examples.clock Examples.target
           no_options HttpExecutor.initial).
  - vm_compute. discriminate.
  - intros j _. eexists. split; [reflexivity|]. simpl. lia.
Defined.

(** X11. Behind [validateStatus] the challenge test of
    [checkForEscalationSignals] can only succeed on a 403: an answer
    axios resolves with and whose reason is "Challenge not resolved" has
    status 403, its body contains "challenge" or "captcha", and it holds
    neither of the JavaScript phrases. *)
Theorem challenge_reason_means_403 (w : wire) (resp : response) :
  HttpExecutor.axios w = Returns resp ->
  snd (HttpExecutor.checkForEscalationSignals resp)
    = Some "Challenge not resolved" ->
  status resp = 403
  /\ exists body,
       data resp = DString body
       /\ (JS.includes body "challenge" || JS.includes body "captcha") = true
       /\ JS.includes body "Please enable JavaScript" = false
       /\ JS.includes body "JavaScript is required" = false.
Proof.
  intros Hax Hreason. apply axios_returns in Hax as [_ Hstatus].
  unfold HttpExecutor.checkForEscalationSignals in Hreason.
  destruct (data resp) as [body|json len].
  - destruct (JS.includes body "Please enable JavaScript") eqn:H1;
      [discriminate|].
    destruct (JS.includes body "JavaScript is required") eqn:H2;
      [discriminate|].
    simpl in Hreason.
    destruct (JS.includes body "challenge" || JS.includes body "captcha")
      eqn:Hch.
    + destruct (Z.eqb_spec (status resp) 403) as [H403|_].
      * split; [exact H403|]. exists body. auto.
      * destruct (Z.eqb_spec (status resp) 503); [lia|].
        simpl in Hreason.
        destruct (_ && _) in Hreason; discriminate.
    + rewrite andb_false_r in Hreason.
      destruct (_ && _) in Hreason; discriminate.
  - simpl in Hreason. rewrite andb_false_r in Hreason. discriminate.
Qed.

Lemma challenge_reason_means_403_witness :
  status FetchExamples.challenge_page = 403
  /\ exists body,
       data FetchExamples.challenge_page = DString body
       /\ (JS.includes body "challenge" || JS.includes body "captcha") = true
       /\ JS.includes body "Please enable JavaScript" = false
       /\ JS.includes body "JavaScript is required" = false.
Proof.
  apply (challenge_reason_means_403 (Answer FetchExamples.challenge_page)
           FetchExamples.challenge_page).
  - reflexivity.
  - reflexivity.
Defined.

(** X12. An answer that axios resolves with (any status below 500) and
    that has fewer than 100 characters, or whose data is not a string,
    is returned with [success = true] and [escalationNeeded = true]: for
    a parsed answer the reason is "Minimal content - likely SPA". *)
Theorem small_answers_ask_for_escalation
    (cfg : HttpExecutor.config) (request : nat -> wire) (startTime : Z)
    (Date_now : nat -> Z) (target : string) (opts : options)
    (st : HttpExecutor.state) (k : nat) (resp : response) :
  Z.of_nat k <= HttpExecutor.retries cfg ->
  (forall j, (j < k)%nat ->
     exists m, HttpExecutor.axios (request j) = Throws m
               /\ HttpExecutor.shouldEscalate m = false) ->
  request k = Answer resp ->
  status resp < 500 ->
  small (data resp) ->
  exists st' r,
    HttpExecutor.fetch cfg request startTime Date_now target opts st
      = (st', Returns r)
    /\ HttpExecutor.success r = true
    /\ HttpExecutor.statusCode r = status resp
    /\ HttpExecutor.escalationNeeded r = true
    /\ is_Some (HttpExecutor.escalationReason r)
    /\ match data resp with
       | DString _ => True
       | DParsed _ _ =>
           HttpExecutor.escalationReason r
           = Some "Minimal content - likely SPA"
       end.
Proof.
  intros Hk Hfail Hanswer Hstatus Hsmall.
  pose proof (axios_resolves _ _ Hanswer Hstatus) as Hok.
  unfold HttpExecutor.fetch.
  rewrite (attempts_from_answer cfg request startTime Date_now target opts
             k _ 0%nat None 0 st resp); [|exact Hfail|exact Hok|lia|lia].
  rewrite executeRequest_eq. eexists _, _. split; [reflexivity|]. cbn.
  assert (Hneeded : fst (HttpExecutor.checkForEscalationSignals resp) = true
                    /\ match data resp with
                       | DString _ => True
                       | DParsed _ _ =>
                           snd (HttpExecutor.checkForEscalationSignals resp)
                           = Some "Minimal content - likely SPA"
                       end).
  { unfold HttpExecutor.checkForEscalationSignals.
    destruct (data resp) as [body|json len].
    - split; [|exact I]. simpl in Hsmall.
      pose proof (visible_text_length body) as Hvis.
      destruct (_ || _); [reflexivity|].
      destruct (_ && _); [reflexivity|].
      destruct (Z.ltb_spec (Z.of_nat (String.length body)) 1000); [|lia].
      destruct (Z.ltb_spec
                  (Z.of_nat (String.length (JS.trim (JS.strip_tags body))))
                  100); [reflexivity|lia].
    - simpl. rewrite andb_false_r. simpl. auto. }
  destruct Hneeded as [Hneeded Hparsed].
  repeat split; auto.
  by apply checkForEscalationSignals_reason.
Qed.

Lemma small_answers_ask_for_escalation_witness :
  exists st' r,
    HttpExecutor.fetch Examples.http_config FetchExamples.api_network 0
      Examples.clock Examples.target no_options HttpExecutor.initial
      = (st', Returns r)
    /\ HttpExecutor.success r = true
    /\ HttpExecutor.statusCode r = 200
    /\ HttpExecutor.escalationNeeded r = true
    /\ is_Some (HttpExecutor.escalationReason r)
    /\ HttpExecutor.escalationReason r = Some "Minimal content - likely SPA".
Proof.
  apply (small_answers_ask_for_escalation Examples.http_config
           FetchExamples.api_network 0 Examples.clock Examples.target
           no_options HttpExecutor.initial 0
           {| status := 200;
              headers := [("content-type", "application/json")];
              data := DParsed "{'price':29.99}" 0 |}).
  - vm_compute. discriminate.
  - intros j Hj. lia.
  - reflexivity.
  - vm_compute. reflexivity.
  - exact I.
Defined.

(** ** The analyzer and the pre-flight analysis *)

Ltac analyzer_cases resp :=
  unfold EnvironmentAnalyzer.analyze, EnvironmentAnalyzer.analyzeHeaders;
  destruct (EnvironmentAnalyzer.cloudflare_headers (headers resp)),
    (EnvironmentAnalyzer.protection_headers (headers resp)),
    (data resp);
  try unfold EnvironmentAnalyzer.analyzeContent;
  repeat match goal with
         | |- context [EnvironmentAnalyzer.matches ?h ?p] =>
             destruct (EnvironmentAnalyzer.matches h p)
         end;
  repeat match goal with
         | |- context [EnvironmentAnalyzer.minimal_content ?h] =>
             destruct (EnvironmentAnalyzer.minimal_content h)
         end.

(** An analysis judged too complex for HTTP has seen protection. *)
Lemma too_complex_is_protected (target : string) (probe : wire) :
  HttpExecutor.too_complex (EnvironmentAnalyzer.analyze target probe) = true ->
  EnvironmentAnalyzer.recommendedExecution
    (EnvironmentAnalyzer.analyze target probe) = "browser-advanced"
  /\ EnvironmentAnalyzer.hasAntiBot
       (EnvironmentAnalyzer.analysis_signals
          (EnvironmentAnalyzer.analyze target probe)) = true
  /\ exists resp, probe = Answer resp.
Proof.
  destruct probe as [resp|m]; [|intros Hx; vm_compute in Hx; discriminate].
  unfold HttpExecutor.too_complex.
  analyzer_cases resp; intros Hx; vm_compute in Hx; try discriminate Hx;
    (split; [reflexivity|split; [reflexivity|eauto]]).
Qed.

(** X13. [fetchWithAnalysis] skips the fetch only for a probe that was
    answered and showed anti-bot protection: the recommendation it then
    reports is always "browser-advanced", no request of [fetch] is made,
    and the executor's records and waits are untouched.  A probe that
    failed never makes it skip. *)
Theorem skipped_fetch_means_protection
    (cfg : HttpExecutor.config) (request : nat -> wire) (startTime : Z)
    (Date_now : nat -> Z) (target : string) (opts : options)
    (probe : wire) (st : HttpExecutor.state) :
  HttpExecutor.too_complex (EnvironmentAnalyzer.analyze target probe) = true ->
  HttpExecutor.fetchWithAnalysis cfg request startTime Date_now target opts
    probe st
  = (st,
     Returns
       {| HttpExecutor.analysis := EnvironmentAnalyzer.analyze target probe;
          HttpExecutor.analysed_result := None;
          HttpExecutor.skipped := true;
          HttpExecutor.skipReason :=
            Some "Environment too complex for HTTP. Recommended: browser-advanced" |})
  /\ EnvironmentAnalyzer.hasAntiBot
       (EnvironmentAnalyzer.analysis_signals
          (EnvironmentAnalyzer.analyze target probe)) = true
  /\ exists resp, probe = Answer resp.
Proof.
  intros Hx.
  destruct (too_complex_is_protected target probe Hx) as (Hrec & Hbot & Hresp).
  split; [|auto].
  unfold HttpExecutor.fetchWithAnalysis. rewrite Hx, Hrec. reflexivity.
Qed.

Lemma skipped_fetch_means_protection_witness :
  HttpExecutor.fetchWithAnalysis Examples.http_config Examples.wall_network 0
    Examples.clock Examples.target no_options
    (Answer AnalyzerExamples.guarded_shell) HttpExecutor.initial
  = (HttpExecutor.initial,
     Returns
       {| HttpExecutor.analysis :=
            EnvironmentAnalyzer.analyze Examples.target
              (Answer AnalyzerExamples.guarded_shell);
          HttpExecutor.analysed_result := None;
          HttpExecutor.skipped := true;
          HttpExecutor.skipReason :=
            Some "Environment too complex for HTTP. Recommended: browser-advanced" |})
  /\ EnvironmentAnalyzer.hasAntiBot
       (EnvironmentAnalyzer.analysis_signals
          (EnvironmentAnalyzer.analyze Examples.target
             (Answer AnalyzerExamples.guarded_shell))) = true
  /\ exists resp, Answer AnalyzerExamples.guarded_shell = Answer resp.
Proof.
  apply (skipped_fetch_means_protection Examples.http_config
           Examples.wall_network 0 Examples.clock Examples.target no_options
           (Answer AnalyzerExamples.guarded_shell) HttpExecutor.initial).
  reflexivity.
Defined.

(** X14. The analyzer's three outputs move together.  Complexity
    [low] goes with the recommendation "http", no signal, confidence 0
    and the single detail "Simple static page detected"; [medium] goes
    with "browser-light" and no anti-bot signal; [high] goes with
    "browser-advanced".  Any recommendation other than "http" made from
    an answer has confidence at least 0.1, and the confidence never
    leaves the interval from 0 to 1. *)
Theorem analysis_is_coherent (target : string) (probe : wire) :
  let a := EnvironmentAnalyzer.analyze target probe in
  (0 <= EnvironmentAnalyzer.analysis_confidence a <= 1)%Q
  /\ match EnvironmentAnalyzer.analysis_complexity a with
     | EnvironmentAnalyzer.Low =>
         EnvironmentAnalyzer.recommendedExecution a = "http"
         /\ EnvironmentAnalyzer.analysis_signals a
            = EnvironmentAnalyzer.no_signals
         /\ EnvironmentAnalyzer.analysis_confidence a = 0%Q
         /\ EnvironmentAnalyzer.details a = ["Simple static page detected"]
     | EnvironmentAnalyzer.Medium =>
         EnvironmentAnalyzer.recommendedExecution a = "browser-light"
         /\ EnvironmentAnalyzer.hasAntiBot
              (EnvironmentAnalyzer.analysis_signals a) = false
         /\ (1 # 10 <= EnvironmentAnalyzer.analysis_confidence a)%Q
     | EnvironmentAnalyzer.High =>
         EnvironmentAnalyzer.recommendedExecution a = "browser-advanced"
         /\ (2 # 10 <= EnvironmentAnalyzer.analysis_confidence a)%Q
         /\ (EnvironmentAnalyzer.hasAntiBot
               (EnvironmentAnalyzer.analysis_signals a) = true
             \/ is_Some (EnvironmentAnalyzer.error a))
     end.
Proof.
  destruct probe as [resp|m].
  - cbv zeta. analyzer_cases resp;
      (split; [split; q_decide|]); cbn;
      repeat split; try q_decide; auto.
  - cbv zeta. split; [split; q_decide|]. cbn.
    repeat split; try q_decide; eauto.
Qed.

(** X15. A page of fewer than 500 characters is never left to plain
    HTTP: the analyzer sets [requiresJavaScript] and recommends a
    browser tier, with confidence at least 0.3. *)
Theorem short_pages_go_to_a_browser (target : string) (resp : response)
    (html : string) :
  data resp = DString html ->
  (String.length html < 500)%nat ->
  let a := EnvironmentAnalyzer.analyze target (Answer resp) in
  EnvironmentAnalyzer.requiresJavaScript
    (EnvironmentAnalyzer.analysis_signals a) = true
  /\ (EnvironmentAnalyzer.recommendedExecution a = "browser-light"
      \/ EnvironmentAnalyzer.recommendedExecution a = "browser-advanced")
  /\ (3 # 10 <= EnvironmentAnalyzer.analysis_confidence a)%Q
  /\ In "JavaScript rendering required" (EnvironmentAnalyzer.details a).
Proof.
  intros Hdata Hshort.
  assert (Hmin : EnvironmentAnalyzer.minimal_content html = true).
  { unfold EnvironmentAnalyzer.minimal_content.
    pose proof (visible_text_length html).
    destruct (Z.ltb_spec (Z.of_nat (String.length html)) 5000); [|lia].
    destruct (Z.ltb_spec
                (Z.of_nat (String.length (JS.trim (JS.strip_tags html)))) 500);
      [reflexivity|lia]. }
  cbv zeta.
  unfold EnvironmentAnalyzer.analyze, EnvironmentAnalyzer.analyzeHeaders,
    EnvironmentAnalyzer.analyzeContent.
  rewrite Hdata, Hmin.
  destruct (EnvironmentAnalyzer.cloudflare_headers (headers resp)),
    (EnvironmentAnalyzer.protection_headers (headers resp)),
    (EnvironmentAnalyzer.matches (JS.toLowerCase html)
       EnvironmentAnalyzer.jsFrameworkPatterns),
    (EnvironmentAnalyzer.matches (JS.toLowerCase html)
       EnvironmentAnalyzer.antiBotPatterns),
    (EnvironmentAnalyzer.matches (JS.toLowerCase html)
       EnvironmentAnalyzer.dynamicContentPatterns);
    cbn; (split; [reflexivity|]);
    (split; [auto|]); (split; [q_decide|auto]).
Qed.

Lemma short_pages_go_to_a_browser_witness :
  let a := EnvironmentAnalyzer.analyze Examples.target
             (Answer Examples.js_wall) in
  EnvironmentAnalyzer.requiresJavaScript
    (EnvironmentAnalyzer.analysis_signals a) = true
  /\ (EnvironmentAnalyzer.recommendedExecution a = "browser-light"
      \/ EnvironmentAnalyzer.recommendedExecution a = "browser-advanced")
  /\ (3 # 10 <= EnvironmentAnalyzer.analysis_confidence a)%Q
  /\ In "JavaScript rendering required" (EnvironmentAnalyzer.details a).
Proof.
  apply (short_pages_go_to_a_browser Examples.target Examples.js_wall
           "<html><body>Please enable JavaScript to view this page.</body></html>").
  - reflexivity.
  - vm_compute. lia.
Defined.

(** ** The cost tracker *)

Lemma rates_lookup (lvl : string) (r : CostTracker.rate) :
  CostTracker.rates !! lvl = Some r ->
  (lvl = "http" /\ r = CostTracker.http_rate)
  \/ (lvl = "browser-light"
      /\ r = {| CostTracker.base := 1 # 100; CostTracker.perKB := 5 # 100000 |})
  \/ (lvl = "browser-advanced"
      /\ r = {| CostTracker.base := 25 # 1000; CostTracker.perKB := 1 # 10000 |}).
Proof.
  unfold CostTracker.rates. intros Hr.
  apply lookup_insert_Some in Hr as [[<- <-]|[_ Hr]]; [by left|].
  apply lookup_insert_Some in Hr as [[<- <-]|[_ Hr]]; [by right; left|].
  apply lookup_insert_Some in Hr as [[<- <-]|[_ Hr]]; [by right; right|].
  rewrite lookup_empty in Hr. discriminate.
Qed.

Lemma geoPremiums_lookup (g : string) (p : Q) :
  CostTracker.geoPremiums !! g = Some p ->
  (g = "us" /\ p = 0%Q)
  \/ ((g = "uk" \/ g = "de") /\ p = 2 # 1000)
  \/ ((g = "jp" \/ g = "default") /\ p = 5 # 1000).
Proof.
  unfold CostTracker.geoPremiums. intros Hp.
  apply lookup_insert_Some in Hp as [[<- <-]|[_ Hp]]; [by left|].
  apply lookup_insert_Some in Hp as [[<- <-]|[_ Hp]]; [right; left; auto|].
  apply lookup_insert_Some in Hp as [[<- <-]|[_ Hp]]; [right; left; auto|].
  apply lookup_insert_Some in Hp as [[<- <-]|[_ Hp]]; [right; right; auto|].
  apply lookup_insert_Some in Hp as [[<- <-]|[_ Hp]]; [right; right; auto|].
  rewrite lookup_empty in Hp. discriminate.
Qed.

Lemma dataCost_nonneg (bytes : Z) (perKB : Q) :
  0 <= bytes -> (0 <= perKB)%Q -> (0 <= inject_Z bytes / 1024 * perKB)%Q.
Proof.
  intros Hb Hk. apply Qmult_le_0_compat; [|exact Hk].
  unfold Qle, Qdiv, Qmult, Qinv, inject_Z. simpl. lia.
Qed.

(** X16. A cost never falls below the base rate of its level.  A level
    without a rate of its own is billed at the HTTP rate, a region
    without a premium of its own pays the highest premium, 0.005, and
    for a non-negative number of bytes the data cost and the premium
    only add to the base cost. *)
Theorem cost_never_below_base_rate (lvl : string) (d : CostTracker.details) :
  0 <= CostTracker.bytesTransferred d ->
  lvl ∉ inherited ->
  region d ∉ inherited ->
  let c := CostTracker.calculateCost lvl d in
  (CostTracker.baseCost c
   = if bool_decide (lvl = "browser-light") then 1 # 100
     else if bool_decide (lvl = "browser-advanced") then 25 # 1000
     else 1 # 1000)
  /\ (CostTracker.geoPremium c
      = if bool_decide (region d = "us") then 0%Q
        else if bool_decide (region d ∈ ["uk"; "de"]) then 2 # 1000
        else 5 # 1000)
  /\ (0 <= CostTracker.dataCost c)%Q
  /\ (CostTracker.baseCost c <= CostTracker.totalCost c)%Q.
Proof.
  intros Hbytes _ _. cbv zeta.
  assert (Hbase : CostTracker.baseCost (CostTracker.calculateCost lvl d)
                  = if bool_decide (lvl = "browser-light") then 1 # 100
                    else if bool_decide (lvl = "browser-advanced") then 25 # 1000
                    else 1 # 1000).
  { unfold CostTracker.calculateCost. cbn.
    destruct (CostTracker.rates !! lvl) as [r|] eqn:Hr.
    - apply rates_lookup in Hr as [[-> ->]|[[-> ->]|[-> ->]]]; reflexivity.
    - repeat case_bool_decide; subst; try reflexivity; vm_compute in Hr;
        discriminate. }
  assert (Hprem : CostTracker.geoPremium (CostTracker.calculateCost lvl d)
                  = if bool_decide (region d = "us") then 0%Q
                    else if bool_decide (region d ∈ ["uk"; "de"]) then 2 # 1000
                    else 5 # 1000).
  { unfold CostTracker.calculateCost. cbn. fold (region d).
    destruct (CostTracker.geoPremiums !! region d) as [p|] eqn:Hp.
    - apply geoPremiums_lookup in Hp as [[-> ->]|[[[->| ->] ->]|[[->| ->] ->]]];
        reflexivity.
    - clear Hbase. repeat case_bool_decide; try reflexivity; exfalso.
      + match goal with Hx : region d = _ |- _ => rewrite Hx in Hp end.
        vm_compute in Hp. discriminate.
      + match goal with
        | Hx : region d ∈ _ |- _ =>
            apply elem_of_cons in Hx as [Hx|Hx];
              [|apply elem_of_cons in Hx as [Hx|Hx]; [|inversion Hx]];
              rewrite Hx in Hp; vm_compute in Hp; discriminate
        end. }
  assert (Hdata : (0 <= CostTracker.dataCost (CostTracker.calculateCost lvl d))%Q).
  { unfold CostTracker.calculateCost. cbn.
    apply dataCost_nonneg; [exact Hbytes|].
    destruct (CostTracker.rates !! lvl) as [r|] eqn:Hr.
    - apply rates_lookup in Hr as [[_ ->]|[[_ ->]|[_ ->]]]; cbn; q_decide.
    - cbn. q_decide. }
  split; [exact Hbase|]. split; [exact Hprem|]. split; [exact Hdata|].
  assert (Hp0 : (0 <= CostTracker.geoPremium (CostTracker.calculateCost lvl d))%Q).
  { rewrite Hprem. repeat case_bool_decide; q_decide. }
  change (CostTracker.totalCost (CostTracker.calculateCost lvl d))
    with (CostTracker.baseCost (CostTracker.calculateCost lvl d)
          + CostTracker.dataCost (CostTracker.calculateCost lvl d)
          + CostTracker.geoPremium (CostTracker.calculateCost lvl d))%Q.
  set (b := CostTracker.baseCost _) in *.
  set (x := CostTracker.dataCost _) in *.
  set (p := CostTracker.geoPremium _) in *.
  rewrite <- (Qplus_0_r b) at 1. rewrite <- Qplus_assoc.
  apply Qplus_le_compat; [apply Qle_refl|].
  rewrite <- (Qplus_0_r 0). apply Qplus_le_compat; assumption.
Qed.

Lemma cost_never_below_base_rate_witness :
  let c := CostTracker.calculateCost "browser-heavy" CostExamples.french_page in
  (CostTracker.baseCost c
   = if bool_decide ("browser-heavy" = "browser-light") then 1 # 100
     else if bool_decide ("browser-heavy" = "browser-advanced") then 25 # 1000
     else 1 # 1000)
  /\ (CostTracker.geoPremium c
      = if bool_decide (region CostExamples.french_page = "us") then 0%Q
        else if bool_decide (region CostExamples.french_page ∈ ["uk"; "de"])
             then 2 # 1000
             else 5 # 1000)
  /\ (0 <= CostTracker.dataCost c)%Q
  /\ (CostTracker.baseCost c <= CostTracker.totalCost c)%Q.
Proof.
  apply (cost_never_below_base_rate "browser-heavy" CostExamples.french_page).
  - vm_compute. discriminate.
  - apply (bool_decide_unpack _). vm_compute. exact I.
  - apply (bool_decide_unpack _). vm_compute. exact I.
Defined.

Lemma fold_add_record_keys (rs : list CostTracker.record_entry) :
  forall levels sum l,
    is_Some (fst (fold_left CostTracker.add_record rs (levels, sum)) !! l)
    <-> is_Some (levels !! l) \/ l ∈ map CostTracker.level rs.
Proof.
  induction rs as [|r rs IH]; intros levels sum l; simpl.
  - split; [auto|intros [Hx|Hx]; [exact Hx|inversion Hx]].
  - rewrite IH. rewrite lookup_insert_is_Some, elem_of_cons.
    destruct (decide (CostTracker.level r = l)) as [Heq|Hne]; split;
      intros Hx; intuition congruence.
Qed.

(** X17. [getSummary] counts every record once: [recordCount] is the
    number of records and [byLevel] has an entry exactly for the levels
    that occur in them.  Recording one more execution raises the count
    by one, adds its total cost to [total] and to the entry of its
    level, and leaves the entries of the other levels as they were. *)
Theorem summary_counts_every_record
    (records : list CostTracker.record_entry) (now : Z) (lvl : string)
    (d : CostTracker.details) :
  Forall (fun r => CostTracker.level r ∉ inherited) records ->
  lvl ∉ inherited ->
  let before := CostTracker.getSummary records in
  let after := CostTracker.getSummary
                 (fst (CostTracker.record now lvl d records)) in
  let c := snd (CostTracker.record now lvl d records) in
  CostTracker.recordCount before = length records
  /\ (forall l, is_Some (CostTracker.byLevel before !! l)
                <-> l ∈ map CostTracker.level records)
  /\ CostTracker.recordCount after = S (CostTracker.recordCount before)
  /\ CostTracker.total after
     = (CostTracker.total before + CostTracker.totalCost c)%Q
  /\ CostTracker.byLevel after
     = <[lvl := (default 0%Q (CostTracker.byLevel before !! lvl)
                 + CostTracker.totalCost c)%Q]>
         (CostTracker.byLevel before).
Proof.
  intros _ _. cbv zeta. unfold CostTracker.getSummary, CostTracker.record.
  cbn [fst snd]. rewrite fold_left_app. cbn [fold_left].
  pose proof (fold_add_record_keys records ∅ 0%Q) as Hkeys.
  destruct (fold_left CostTracker.add_record records (∅, 0%Q))
    as [levels sum] eqn:Hfold.
  cbn. rewrite length_app. cbn.
  split; [reflexivity|]. split.
  - intros l. rewrite (Hkeys l). cbn. rewrite lookup_empty.
    split; [intros [[? [=]]|Hx]; exact Hx|auto].
  - split; [lia|]. split; reflexivity.
Qed.

Lemma summary_counts_every_record_witness :
  let before := CostTracker.getSummary CostExamples.one_record in
  let after := CostTracker.getSummary
                 (fst (CostTracker.record 5 "browser-light"
                         CostExamples.french_page CostExamples.one_record)) in
  let c := snd (CostTracker.record 5 "browser-light"
                  CostExamples.french_page CostExamples.one_record) in
  CostTracker.recordCount before = length CostExamples.one_record
  /\ (forall l, is_Some (CostTracker.byLevel before !! l)
                <-> l ∈ map CostTracker.level CostExamples.one_record)
  /\ CostTracker.recordCount after = S (CostTracker.recordCount before)
  /\ CostTracker.total after
     = (CostTracker.total before + CostTracker.totalCost c)%Q
  /\ CostTracker.byLevel after
     = <["browser-light" :=
           (default 0%Q (CostTracker.byLevel before !! "browser-light")
            + CostTracker.totalCost c)%Q]>
         (CostTracker.byLevel before).
Proof.
  apply (summary_counts_every_record CostExamples.one_record 5
           "browser-light" CostExamples.french_page).
  - repeat constructor. apply (bool_decide_unpack _). vm_compute. exact I.
  - apply (bool_decide_unpack _). vm_compute. exact I.
Defined.

(** ** The monitor: one check *)

Section MonitorFacts.
Import EnvironmentMonitor.

Lemma determineStatus_cases (found : list issue) :
  determineStatus found
  = if existsb (fun i => critical_severity (issue_severity i)) found
    then "critical"
    else if existsb (fun i => warning_severity (issue_severity i)) found
         then "warning" else "healthy".
Proof. reflexivity. Qed.

(** Issues other than notes decide the status: one critical issue makes
    it critical, none at all makes it healthy. *)
Lemma determineStatus_healthy (found : list issue) :
  Forall (fun i => issue_severity i <> Info) found ->
  determineStatus found = "healthy" <-> found = [].
Proof.
  intros Hall. split; [|intros ->; reflexivity].
  destruct found as [|i found]; [reflexivity|].
  apply Forall_inv in Hall. rewrite determineStatus_cases. simpl.
  destruct (issue_severity i); simpl; try congruence;
    try (destruct (existsb _ found)); discriminate.
Qed.

Lemma determineStatus_critical (found : list issue) :
  determineStatus found = "critical"
  <-> Exists (fun i => issue_severity i = Critical) found.
Proof.
  rewrite determineStatus_cases.
  destruct (existsb (fun i => critical_severity (issue_severity i)) found)
    eqn:Hcrit.
  - split; [intros _|reflexivity].
    apply existsb_exists in Hcrit as (i & Hin & Hi).
    apply Exists_exists. exists i. split; [by apply list_elem_of_In|].
    destruct (issue_severity i); simpl in Hi; congruence.
  - split.
    + destruct (existsb (fun i => warning_severity (issue_severity i)) found);
        intros [=].
    + intros Hex. apply Exists_exists in Hex as (i & Hin & Hi).
      assert (existsb (fun i => critical_severity (issue_severity i)) found
              = true) as Hx; [|congruence].
      apply existsb_exists. exists i. split; [by apply list_elem_of_In|].
      by rewrite Hi.
Qed.

(** The loop over the selectors: it adds one warning per selector it
    counts zero times, and fails at the first selector whose counting
    throws. *)
Lemma check_selectors_spec (obs : observation) (sels : list string) :
  forall matches found,
  exists extra,
    snd (fst (check_selectors obs sels matches found)) = found ++ extra
    /\ Forall (fun i => issue_severity i = Warning) extra
    /\ match snd (check_selectors obs sels matches found) with
       | None =>
           Forall (fun s => exists n, matches_of obs s = Returns n) sels
           /\ (extra = [] <-> Forall (found_on obs) sels)
       | Some message =>
           Exists (fun s => matches_of obs s = Throws message) sels
       end.
Proof.
  induction sels as [|s sels IH]; intros matches found.
  - exists []. simpl. rewrite app_nil_r. repeat split; auto.
  - cbn [check_selectors].
    destruct (matches_of obs s) as [n|message] eqn:Hs.
    + destruct (IH (<[s := n]> matches)
                  (if Nat.eqb n 0 then found ++ [missing_selector s] else found))
        as (extra & Hfound & Hwarn & Hrest).
      destruct n as [|n]; cbn [Nat.eqb] in *.
      * exists (missing_selector s :: extra).
        rewrite Hfound, <- app_assoc. split; [reflexivity|].
        split; [constructor; [reflexivity|exact Hwarn]|].
        destruct (snd (check_selectors _ _ _ _)) as [message|].
        -- by apply Exists_cons_tl.
        -- destruct Hrest as [Hall _]. split; [constructor; eauto|].
           split; [discriminate|].
           intros Hx. apply Forall_inv in Hx as [k Hk]. congruence.
      * exists extra. split; [exact Hfound|]. split; [exact Hwarn|].
        destruct (snd (check_selectors _ _ _ _)) as [message|].
        -- by apply Exists_cons_tl.
        -- destruct Hrest as [Hall Hiff]. split; [constructor; eauto|].
           rewrite Hiff. split.
           ++ intros Hx. constructor; [by exists n|exact Hx].
           ++ intros Hx. by apply Forall_inv_tail in Hx.
    + exists []. simpl. rewrite app_nil_r. repeat split; auto.
Qed.

End MonitorFacts.

(** X18. The status of a check, read off what was observed.  A check
    is healthy exactly when it has no issue: the response came within
    the limit, every selector was found, and no region disagreed.  It is
    critical exactly when counting a selector threw or the response took
    more than twice the limit: a missing selector or a regional mismatch
    alone never makes a check critical. *)
Theorem check_status_classification
    (cfg : EnvironmentMonitor.config) (t : EnvironmentMonitor.target)
    (obs : EnvironmentMonitor.observation) :
  0 <= JS.num_or_else (EnvironmentMonitor.maxResponseTime t) 5000 ->
  let c := EnvironmentMonitor.checkTarget cfg t obs in
  let maxTime := JS.num_or_else (EnvironmentMonitor.maxResponseTime t) 5000 in
  let sels := default [] (EnvironmentMonitor.selectors t) in
  (EnvironmentMonitor.check_status c = "healthy"
   <-> EnvironmentMonitor.issues c = [])
  /\ (EnvironmentMonitor.check_status c = "healthy"
      <-> EnvironmentMonitor.elapsed obs <= maxTime
          /\ Forall (found_on obs) sels
          /\ ((1 < length (EnvironmentMonitor.geos cfg))%nat ->
              EnvironmentMonitor.mismatches
                (EnvironmentMonitor.geo_statuses obs) = []))
  /\ (EnvironmentMonitor.check_status c = "critical"
      <-> Exists (fails_on obs) sels
          \/ maxTime * 2 < EnvironmentMonitor.elapsed obs).
Proof.
  intros Hmax. cbv zeta. unfold EnvironmentMonitor.checkTarget.
  set (maxTime := JS.num_or_else (EnvironmentMonitor.maxResponseTime t) 5000)
    in *.
  set (sels := default [] (EnvironmentMonitor.selectors t)).
  set (slow := if maxTime <? EnvironmentMonitor.elapsed obs
               then [EnvironmentMonitor.slow_response
                       (EnvironmentMonitor.elapsed obs) maxTime]
               else []).
  destruct (check_selectors_spec obs sels ∅ slow)
    as (extra & Hfound & Hwarn & Hrest).
  destruct (EnvironmentMonitor.check_selectors obs sels ∅ slow)
    as [[matches found] failure].
  cbn [fst snd] in Hfound, Hrest. subst found.
  destruct failure as [message|].
  - (* counting threw *)
    cbn [EnvironmentMonitor.check_status EnvironmentMonitor.issues].
    assert (Hfails : Exists (fails_on obs) sels).
    { eapply Exists_impl; [exact Hrest|]. intros s Hs. by exists message. }
    split; [split; [intros [=]|intros Hx; by apply app_nil in Hx as [_ [=]]]|].
    split; [split; [intros [=]|]|split; auto].
    intros (_ & Hall & _). exfalso.
    apply Exists_exists in Hfails as (s & Hin & msg & Hs).
    rewrite Forall_forall in Hall. destruct (Hall s Hin) as [n Hn]. congruence.
  - destruct Hrest as [Hcounted Hextra].
    assert (Hnofail : ~ Exists (fails_on obs) sels).
    { intros Hx. apply Exists_exists in Hx as (s & Hin & msg & Hs).
      rewrite Forall_forall in Hcounted. destruct (Hcounted s Hin) as [n Hn].
      congruence. }
    set (final :=
           if Nat.ltb 1 (length (EnvironmentMonitor.geos cfg)) then
             match EnvironmentMonitor.mismatches
                     (EnvironmentMonitor.geo_statuses obs) with
             | [] => slow ++ extra
             | ms => (slow ++ extra)
                     ++ [{| EnvironmentMonitor.issue_type := "geo_mismatch";
                            EnvironmentMonitor.issue_severity := Warning;
                            EnvironmentMonitor.issue_message :=
                              "Geographic mismatch in: "
                              +:+ EnvironmentMonitor.join ", " ms |}]
             end
           else slow ++ extra).
    cbn [EnvironmentMonitor.check_status EnvironmentMonitor.issues].
    assert (Hslow_sev : Forall (fun i => EnvironmentMonitor.issue_severity i
                                         <> Info) slow).
    { subst slow. destruct (maxTime <? EnvironmentMonitor.elapsed obs);
        [|constructor]. constructor; [|constructor]. simpl.
      destruct (maxTime * 2 <? EnvironmentMonitor.elapsed obs); discriminate. }
    assert (Hextra_sev : Forall (fun i => EnvironmentMonitor.issue_severity i
                                          <> Info) extra).
    { eapply Forall_impl; [exact Hwarn|]. intros i ->. discriminate. }
    assert (Hsev : Forall (fun i => EnvironmentMonitor.issue_severity i <> Info)
                     final).
    { subst final.
      destruct (Nat.ltb 1 (length (EnvironmentMonitor.geos cfg)));
        [destruct (EnvironmentMonitor.mismatches _)|];
        repeat apply Forall_app_2; auto;
        try (constructor; [discriminate|constructor]). }
    assert (Hempty : final = []
                     <-> EnvironmentMonitor.elapsed obs <= maxTime
                         /\ Forall (found_on obs) sels
                         /\ ((1 < length (EnvironmentMonitor.geos cfg))%nat ->
                             EnvironmentMonitor.mismatches
                               (EnvironmentMonitor.geo_statuses obs) = [])).
    { subst final slow. rewrite <- Hextra.
      destruct (Z.ltb_spec maxTime (EnvironmentMonitor.elapsed obs));
        destruct (Nat.ltb_spec 1 (length (EnvironmentMonitor.geos cfg)));
        destruct (EnvironmentMonitor.mismatches
                    (EnvironmentMonitor.geo_statuses obs)) as [|g gs];
        destruct extra as [|x extra]; cbn;
        split; try (intros [=]); try (intros (? & ? & ?)); try lia;
        try congruence; repeat split; auto; try lia;
        try (exfalso; match goal with
                      | Hx : _ -> _ :: _ = [] |- _ =>
                          specialize (Hx ltac:(lia)); discriminate
                      end). }
    assert (Hcritical : Exists (fun i => EnvironmentMonitor.issue_severity i
                                         = Critical) final
                        <-> maxTime * 2 < EnvironmentMonitor.elapsed obs).
    { assert (Hx : Exists (fun i => EnvironmentMonitor.issue_severity i
                                    = Critical) final
                   <-> Exists (fun i => EnvironmentMonitor.issue_severity i
                                        = Critical) slow).
      { assert (Hnone : ~ Exists (fun i => EnvironmentMonitor.issue_severity i
                                           = Critical) extra).
        { intros Hx. apply Exists_exists in Hx as (i & Hin & Hi).
          rewrite Forall_forall in Hwarn. rewrite (Hwarn i Hin) in Hi.
          discriminate. }
        subst final.
        destruct (Nat.ltb 1 (length (EnvironmentMonitor.geos cfg)));
          [destruct (EnvironmentMonitor.mismatches _)|];
          rewrite ?Exists_app, ?Exists_cons, ?Exists_nil; cbn;
          intuition discriminate. }
      rewrite Hx. subst slow.
      destruct (Z.ltb_spec maxTime (EnvironmentMonitor.elapsed obs)).
      - rewrite Exists_cons, Exists_nil. cbn.
        destruct (Z.ltb_spec (maxTime * 2) (EnvironmentMonitor.elapsed obs));
          intuition (try discriminate; try lia).
      - rewrite Exists_nil. intuition lia. }
    split; [by apply determineStatus_healthy|].
    split.
    + rewrite determineStatus_healthy by exact Hsev. exact Hempty.
    + rewrite determineStatus_critical, Hcritical. tauto.
Qed.

Lemma check_status_classification_witness :
  let c := EnvironmentMonitor.checkTarget MonitorRuns.config MonitorRuns.shop
             (MonitorRuns.steady 0) in
  let maxTime :=
    JS.num_or_else (EnvironmentMonitor.maxResponseTime MonitorRuns.shop) 5000 in
  let sels := default [] (EnvironmentMonitor.selectors MonitorRuns.shop) in
  (EnvironmentMonitor.check_status c = "healthy"
   <-> EnvironmentMonitor.issues c = [])
  /\ (EnvironmentMonitor.check_status c = "healthy"
      <-> EnvironmentMonitor.elapsed (MonitorRuns.steady 0) <= maxTime
          /\ Forall (found_on (MonitorRuns.steady 0)) sels
          /\ ((1 < length (EnvironmentMonitor.geos MonitorRuns.config))%nat ->
              EnvironmentMonitor.mismatches
                (EnvironmentMonitor.geo_statuses (MonitorRuns.steady 0)) = []))
  /\ (EnvironmentMonitor.check_status c = "critical"
      <-> Exists (fails_on (MonitorRuns.steady 0)) sels
          \/ maxTime * 2 < EnvironmentMonitor.elapsed (MonitorRuns.steady 0)).
Proof.
  apply (check_status_classification MonitorRuns.config MonitorRuns.shop
           (MonitorRuns.steady 0)).
  vm_compute. discriminate.
Defined.

(** ** The monitor: cycles, history and baselines *)

Section MonitorCycles.
Import EnvironmentMonitor.
Variable cfg : config.
Variable observe : nat -> observation.
Variable history_clock : nat -> Z.
Variable drift_clock : nat -> Z.

Abbreviation run_one := (run_target cfg observe history_clock drift_clock).
Abbreviation run_all := (run_targets cfg observe history_clock drift_clock).

Lemma run_target_check i t m :
  snd (run_one i t m) = checkTarget cfg t (observe i).
Proof.
  unfold run_target.
  destruct (detectChanges _ _ _ _) as [baselines' changes]. reflexivity.
Qed.

(** One iteration never replaces a baseline. *)
Lemma run_target_keeps_baselines i t m url b :
  baselines m !! url = Some b ->
  baselines (fst (run_one i t m)) !! url = Some b.
Proof.
  intros Hb. unfold run_target, detectChanges. cbn [addToHistory baselines].
  destruct (baselines m !! target_url t) as [b0|] eqn:Ht; cbn; [exact Hb|].
  rewrite lookup_insert_ne; [exact Hb|]. intros Heq. congruence.
Qed.

(** One iteration on a target without baseline: the check becomes the
    baseline and only the health check is emitted. *)
Lemma run_target_cold i t m :
  baselines m !! target_url t = None ->
  baselines (fst (run_one i t m))
    = <[target_url t := checkTarget cfg t (observe i)]> (baselines m)
  /\ emitted (fst (run_one i t m))
     = emitted m ++ [EmitHealthCheck (checkTarget cfg t (observe i))].
Proof.
  intros Hb. unfold run_target, detectChanges. cbn [addToHistory baselines].
  rewrite Hb. cbn. auto.
Qed.

Lemma run_targets_cons t ts i results m :
  run_all (t :: ts) i results m
  = run_all ts (S i) (results ++ [snd (run_one i t m)]) (fst (run_one i t m)).
Proof.
  cbn [run_targets]. by destruct (run_one i t m).
Qed.

Lemma run_targets_keep_baselines ts : forall i results m url b,
  baselines m !! url = Some b ->
  baselines (fst (run_all ts i results m)) !! url = Some b.
Proof.
  induction ts as [|t ts IH]; intros i results m url b Hb; [exact Hb|].
  rewrite run_targets_cons. apply IH. by apply run_target_keeps_baselines.
Qed.

Lemma cycle_cons from t ts :
  cycle cfg observe from (t :: ts)
  = checkTarget cfg t (observe from) :: cycle cfg observe (S from) ts.
Proof.
  unfold cycle. cbn [imap]. rewrite Nat.add_0_r. f_equal.
  apply imap_ext. intros k x _. cbn. do 2 f_equal. lia.
Qed.

Lemma run_targets_cold ts : forall i results m,
  (forall t, t ∈ ts -> baselines m !! target_url t = None) ->
  NoDup (map target_url ts) ->
  snd (run_all ts i results m) = results ++ cycle cfg observe i ts
  /\ emitted (fst (run_all ts i results m))
     = emitted m ++ map EmitHealthCheck (cycle cfg observe i ts)
  /\ forall k t, ts !! k = Some t ->
       baselines (fst (run_all ts i results m)) !! target_url t
       = Some (checkTarget cfg t (observe (i + k)%nat)).
Proof.
  induction ts as [|t ts IH]; intros i results m Hnone Hnd.
  - cbn. rewrite !app_nil_r. repeat split; auto. intros k t [=].
  - rewrite run_targets_cons, cycle_cons, run_target_check.
    cbn [map] in Hnd. apply NoDup_cons in Hnd as [Hfresh Hnd].
    destruct (run_target_cold i t m) as [Hbase Hemit];
      [apply Hnone; by left|].
    destruct (IH (S i) (results ++ [checkTarget cfg t (observe i)])
                (fst (run_one i t m))) as (Hres & Hem & Hbl); [|exact Hnd|].
    { intros t' Hin. rewrite Hbase, lookup_insert_ne.
      - apply Hnone. by right.
      - intros Heq. apply Hfresh. rewrite Heq. apply list_elem_of_fmap.
        by exists t'. }
    split; [rewrite Hres, <- app_assoc; reflexivity|].
    split; [rewrite Hem, Hemit, <- app_assoc; reflexivity|].
    intros [|k] t' Hk.
    + injection Hk as <-. rewrite Nat.add_0_r.
      apply run_targets_keep_baselines. rewrite Hbase. apply lookup_insert_eq.
    + replace (i + S k)%nat with (S i + k)%nat by lia. by apply Hbl.
Qed.

End MonitorCycles.

(** X19. A first cycle is silent.  When no target of the configuration
    has a baseline and no two targets share a url, [runChecks] checks
    every target once, in order, emits each check as a health check and
    nothing else, and leaves each check as the baseline of its
    target. *)
Theorem first_cycle_is_silent
    (cfg : EnvironmentMonitor.config)
    (observe : nat -> EnvironmentMonitor.observation)
    (history_clock drift_clock : nat -> Z) (m : EnvironmentMonitor.monitor) :
  (forall t, t ∈ EnvironmentMonitor.targets cfg ->
     EnvironmentMonitor.baselines m !! EnvironmentMonitor.target_url t = None) ->
  NoDup (map EnvironmentMonitor.target_url (EnvironmentMonitor.targets cfg)) ->
  let run := EnvironmentMonitor.runChecks cfg observe history_clock
               drift_clock m in
  snd run = cycle cfg observe 0 (EnvironmentMonitor.targets cfg)
  /\ EnvironmentMonitor.emitted (fst run)
     = EnvironmentMonitor.emitted m
       ++ map EnvironmentMonitor.EmitHealthCheck (snd run)
  /\ forall k t, EnvironmentMonitor.targets cfg !! k = Some t ->
       EnvironmentMonitor.baselines (fst run)
         !! EnvironmentMonitor.target_url t
       = Some (EnvironmentMonitor.checkTarget cfg t (observe k)).
Proof.
  intros Hnone Hnd. cbv zeta. unfold EnvironmentMonitor.runChecks.
  destruct (run_targets_cold cfg observe history_clock drift_clock
              (EnvironmentMonitor.targets cfg) 0%nat [] m Hnone Hnd)
    as (Hres & Hem & Hbl).
  rewrite Hres, Hem. cbn [app]. auto.
Qed.

Lemma first_cycle_is_silent_witness :
  let run := EnvironmentMonitor.runChecks MonitorRuns.config MonitorRuns.steady
               MonitorRuns.clock MonitorRuns.clock
               EnvironmentMonitor.initial in
  snd run
  = cycle MonitorRuns.config MonitorRuns.steady 0
      (EnvironmentMonitor.targets MonitorRuns.config)
  /\ EnvironmentMonitor.emitted (fst run)
     = EnvironmentMonitor.emitted EnvironmentMonitor.initial
       ++ map EnvironmentMonitor.EmitHealthCheck (snd run)
  /\ forall k t,
       EnvironmentMonitor.targets MonitorRuns.config !! k = Some t ->
       EnvironmentMonitor.baselines (fst run)
         !! EnvironmentMonitor.target_url t
       = Some (EnvironmentMonitor.checkTarget MonitorRuns.config t
                 (MonitorRuns.steady k)).
Proof.
  apply (first_cycle_is_silent MonitorRuns.config MonitorRuns.steady
           MonitorRuns.clock MonitorRuns.clock EnvironmentMonitor.initial).
  - intros t _. reflexivity.
  - apply (bool_decide_unpack _). vm_compute. exact I.
Defined.

(** X20. [runChecks] never replaces a baseline: whatever the cycle
    observes, a url that has a baseline before the cycle has the same
    baseline after it. *)
Theorem cycle_keeps_baselines
    (cfg : EnvironmentMonitor.config)
    (observe : nat -> EnvironmentMonitor.observation)
    (history_clock drift_clock : nat -> Z) (m : EnvironmentMonitor.monitor)
    (url : string) (b : EnvironmentMonitor.check) :
  EnvironmentMonitor.baselines m !! url = Some b ->
  EnvironmentMonitor.baselines
    (fst (EnvironmentMonitor.runChecks cfg observe history_clock drift_clock m))
    !! url = Some b.
Proof.
  intros Hb. unfold EnvironmentMonitor.runChecks.
  by apply run_targets_keep_baselines.
Qed.

Lemma cycle_keeps_baselines_witness :
  EnvironmentMonitor.baselines
    (fst (EnvironmentMonitor.runChecks MonitorRuns.config
            (fun i => MonitorRuns.steady (S (S i)))
            MonitorRuns.clock MonitorRuns.clock MonitorRuns.after_one_cycle))
    !! "https://shop.example/pricing"
  = Some (EnvironmentMonitor.checkTarget MonitorRuns.config MonitorRuns.shop
            (MonitorRuns.steady 0)).
Proof.
  apply (cycle_keeps_baselines MonitorRuns.config
           (fun i => MonitorRuns.steady (S (S i)))
           MonitorRuns.clock MonitorRuns.clock MonitorRuns.after_one_cycle
           "https://shop.example/pricing"
           (EnvironmentMonitor.checkTarget MonitorRuns.config MonitorRuns.shop
              (MonitorRuns.steady 0))).
  vm_compute. reflexivity.
Defined.

Lemma last_snoc_filter {A : Type} (P : A -> bool) (l : list A) (x : A) :
  last (List.filter P (l ++ [x]))
  = if P x then Some x else last (List.filter P l).
Proof.
  rewrite List.filter_app. cbn. destruct (P x).
  - apply last_snoc.
  - by rewrite app_nil_r.
Qed.

(** X21. [addToHistory] keeps, for the url it is given, only checks
    stamped after the cutoff of [retentionDays] days before now; the
    histories of other urls and the baselines are untouched.  The check
    just added is what [getStatus] returns, unless its own stamp is not
    after the cutoff: then it is dropped at once. *)
Theorem history_keeps_recent_checks
    (cfg : EnvironmentMonitor.config) (now : Z) (url : string)
    (c : EnvironmentMonitor.check) (m : EnvironmentMonitor.monitor) :
  let m' := EnvironmentMonitor.addToHistory cfg now url c m in
  let earlier := default [] (EnvironmentMonitor.checkHistory m !! url) in
  let recent := fun h =>
    cutoff cfg now <? EnvironmentMonitor.check_timestamp h in
  EnvironmentMonitor.checkHistory m' !! url
    = Some (List.filter recent (earlier ++ [c]))
  /\ (forall h, h ∈ default [] (EnvironmentMonitor.checkHistory m' !! url) ->
        cutoff cfg now < EnvironmentMonitor.check_timestamp h)
  /\ (forall other, other <> url ->
        EnvironmentMonitor.checkHistory m' !! other
        = EnvironmentMonitor.checkHistory m !! other)
  /\ EnvironmentMonitor.baselines m' = EnvironmentMonitor.baselines m
  /\ EnvironmentMonitor.getStatus url m'
     = if recent c then Some c else last (List.filter recent earlier).
Proof.
  cbv zeta. unfold EnvironmentMonitor.addToHistory, EnvironmentMonitor.getStatus.
  cbn [EnvironmentMonitor.checkHistory EnvironmentMonitor.baselines].
  fold (cutoff cfg now). rewrite lookup_insert_eq. cbn [default].
  split; [reflexivity|]. split.
  - intros h Hh. apply list_elem_of_In, filter_In in Hh as [_ Hh]. lia.
  - split; [intros other Hne; by rewrite lookup_insert_ne|].
    split; [reflexivity|].
    apply (last_snoc_filter
             (fun h => cutoff cfg now <? EnvironmentMonitor.check_timestamp h)).
Qed.

(** X22. Setting the baseline to the latest check and comparing that
    check with it reports no drift, provided its response time is not
    negative (a negative time would exceed its own double). *)
Theorem rebaselined_check_shows_no_drift
    (now : Z) (url : string) (m : EnvironmentMonitor.monitor)
    (c : EnvironmentMonitor.check) :
  EnvironmentMonitor.getStatus url m = Some c ->
  0 <= EnvironmentMonitor.responseTime c ->
  let m' := EnvironmentMonitor.setBaseline url m in
  EnvironmentMonitor.baselines m' !! url = Some c
  /\ EnvironmentMonitor.emitted m'
     = EnvironmentMonitor.emitted m
       ++ [EnvironmentMonitor.EmitBaselineSet url c]
  /\ EnvironmentMonitor.detectChanges now url c
       (EnvironmentMonitor.baselines m')
     = (EnvironmentMonitor.baselines m', []).
Proof.
  intros Hstatus Htime. cbv zeta. unfold EnvironmentMonitor.setBaseline.
  rewrite Hstatus. cbn [EnvironmentMonitor.baselines EnvironmentMonitor.emitted].
  split; [apply lookup_insert_eq|]. split; [reflexivity|].
  unfold EnvironmentMonitor.detectChanges. rewrite lookup_insert_eq.
  f_equal.
  assert (Hstruct : omap (EnvironmentMonitor.structural_change now url c)
                      (map_to_list (EnvironmentMonitor.selectorMatches c)) = []).
  { assert (Hall : Forall (fun entry =>
                      EnvironmentMonitor.selectorMatches c !! entry.1
                      = Some entry.2)
                     (map_to_list (EnvironmentMonitor.selectorMatches c))).
    { apply Forall_forall. intros [s n] Hin.
      by apply elem_of_map_to_list in Hin. }
    induction Hall as [|[s n] l Hs _ IH]; [reflexivity|].
    cbn [omap list_omap EnvironmentMonitor.structural_change].
    cbn in Hs. rewrite Hs. cbn [default].
    destruct n as [|n]; cbn; exact IH. }
  rewrite Hstruct. unfold EnvironmentMonitor.performance_change.
  destruct (Z.ltb_spec (EnvironmentMonitor.responseTime c * 2)
              (EnvironmentMonitor.responseTime c)); [lia|reflexivity].
Qed.

Lemma rebaselined_check_shows_no_drift_witness :
  let c := EnvironmentMonitor.checkTarget MonitorRuns.config MonitorRuns.shop
             (MonitorRuns.steady 0) in
  let m' := EnvironmentMonitor.setBaseline "https://shop.example/pricing"
              MonitorRuns.after_one_cycle in
  EnvironmentMonitor.baselines m' !! "https://shop.example/pricing" = Some c
  /\ EnvironmentMonitor.emitted m'
     = EnvironmentMonitor.emitted MonitorRuns.after_one_cycle
       ++ [EnvironmentMonitor.EmitBaselineSet "https://shop.example/pricing" c]
  /\ EnvironmentMonitor.detectChanges 5000 "https://shop.example/pricing" c
       (EnvironmentMonitor.baselines m')
     = (EnvironmentMonitor.baselines m', []).
Proof.
  apply (rebaselined_check_shows_no_drift 5000 "https://shop.example/pricing"
           MonitorRuns.after_one_cycle
           (EnvironmentMonitor.checkTarget MonitorRuns.config MonitorRuns.shop
              (MonitorRuns.steady 0))).
  - vm_compute. reflexivity.
  - vm_compute. discriminate.
Defined.

Lemma ratio_bounds (k n : nat) :
  (k <= n)%nat -> (0 < n)%nat ->
  (0 <= inject_Z (Z.of_nat k) / inject_Z (Z.of_nat n) <= 1)%Q
  /\ ((inject_Z (Z.of_nat k) / inject_Z (Z.of_nat n) == 1)%Q <-> k = n).
Proof.
  intros Hk Hn. destruct n as [|n]; [lia|].
  unfold Qdiv, Qinv, Qmult, Qle, Qeq, inject_Z.
  replace (Z.of_nat (S n)) with (Z.pos (Pos.of_succ_nat n)) by lia.
  cbn [Qnum Qden]. repeat split; lia.
Qed.

Lemma filter_keeps_all {A : Type} (P : A -> bool) (l : list A) :
  length (List.filter P l) = length l <-> Forall (fun x => P x = true) l.
Proof.
  induction l as [|x l IH]; cbn.
  - split; auto.
  - pose proof (filter_length_le P l). destruct (P x) eqn:Hx; cbn.
    + split.
      * intros Hlen. constructor; [exact Hx|]. apply IH. lia.
      * intros Hall. inversion Hall; subst. f_equal. by apply IH.
    + split; [lia|]. intros Hall. inversion Hall; congruence.
Qed.

(** X23. [getStats] answers [null] exactly when [getStatus] has
    nothing to return.  Otherwise it counts the whole history of the
    url, at least one check, takes [lastCheck] from the check
    [getStatus] returns, and its [successRate] lies between 0 and 1 and
    is 1 exactly when no check of the history is critical. *)
Theorem stats_summarise_history
    (url : string) (m : EnvironmentMonitor.monitor) :
  match EnvironmentMonitor.getStats url m with
  | Some s =>
      exists history newest,
        EnvironmentMonitor.checkHistory m !! url = Some history
        /\ EnvironmentMonitor.getStatus url m = Some newest
        /\ EnvironmentMonitor.totalChecks s = length history
        /\ (0 < EnvironmentMonitor.totalChecks s)%nat
        /\ EnvironmentMonitor.lastCheck s
           = EnvironmentMonitor.check_timestamp newest
        /\ (0 <= EnvironmentMonitor.successRate s <= 1)%Q
        /\ ((EnvironmentMonitor.successRate s == 1)%Q
            <-> Forall (fun h => EnvironmentMonitor.check_status h
                                 <> "critical") history)
  | None => EnvironmentMonitor.getStatus url m = None
  end.
Proof.
  unfold EnvironmentMonitor.getStats, EnvironmentMonitor.getStatus.
  destruct (EnvironmentMonitor.checkHistory m !! url) as [history|];
    [|reflexivity].
  destruct (last history) as [newest|] eqn:Hlast; [|reflexivity].
  exists history, newest. cbn.
  assert (Hlen : (0 < length history)%nat).
  { destruct history; [discriminate|cbn; lia]. }
  set (ok := fun h => negb (String.eqb (EnvironmentMonitor.check_status h)
                              "critical")).
  pose proof (filter_length_le ok history) as Hle.
  destruct (ratio_bounds (length (List.filter ok history)) (length history)
              Hle Hlen) as [Hbounds Hone].
  repeat split; auto; try apply Hbounds.
  - intros Hrate. apply Hone, filter_keeps_all in Hrate.
    eapply Forall_impl; [exact Hrate|]. intros h Hh. subst ok. cbn in Hh.
    by destruct (String.eqb_spec (EnvironmentMonitor.check_status h)
                   "critical").
  - intros Hall. apply Hone, filter_keeps_all.
    eapply Forall_impl; [exact Hall|]. intros h Hh. subst ok. cbn.
    by destruct (String.eqb_spec (EnvironmentMonitor.check_status h)
                   "critical").
Qed.

(** ** The alerting system *)

Section AlertingMore.
Import AlertingSystem.
Variable cfg : config.

Lemma createAndSendAlert_counter now r e st :
  alertCounter (fst (createAndSendAlert cfg now r e st)) = S (alertCounter st)
  /\ id (snd (createAndSendAlert cfg now r e st)) = id_of st now 0.
Proof.
  unfold createAndSendAlert. rewrite deliverAlert_eq. cbn.
  unfold id_of. rewrite Nat.add_1_r. auto.
Qed.

(** The alerts of one call are numbered from the counter on. *)
Lemma process_rules_ids now rs : forall e acc st,
  exists new,
    snd (process_rules cfg now rs e acc st) = acc ++ new
    /\ alertCounter (fst (process_rules cfg now rs e acc st))
       = (alertCounter st + length new)%nat
    /\ map id new = map (id_of st now) (seq 0 (length new)).
Proof.
  induction rs as [|r rs IH]; intros e acc st.
  - exists []. cbn. rewrite app_nil_r, Nat.add_0_r. auto.
  - cbn [process_rules].
    destruct (condition r e); cbn [negb]; [|apply IH].
    destruct (isThrottled cfg now st r); [apply IH|].
    destruct (createAndSendAlert_counter now r e st) as [Hcount Hid].
    destruct (createAndSendAlert cfg now r e st) as [st1 a].
    cbn [fst snd] in Hcount, Hid.
    destruct (IH e (acc ++ [a]) (set_lastAlert now (name r) st1))
      as (new & Hout & Hcounter & Hids).
    exists (a :: new). rewrite Hout, <- app_assoc. split; [reflexivity|].
    cbn [set_lastAlert alertCounter] in Hcounter.
    split; [rewrite Hcounter, Hcount; cbn; lia|].
    cbn [map length seq]. rewrite Hid. f_equal.
    rewrite Hids, <- seq_shift, map_map. apply map_ext. intros k.
    unfold id_of. cbn [set_lastAlert alertCounter]. rewrite Hcount.
    do 3 f_equal. lia.
Qed.



(** A call that returns no alert has changed nothing. *)
Lemma process_rules_quiet now rs : forall e acc st,
  (length (snd (process_rules cfg now rs e acc st)) <= length acc)%nat ->
  fst (process_rules cfg now rs e acc st) = st.
Proof.
  induction rs as [|r rs IH]; intros e acc st Hlen; [reflexivity|].
  cbn [process_rules] in *.
  destruct (condition r e); cbn [negb] in *; [|by apply IH].
  destruct (isThrottled cfg now st r); [by apply IH|].
  destruct (createAndSendAlert cfg now r e st) as [st1 a].
  destruct (process_rules_ids now rs e (acc ++ [a])
              (set_lastAlert now (name r) st1)) as (new & Hout & _).
  rewrite Hout, !length_app in Hlen. cbn in Hlen. lia.
Qed.

End AlertingMore.


(** X25. Delivery never records a failure.  The alert a rule raises has
    a delivery result, always [true], for exactly the channels of the
    rule that are among "console", "slack", "email" and "webhook",
    whether or not the channel is configured; other channel names are
    passed over without a record.  [delivered] is true exactly when the
    rule names one of the four, and the alert is stored in the history
    either way. *)
Theorem delivery_never_records_failure
    (cfg : AlertingSystem.config) (now : Z) (r : AlertingSystem.rule)
    (e : AlertingSystem.event) (st : AlertingSystem.state) :
  let sent := AlertingSystem.createAndSendAlert cfg now r e st in
  (forall ch,
     AlertingSystem.deliveryResults (snd sent) !! ch
     = if bool_decide (ch ∈ AlertingSystem.channels r /\ ch ∈ known_channels)
       then Some true else None)
  /\ (AlertingSystem.delivered (snd sent) = true
      <-> exists ch, ch ∈ AlertingSystem.channels r /\ ch ∈ known_channels)
  /\ AlertingSystem.alertHistory (fst sent)
     = AlertingSystem.alertHistory st ++ [snd sent].
Proof.
  cbv zeta. unfold AlertingSystem.createAndSendAlert.
  rewrite deliverAlert_eq. cbn.
  assert (Hres : forall ch,
            fst (fold_left
                   (fun acc channel =>
                      AlertingSystem.deliver_on cfg
                        ("alert_" +:+ pretty (S (AlertingSystem.alertCounter st))
                         +:+ "_" +:+ pretty now) channel acc)
                   (AlertingSystem.channels r) (∅, AlertingSystem.effects st))
              !! ch
            = if bool_decide (ch ∈ AlertingSystem.channels r
                              /\ ch ∈ known_channels)
              then Some true else None).
  { intros ch. rewrite fold_deliver_results, lookup_empty. reflexivity. }
  split; [exact Hres|]. split; [|reflexivity].
  rewrite some_delivered. split.
  - intros [ch Hch]. rewrite Hres in Hch. exists ch.
    case_bool_decide; [assumption|discriminate].
  - intros [ch Hch]. exists ch. rewrite Hres.
    case_bool_decide; [reflexivity|contradiction].
Qed.

(** X26. An event for which [processEvent] returns no alert leaves no
    trace: the history, the throttle timestamps, the counter and what
    has been delivered are as before. *)
Theorem quiet_event_leaves_no_trace
    (cfg : AlertingSystem.config) (now : Z) (e : AlertingSystem.event)
    (st : AlertingSystem.state) :
  snd (AlertingSystem.processEvent cfg now e st) = [] ->
  fst (AlertingSystem.processEvent cfg now e st) = st.
Proof.
  intros Hquiet. unfold AlertingSystem.processEvent in *.
  apply process_rules_quiet. rewrite Hquiet. cbn. lia.
Qed.

Lemma quiet_event_leaves_no_trace_witness :
  fst (AlertingSystem.processEvent AlertingExamples.config 9000
         (change_event AlertingRuns.slowdown) AlertingRuns.after_custom)
  = AlertingRuns.after_custom.
Proof.
  apply (quiet_event_leaves_no_trace AlertingExamples.config 9000
           (change_event AlertingRuns.slowdown) AlertingRuns.after_custom).
  reflexivity.
Defined.

(** X27. A custom alert is outside the rules.  [sendAlert] always
    stores and emits its alert, under the rule name "custom", with
    severity "info" and the console channel unless told otherwise; it
    leaves the throttle timestamps alone, so no rule is throttled or
    released by it, and the alert is the first of [getHistory]. *)
Theorem custom_alert_is_outside_the_rules
    (cfg : AlertingSystem.config) (now : Z) (text : string)
    (sev : option severity) (chans : option (list string))
    (st : AlertingSystem.state) :
  let sent := AlertingSystem.sendAlert cfg now text sev chans st in
  AlertingSystem.alertHistory (fst sent)
    = AlertingSystem.alertHistory st ++ [snd sent]
  /\ AlertingSystem.alertCounter (fst sent)
     = S (AlertingSystem.alertCounter st)
  /\ AlertingSystem.alert_rule (snd sent) = "custom"
  /\ AlertingSystem.alert_severity (snd sent) = default Info sev
  /\ AlertingSystem.alert_channels (snd sent) = default ["console"] chans
  /\ (forall later r,
        AlertingSystem.isThrottled cfg later (fst sent) r
        = AlertingSystem.isThrottled cfg later st r)
  /\ head (AlertingSystem.getHistory None (fst sent)) = Some (snd sent).
Proof.
  cbv zeta. unfold AlertingSystem.sendAlert. rewrite deliverAlert_eq. cbn.
  repeat split; auto.
  unfold AlertingSystem.getHistory. cbn. by rewrite rev_unit.
Qed.

(** X28. [getHistory(limit)] lists the newest alert first.  A positive
    limit keeps the [limit] most recent alerts; no limit and the limit 0
    give the whole history; a negative limit leaves out that many of the
    oldest alerts. *)
Theorem history_limits
    (limit : Z) (st : AlertingSystem.state) :
  let h := AlertingSystem.alertHistory st in
  AlertingSystem.getHistory None st = rev h
  /\ AlertingSystem.getHistory (Some limit) st
     = if limit =? 0 then rev h
       else if 0 <? limit
            then rev (drop (length h - Z.to_nat limit) h)
            else rev (drop (Z.to_nat (- limit)) h).
Proof.
  cbv zeta. unfold AlertingSystem.getHistory, AlertingSystem.slice_to.
  split; [reflexivity|].
  destruct (Z.eqb_spec limit 0); [reflexivity|].
  rewrite length_rev.
  destruct (Z.ltb_spec limit 0); destruct (Z.ltb_spec 0 limit); try lia.
  - rewrite firstn_rev.
    destruct (Z.le_gt_cases (- limit)
                (Z.of_nat (length (AlertingSystem.alertHistory st)))).
    + do 2 f_equal. lia.
    + rewrite !drop_ge by lia. reflexivity.
  - rewrite firstn_rev. reflexivity.
Qed.

(** X29. Under the default rules a drift record of the performance
    kind raises no alert at all: only structural drift, critical
    checks, responses slower than ten seconds and regional mismatches
    have a rule. *)
Theorem performance_drift_raises_no_default_alert
    (cfg : AlertingSystem.config) (now : Z) (c : EnvironmentMonitor.change)
    (st : AlertingSystem.state) :
  AlertingSystem.rules cfg = AlertingSystem.defaultAlertRules ->
  EnvironmentMonitor.changeType c = EnvironmentMonitor.Performance ->
  AlertingSystem.processEvent cfg now (change_event c) st = (st, []).
Proof.
  intros Hrules Hkind. unfold AlertingSystem.processEvent. rewrite Hrules.
  cbn. unfold EnvironmentMonitor.is_structure. rewrite Hkind. reflexivity.
Qed.

Lemma performance_drift_raises_no_default_alert_witness :
  AlertingSystem.processEvent AlertingExamples.config 9000
    (change_event AlertingRuns.slowdown) AlertingSystem.initial
  = (AlertingSystem.initial, []).
Proof.
  apply (performance_drift_raises_no_default_alert AlertingExamples.config
           9000 AlertingRuns.slowdown AlertingSystem.initial).
  - reflexivity.
  - reflexivity.
Defined.

(** A healthy status leaves no room for an issue. *)
Lemma healthy_no_issue (found : list EnvironmentMonitor.issue)
    (i : EnvironmentMonitor.issue) :
  EnvironmentMonitor.determineStatus found = "healthy" ->
  i ∈ found ->
  EnvironmentMonitor.issue_severity i = Info.
Proof.
  rewrite determineStatus_cases. intros Hstatus Hin.
  destruct (existsb (fun i => EnvironmentMonitor.critical_severity
                                (EnvironmentMonitor.issue_severity i)) found)
    eqn:Hcrit; [discriminate|].
  destruct (existsb (fun i => EnvironmentMonitor.warning_severity
                                (EnvironmentMonitor.issue_severity i)) found)
    eqn:Hwarn; [discriminate|].
  apply list_elem_of_In in Hin.
  destruct (EnvironmentMonitor.issue_severity i) eqn:Hsev; [reflexivity|..];
    exfalso.
  - assert (Hx : existsb (fun i => EnvironmentMonitor.warning_severity
                                     (EnvironmentMonitor.issue_severity i))
                   found = true); [|congruence].
    apply existsb_exists. exists i. by rewrite Hsev.
  - assert (Hx : existsb (fun i => EnvironmentMonitor.critical_severity
                                     (EnvironmentMonitor.issue_severity i))
                   found = true); [|congruence].
    apply existsb_exists. exists i. by rewrite Hsev.
Qed.

(** What a healthy check has observed, as far as the default rules
    look. *)
Lemma healthy_check_shape
    (mcfg : EnvironmentMonitor.config) (t : EnvironmentMonitor.target)
    (obs : EnvironmentMonitor.observation) :
  EnvironmentMonitor.check_status (EnvironmentMonitor.checkTarget mcfg t obs)
    = "healthy" ->
  EnvironmentMonitor.responseTime (EnvironmentMonitor.checkTarget mcfg t obs)
    = EnvironmentMonitor.elapsed obs
  /\ EnvironmentMonitor.elapsed obs
     <= JS.num_or_else (EnvironmentMonitor.maxResponseTime t) 5000
  /\ AlertingSystem.mismatched (EnvironmentMonitor.checkTarget mcfg t obs) = [].
Proof.
  unfold EnvironmentMonitor.checkTarget, AlertingSystem.mismatched.
  set (maxTime := JS.num_or_else (EnvironmentMonitor.maxResponseTime t) 5000).
  set (sels := default [] (EnvironmentMonitor.selectors t)).
  set (slow := if maxTime <? EnvironmentMonitor.elapsed obs
               then [EnvironmentMonitor.slow_response
                       (EnvironmentMonitor.elapsed obs) maxTime]
               else []).
  destruct (check_selectors_spec obs sels ∅ slow) as (extra & Hfound & _).
  destruct (EnvironmentMonitor.check_selectors obs sels ∅ slow)
    as [[matches found] [message|]];
    cbn [EnvironmentMonitor.check_status EnvironmentMonitor.responseTime
         EnvironmentMonitor.geoResults]; [intros [=]|].
  cbn [fst snd] in Hfound. subst found. intros Hhealthy.
  split; [reflexivity|]. split.
  - subst slow. destruct (Z.ltb_spec maxTime (EnvironmentMonitor.elapsed obs));
      [exfalso|assumption].
    assert (Hsev : EnvironmentMonitor.issue_severity
                     (EnvironmentMonitor.slow_response
                        (EnvironmentMonitor.elapsed obs) maxTime) = Info).
    { apply (healthy_no_issue _ _ Hhealthy).
      destruct (Nat.ltb 1 (length (EnvironmentMonitor.geos mcfg)));
        [destruct (EnvironmentMonitor.mismatches _)|];
        rewrite ?elem_of_app, elem_of_cons; auto. }
    cbn in Hsev. destruct (_ <? _) in Hsev; discriminate.
  - destruct (Nat.ltb 1 (length (EnvironmentMonitor.geos mcfg)));
      [|reflexivity].
    change (map fst (List.filter (fun gr => String.eqb (snd gr) "mismatch")
                       (EnvironmentMonitor.geo_statuses obs)))
      with (EnvironmentMonitor.mismatches
              (EnvironmentMonitor.geo_statuses obs)).
    destruct (EnvironmentMonitor.mismatches
                (EnvironmentMonitor.geo_statuses obs)) as [|g gs] eqn:Hms;
      [reflexivity|exfalso].
    match type of Hhealthy with
    | EnvironmentMonitor.determineStatus (_ ++ [?geo_issue]) = _ =>
        assert (Hsev : EnvironmentMonitor.issue_severity geo_issue = Info)
          by (apply (healthy_no_issue _ _ Hhealthy), elem_of_app; right;
              by left)
    end.
    discriminate.
Qed.

(** X30. A healthy check of a target whose response-time limit is at
    most ten seconds, piped into an alerting system with the default
    rules, raises no alert and leaves the system as it was. *)
Theorem healthy_check_raises_no_default_alert
    (cfg : AlertingSystem.config) (now : Z)
    (mcfg : EnvironmentMonitor.config) (t : EnvironmentMonitor.target)
    (obs : EnvironmentMonitor.observation) (st : AlertingSystem.state) :
  AlertingSystem.rules cfg = AlertingSystem.defaultAlertRules ->
  JS.num_or_else (EnvironmentMonitor.maxResponseTime t) 5000 <= 10000 ->
  EnvironmentMonitor.check_status (EnvironmentMonitor.checkTarget mcfg t obs)
    = "healthy" ->
  AlertingSystem.processEvent cfg now
    (health_event (EnvironmentMonitor.checkTarget mcfg t obs)) st
  = (st, []).
Proof.
  intros Hrules Hmax Hhealthy.
  destruct (healthy_check_shape mcfg t obs Hhealthy) as (Htime & Hfast & Hgeo).
  unfold AlertingSystem.processEvent. rewrite Hrules.
  cbn [AlertingSystem.defaultAlertRules AlertingSystem.process_rules
       AlertingSystem.condition AlertingSystem.critical_health
       AlertingSystem.structure_change AlertingSystem.performance_degradation
       AlertingSystem.geo_mismatch AlertingSystem.data health_event].
  rewrite Hhealthy, Htime, Hgeo. cbn [String.eqb Ascii.eqb Bool.eqb negb].
  destruct (Z.ltb_spec 10000 (EnvironmentMonitor.elapsed obs)); [lia|].
  reflexivity.
Qed.

Lemma healthy_check_raises_no_default_alert_witness :
  AlertingSystem.processEvent AlertingExamples.config 9000
    (health_event
       (EnvironmentMonitor.checkTarget MonitorRuns.config MonitorRuns.shop
          (MonitorRuns.steady 0))) AlertingSystem.initial
  = (AlertingSystem.initial, []).
Proof.
  apply (healthy_check_raises_no_default_alert AlertingExamples.config 9000
           MonitorRuns.config MonitorRuns.shop (MonitorRuns.steady 0)
           AlertingSystem.initial).
  - reflexivity.
  - vm_compute. discriminate.
  - reflexivity.
Defined.
